(** * Virtua Grotesk print-proof generator: a verification development

    A shallow embedding of [proof.py] and the properties of its page
    layout.  The script drives two external libraries: fontTools (to read
    a font's naming table and character map) and DrawBot (a page-based
    drawing surface).  Both are modelled by what the script consumes of
    them:

    - a parsed font is a record [ttfont], whose Unicode character map
      may be absent; opening a path is an oracle [open_font] that may
      fail, and so is writing the document ([can_save]);
    - DrawBot is a state: the pages drawn so far, the current graphics
      state and the save/restore stack.  Text measurement
      ([db.textSize]) is an injected function of the current font, the
      current size and the string.

    Python [str] is a sequence of code points, so strings are lists of
    code points ([pystr]); [len], slicing and [join] are the list
    operations.  Python floats are modelled by exact rationals ([Q]).
    The vertical cursors only ever hold multiples of a tenth of a point,
    and no comparison of a cursor with a bottom margin comes closer than
    a tenth of a point to its threshold, many orders of magnitude more
    than the rounding of double precision: the rational cursor takes
    every branch the floating-point cursor takes.  Measured widths are
    whatever the injected measurer returns. *)

From Stdlib Require Import QArith Qround Lqa.
From stdpp Require Import base list sorting gmap strings.
From Equations Require Import Equations.

Local Open Scope Z_scope.

(** ** Python strings *)

Definition pystr := list N.

Fixpoint py (s : string) : pystr :=
  match s with
  | EmptyString => []
  | String a s' => Ascii.N_of_ascii a :: py s'
  end.

(** [sep.join(parts)] *)
Fixpoint join (sep : pystr) (parts : list pystr) : pystr :=
  match parts with
  | [] => []
  | [p] => p
  | p :: rest => p ++ sep ++ join sep rest
  end.

(** [list(s)]: the one-character strings of [s]. *)
Definition chars (s : pystr) : list pystr := map (fun c => [c]) s.

(** [chr(cp)].  The keys of a Unicode character map are code points
    below [0x110000], where [chr] is defined. *)
Definition chr (cp : N) : pystr := [cp].

(** [s[:n]] and [s[n:]] for [0 <= n]. *)
Definition slice_to (n : nat) (s : pystr) : pystr := take n s.
Definition slice_from (n : nat) (s : pystr) : pystr := drop n s.

(** [s[:-2]] *)
Definition drop_last2 (s : pystr) : pystr := take (length s - 2)%nat s.

(** *** Number formatting *)

Definition digit_char (d : N) : N :=
  if (d <? 10)%N then (48 + d)%N else (55 + d)%N.

Fixpoint digits_aux (base : N) (fuel : nat) (n : N) (acc : pystr) : pystr :=
  match fuel with
  | O => acc
  | S fuel' =>
      let acc' := digit_char (n mod base)%N :: acc in
      if (n / base =? 0)%N then acc' else digits_aux base fuel' (n / base)%N acc'
  end.

Definition digits (base n : N) : pystr :=
  digits_aux base (S (N.to_nat (N.log2 n))) n [].

(** [f"{n}"] for a non-negative integer. *)
Definition str_of_N (n : N) : pystr := digits 10 n.

Definition str_of_Z (z : Z) : pystr :=
  if z <? 0 then 45%N :: str_of_N (Z.to_N (- z)) else str_of_N (Z.to_N z).

(** [f"{cp:04X}"]: upper-case hexadecimal, zero-filled to four places. *)
Definition format_04X (cp : N) : pystr :=
  let d := digits 16 cp in
  replicate (4 - length d)%nat 48%N ++ d.

(** ** Page settings *)

Definition PAGE_WIDTH : Z := 612.
Definition PAGE_HEIGHT : Z := 792.
Definition MARGIN : Z := 36.

(** ** Rationals standing for Python floats *)

Local Coercion inject_Z : Z >-> Q.

Definition Qltb (a b : Q) : bool := negb (Qle_bool b a).

#[global] Instance Q_eq_dec : EqDecision Q.
Proof. solve_decision. Defined.

(** [int(q)] for a non-negative float. *)
Definition int_of_Q (q : Q) : Z := Qfloor q.

(** ** The drawing surface *)

Record gstate := GState {
  gs_font : pystr;
  gs_fontSize : Q;
  gs_fill : option Q;
  gs_stroke : option Q;
  gs_strokeWidth : Q
}.

#[global] Instance gstate_eq_dec : EqDecision gstate.
Proof. solve_decision. Defined.

(** DrawBot's defaults; [newPage] resets the graphics state to them. *)
Definition default_gstate : gstate :=
  GState (py "LucidaGrande") 10 (Some 0%Q) None 1.

Inductive prim :=
| PText (g : gstate) (txt : pystr) (x y : Q)
| PTextBox (g : gstate) (txt : pystr) (x y w h : Q)
| PRect (g : gstate) (x y w h : Q).

#[global] Instance prim_eq_dec : EqDecision prim.
Proof. solve_decision. Defined.

(** A page: its size and what was drawn on it, most recent first. *)
Record page := Page {
  pg_size : Z * Z;
  pg_prims : list prim
}.

(** The surface: pages most recent first (the head is the current
    page), the graphics state and the [save]/[restore] stack. *)
Record canvas := Canvas {
  pages : list page;
  gs : gstate;
  stack : list gstate
}.

(** The pages in the order of the finished document, each with its
    primitives in drawing order. *)
Definition document (c : canvas) : list (list prim) :=
  rev (map (fun p => rev (pg_prims p)) (pages c)).

(** *** A state monad for drawing code *)

Definition Draw (A : Type) : Type := canvas -> A * canvas.

Definition ret {A} (a : A) : Draw A := fun c => (a, c).

Definition bind {A B} (m : Draw A) (k : A -> Draw B) : Draw B :=
  fun c => k (fst (m c)) (snd (m c)).

Definition exec {A} (m : Draw A) (c : canvas) : canvas := snd (m c).
Definition eval {A} (m : Draw A) (c : canvas) : A := fst (m c).

Declare Scope draw_scope.
Delimit Scope draw_scope with draw.
Notation "x <- m ;; k" := (bind m (fun x => k))
  (at level 100, m at next level, right associativity) : draw_scope.
Notation "m ;; k" := (bind m (fun _ => k))
  (at level 100, right associativity) : draw_scope.
Local Open Scope draw_scope.

Definition modify (f : canvas -> canvas) : Draw unit := fun c => (tt, f c).

Definition set_gs (f : gstate -> gstate) : Draw unit :=
  modify (fun c => Canvas (pages c) (f (gs c)) (stack c)).

(** Drawing without any page open makes DrawBot open one of its default
    size first. *)
Definition add_prim (mk : gstate -> prim) : Draw unit :=
  modify (fun c =>
    match pages c with
    | [] => Canvas [Page (1000, 1000) [mk (gs c)]] (gs c) (stack c)
    | p :: ps =>
        Canvas (Page (pg_size p) (mk (gs c) :: pg_prims p) :: ps) (gs c) (stack c)
    end).

Module db.

Definition newDrawing : Draw unit :=
  modify (fun _ => Canvas [] default_gstate []).

Definition newPage (w h : Z) : Draw unit :=
  modify (fun c => Canvas (Page (w, h) [] :: pages c) default_gstate []).

Definition save : Draw unit :=
  modify (fun c => Canvas (pages c) (gs c) (gs c :: stack c)).

Definition restore : Draw unit :=
  modify (fun c =>
    match stack c with
    | [] => c
    | g :: s => Canvas (pages c) g s
    end).

Definition font (name : pystr) (size : Q) : Draw unit :=
  set_gs (fun g => GState name size (gs_fill g) (gs_stroke g) (gs_strokeWidth g)).

Definition fill (v : option Q) : Draw unit :=
  set_gs (fun g => GState (gs_font g) (gs_fontSize g) v (gs_stroke g) (gs_strokeWidth g)).

Definition stroke (v : option Q) : Draw unit :=
  set_gs (fun g => GState (gs_font g) (gs_fontSize g) (gs_fill g) v (gs_strokeWidth g)).

Definition strokeWidth (v : Q) : Draw unit :=
  set_gs (fun g => GState (gs_font g) (gs_fontSize g) (gs_fill g) (gs_stroke g) v).

Definition text (txt : pystr) (x y : Q) : Draw unit :=
  add_prim (fun g => PText g txt x y).

Definition textBox (txt : pystr) (x y w h : Q) : Draw unit :=
  add_prim (fun g => PTextBox g txt x y w h).

Definition rect (x y w h : Q) : Draw unit :=
  add_prim (fun g => PRect g x y w h).

Definition pageCount : Draw nat := fun c => (length (pages c), c).

End db.

(** ** Fonts as the script reads them *)

(** What [TTFont] exposes to the script: the naming records (nameID and
    decoded string), the glyph order, [head.unitsPerEm] and
    [getBestCmap()], the best Unicode character map, which is [None]
    for a font without a Unicode subtable. *)
Record ttfont := TTFont {
  tt_names : list (N * pystr);
  tt_glyphOrder : list pystr;
  tt_unitsPerEm : N;
  tt_bestCmap : option (gmap N pystr)
}.

Record font_info := FontInfo {
  family : pystr;
  style : pystr;
  version : pystr;
  designer : pystr;
  glyph_count : N;
  upm : N
}.

Definition name_step (info : font_info) (record : N * pystr) : font_info :=
  let '(nameID, s) := record in
  if (nameID =? 1)%N then
    FontInfo s (style info) (version info) (designer info) (glyph_count info) (upm info)
  else if (nameID =? 2)%N then
    FontInfo (family info) s (version info) (designer info) (glyph_count info) (upm info)
  else if (nameID =? 5)%N then
    FontInfo (family info) (style info) s (designer info) (glyph_count info) (upm info)
  else if (nameID =? 9)%N then
    FontInfo (family info) (style info) (version info) s (glyph_count info) (upm info)
  else info.

Definition get_font_info (tt : ttfont) : font_info :=
  let info := foldl name_step (FontInfo [] [] [] [] 0 0) (tt_names tt) in
  FontInfo (family info) (style info) (version info) (designer info)
           (N.of_nat (length (tt_glyphOrder tt))) (tt_unitsPerEm tt).

Definition get_cmap (tt : ttfont) : option (gmap N pystr) := tt_bestCmap tt.

(** ** The page templates *)

Definition Qgtb (a b : Q) : bool := Qltb b a.

Definition Helvetica : pystr := py "Helvetica".

Definition uppercase : pystr := py "ABCDEFGHIJKLMNOPQRSTUVWXYZ".
Definition lowercase : pystr := py "abcdefghijklmnopqrstuvwxyz".
Definition numerals : pystr := py "0123456789".

(** The punctuation string; the quotation mark is code point 34, the
    two dashes are U+2013 and U+2014. *)
Definition punctuation : pystr :=
  py ".,;:!?" ++ [34%N] ++ py "'`-" ++ [0x2013%N; 0x2014%N] ++
  py "()[]{}/@#$%^&*+=<>".

(** The truncation loop of [spacing_page]:
    [while width(line) > PAGE_WIDTH - 2 * MARGIN and len(line) > 10:
       line = line[:-2]]. *)
Equations? truncate_loop (width : pystr -> Q) (line : pystr) : pystr
  by wf (length line) lt :=
  truncate_loop width line
    with Logic.inspect (Qgtb (width line) (PAGE_WIDTH - 2 * MARGIN)%Z
                  && (10 <? length line)%nat) := {
    | exist _ true _ => truncate_loop width (drop_last2 line)
    | exist _ false _ => line }.
Proof.
  apply andb_prop in e as [_ Hlen]. apply Nat.ltb_lt in Hlen.
  unfold drop_last2. rewrite length_take. lia.
Qed.

(** The whole block of [spacing_page], for a given way to measure:
    [if width(line) > PAGE_WIDTH - 2 * MARGIN: while ...]. *)
Definition truncated (width : pystr -> Q) (line : pystr) : pystr :=
  if Qgtb (width line) (PAGE_WIDTH - 2 * MARGIN)%Z
  then truncate_loop width line else line.

(** What a run does to the outside world, in order. *)
Inductive event :=
| EvPrint (line : pystr)
| EvOpenFont (path : pystr)
| EvSaveImage (path : pystr) (doc : list (list prim)).

(** How a call ends: it returns, or an exception escapes it. *)
Inductive outcome (A : Type) :=
| Returned (a : A)
| Raised.
Arguments Returned {A} a.
Arguments Raised {A}.

Section Templates.

(** [measure font size txt] is [db.textSize(txt)[0]] when [font] at
    [size] is current. *)
Variable measure : pystr -> Q -> pystr -> Q.
(** [datetime.now()] formatted as [%Y-%m-%d] and as [%Y-%m-%d %H:%M]. *)
Variable date_str : pystr.
Variable stamp_str : pystr.

Definition textSize (txt : pystr) : Draw Q :=
  fun c => (measure (gs_font (gs c)) (gs_fontSize (gs c)) txt, c).

Definition draw_header (font_info : font_info) (page_title : pystr) : Draw unit :=
  db.save ;;
  db.font Helvetica 9 ;;
  db.fill (Some 0.4%Q) ;;
  let header_text := family font_info ++ py " " ++ style font_info in
  db.text header_text MARGIN (PAGE_HEIGHT - MARGIN + 10)%Z ;;
  title_width <- textSize page_title ;;
  db.text page_title ((PAGE_WIDTH - MARGIN)%Z - title_width)%Q
          (PAGE_HEIGHT - MARGIN + 10)%Z ;;
  db.restore.

Definition draw_footer : Draw unit :=
  db.save ;;
  db.font Helvetica 8 ;;
  db.fill (Some 0.5%Q) ;;
  db.text date_str MARGIN (MARGIN - 20)%Z ;;
  db.restore.

(** [for line in meta_lines: db.text(line, (MARGIN, y)); y -= 16] *)
Fixpoint title_meta_loop (meta_lines : list pystr) (y : Z) : Draw unit :=
  match meta_lines with
  | [] => ret tt
  | line :: rest =>
      db.text line MARGIN y ;;
      title_meta_loop rest (y - 16)
  end.

Definition title_page (font_path : pystr) (font_info : font_info) : Draw unit :=
  db.newPage PAGE_WIDTH PAGE_HEIGHT ;;
  let y := PAGE_HEIGHT - MARGIN - 80 in
  db.font font_path 48 ;;
  db.fill (Some 0%Q) ;;
  db.text (family font_info) MARGIN y ;;
  let y := y - 50 in
  db.font font_path 24 ;;
  db.text (style font_info) MARGIN y ;;
  let y := y - 80 in
  db.font font_path 72 ;;
  let specimen := py "Aa Bb Cc" in
  db.text specimen MARGIN y ;;
  let y := y - 90 in
  db.text (py "Dd Ee Ff") MARGIN y ;;
  let y := y - 90 in
  db.text (py "Gg Hh Ii") MARGIN y ;;
  let y := y - 120 in
  db.font Helvetica 10 ;;
  db.fill (Some 0.3%Q) ;;
  let meta_lines := [
    py "Family: " ++ family font_info;
    py "Style: " ++ style font_info;
    py "Version: " ++ version font_info;
    py "Glyphs: " ++ str_of_N (glyph_count font_info);
    py "Units per Em: " ++ str_of_N (upm font_info);
    py "Generated: " ++ stamp_str ] in
  let meta_lines :=
    match designer font_info with
    | [] => meta_lines
    | _ :: _ =>
        take 2 meta_lines ++ [py "Designer: " ++ designer font_info]
          ++ drop 2 meta_lines
    end in
  title_meta_loop meta_lines y.

(** The block the templates repeat for a line that may be too wide
    (alphabet_page twice, numerals_page once):
    [if db.textSize(txt)[0] > PAGE_WIDTH - 2 * MARGIN:
       mid = len(txt) // 2
       db.text(txt[:mid], (MARGIN, y)); y -= size * 1.3
       db.text(txt[mid:], (MARGIN, y))
     else: db.text(txt, (MARGIN, y))].
    It returns the cursor [y] it leaves. *)
Definition fit_or_split (txt : pystr) (size : Z) (y : Q) : Draw Q :=
  width <- textSize txt ;;
  if Qgtb width (PAGE_WIDTH - 2 * MARGIN)%Z then
    let mid := (length txt / 2)%nat in
    db.text (slice_to mid txt) MARGIN y ;;
    let y := (y - size * 1.3)%Q in
    db.text (slice_from mid txt) MARGIN y ;;
    ret y
  else
    db.text txt MARGIN y ;;
    ret y.

Fixpoint alphabet_loop (font_path : pystr) (sizes : list Z) (y : Q) : Draw unit :=
  match sizes with
  | [] => ret tt
  | size :: rest =>
      db.font font_path size ;;
      db.fill (Some 0%Q) ;;
      y <- fit_or_split uppercase size y ;;
      let y := (y - size * 1.3)%Q in
      y <- fit_or_split lowercase size y ;;
      let y := (y - size * 1.8)%Q in
      if Qltb y (MARGIN + 50)%Z then ret tt
      else alphabet_loop font_path rest y
  end.

Definition alphabet_page (font_path : pystr) (font_info : font_info) : Draw unit :=
  db.newPage PAGE_WIDTH PAGE_HEIGHT ;;
  draw_header font_info (py "Alphabet") ;;
  draw_footer ;;
  let y := PAGE_HEIGHT - MARGIN - 40 in
  let sizes := [48; 36; 24; 18; 14; 11; 9] in
  alphabet_loop font_path sizes y.

(** [for size in sizes[:4]: ...] of [numerals_page]. *)
Fixpoint numerals_loop (font_path : pystr) (sizes : list Z) (y : Q) : Draw Q :=
  match sizes with
  | [] => ret y
  | size :: rest =>
      db.font font_path size ;;
      db.fill (Some 0%Q) ;;
      db.text numerals MARGIN y ;;
      numerals_loop font_path rest (y - size * 1.5)%Q
  end.

(** [for size in sizes[2:]: ...] of [numerals_page]. *)
Fixpoint punctuation_loop (font_path : pystr) (sizes : list Z) (y : Q) : Draw unit :=
  match sizes with
  | [] => ret tt
  | size :: rest =>
      db.font font_path size ;;
      db.fill (Some 0%Q) ;;
      y <- fit_or_split punctuation size y ;;
      let y := (y - size * 1.5)%Q in
      if Qltb y (MARGIN + 30)%Z then ret tt
      else punctuation_loop font_path rest y
  end.

Definition numerals_page (font_path : pystr) (font_info : font_info) : Draw unit :=
  db.newPage PAGE_WIDTH PAGE_HEIGHT ;;
  draw_header font_info (py "Numerals & Punctuation") ;;
  draw_footer ;;
  let y := PAGE_HEIGHT - MARGIN - 50 in
  let sizes := [72; 48; 36; 24; 18; 14] in
  db.font Helvetica 10 ;;
  db.fill (Some 0.5%Q) ;;
  db.text (py "NUMERALS") MARGIN y ;;
  let y := y - 20 in
  y <- numerals_loop font_path (take 4 sizes) y ;;
  let y := (y - 20)%Q in
  db.font Helvetica 10 ;;
  db.fill (Some 0.5%Q) ;;
  db.text (py "PUNCTUATION") MARGIN y ;;
  let y := (y - 20)%Q in
  punctuation_loop font_path (drop 2 sizes) y.

Fixpoint waterfall_loop (font_path : pystr) (sizes : list Z) (y : Q) : Draw unit :=
  match sizes with
  | [] => ret tt
  | size :: rest =>
      db.font font_path size ;;
      db.fill (Some 0%Q) ;;
      db.save ;;
      db.font Helvetica 8 ;;
      db.fill (Some 0.5%Q) ;;
      db.text (str_of_Z size ++ py "pt") MARGIN y ;;
      db.restore ;;
      db.font font_path size ;;
      db.fill (Some 0%Q) ;;
      db.text (py "Hamburgefontsiv") (MARGIN + 40)%Z y ;;
      let y := (y - size * 1.4)%Q in
      if Qltb y (MARGIN + 20)%Z then ret tt
      else waterfall_loop font_path rest y
  end.

Definition waterfall_page (font_path : pystr) (font_info : font_info) : Draw unit :=
  db.newPage PAGE_WIDTH PAGE_HEIGHT ;;
  draw_header font_info (py "Size Waterfall") ;;
  draw_footer ;;
  let y := PAGE_HEIGHT - MARGIN - 40 in
  let sizes := [72; 60; 48; 36; 30; 24; 20; 18; 16; 14; 12; 11; 10; 9; 8; 7; 6] in
  waterfall_loop font_path sizes y.

(** The truncation block of [spacing_page], measuring with
    [db.textSize] under the font that is current. *)
Definition fit_or_truncate (line : pystr) : Draw pystr :=
  fun c => (truncated (measure (gs_font (gs c)) (gs_fontSize (gs c))) line, c).

(** The probe line [c + c.join(list(lowercase)) + c]. *)
Definition probe_line (c : pystr) : pystr := c ++ join c (chars lowercase) ++ c.

Fixpoint spacing_loop (font_info : font_info) (letters : list pystr)
    (line_height : Q) (y : Q) : Draw unit :=
  match letters with
  | [] => ret tt
  | c :: rest =>
      let line := probe_line c in
      line <- fit_or_truncate line ;;
      db.text line MARGIN y ;;
      let y := (y - line_height)%Q in
      if Qltb y (MARGIN + 30)%Z then
        db.newPage PAGE_WIDTH PAGE_HEIGHT ;;
        draw_header font_info (py "Spacing Proof (continued)") ;;
        draw_footer ;;
        let y := PAGE_HEIGHT - MARGIN - 40 in
        spacing_loop font_info rest line_height y
      else spacing_loop font_info rest line_height y
  end.

Definition spacing_page (font_path : pystr) (font_info : font_info) : Draw unit :=
  db.newPage PAGE_WIDTH PAGE_HEIGHT ;;
  draw_header font_info (py "Spacing Proof") ;;
  draw_footer ;;
  let y := PAGE_HEIGHT - MARGIN - 40 in
  let size := 14 in
  let line_height := (size * 1.4)%Q in
  db.font font_path size ;;
  db.fill (Some 0%Q) ;;
  spacing_loop font_info (chars lowercase) line_height y.

Definition sample_text : pystr :=
  py "The quick brown fox jumps over the lazy dog. Pack my box with five dozen liquor jugs. How vexingly quick daft zebras jump! The five boxing wizards jump quickly. Sphinx of black quartz, judge my vow. Two driven jocks help fax my big quiz. The jay, pig, fox, zebra, and my wolves quack!".

Fixpoint paragraph_loop (font_path : pystr) (sizes : list Z) (y : Z) : Draw unit :=
  match sizes with
  | [] => ret tt
  | size :: rest =>
      db.font Helvetica 8 ;;
      db.fill (Some 0.5%Q) ;;
      db.text (str_of_Z size ++ py "pt / " ++ str_of_Z (int_of_Q (size * 1.4)%Q)
                 ++ py "pt leading") MARGIN y ;;
      let y := y - 14 in
      db.font font_path size ;;
      db.fill (Some 0%Q) ;;
      let box_height := size * 6 in
      let box_width := PAGE_WIDTH - 2 * MARGIN in
      db.textBox sample_text MARGIN (y - box_height)%Z box_width box_height ;;
      let y := y - (box_height + 30) in
      if y <? MARGIN + 80 then ret tt
      else paragraph_loop font_path rest y
  end.

Definition paragraph_page (font_path : pystr) (font_info : font_info) : Draw unit :=
  db.newPage PAGE_WIDTH PAGE_HEIGHT ;;
  draw_header font_info (py "Paragraph Setting") ;;
  draw_footer ;;
  let y := PAGE_HEIGHT - MARGIN - 40 in
  let sizes := [14; 12; 10; 9; 8] in
  paragraph_loop font_path sizes y.

Definition kern_pairs : list pystr := [
  py "AV AW AT AY Av Aw Ay AC AG AO AQ AU";
  py "FA TA PA VA WA YA LT LV LW LY";
  py "To Tr Tu Tw Ty Te Ta Tc Ts";
  py "Vo Va Ve Vu Vy Wo Wa We Wy";
  py "Ya Ye Yo Yu " ++ [34%N] ++ py "A" ++ [34%N] ++ py " 'A' " ++ [34%N]
    ++ py "T" ++ [34%N] ++ py " 'T' " ++ [34%N] ++ py "V" ++ [34%N];
  py "ff fi fl ffi ffl ft";
  py "oo oc oe og oq op od ob";
  py "rv ry rw ra re ro rc" ].

Fixpoint kerning_loop (font_path : pystr) (size : Z) (lines : list pystr) (y : Q)
    : Draw unit :=
  match lines with
  | [] => ret tt
  | pairs :: rest =>
      db.font font_path size ;;
      db.fill (Some 0%Q) ;;
      db.text pairs MARGIN y ;;
      let y := (y - size * 1.6)%Q in
      if Qltb y (MARGIN + 30)%Z then ret tt
      else kerning_loop font_path size rest y
  end.

Definition kerning_page (font_path : pystr) (font_info : font_info) : Draw unit :=
  db.newPage PAGE_WIDTH PAGE_HEIGHT ;;
  draw_header font_info (py "Kerning Pairs") ;;
  draw_footer ;;
  let y := PAGE_HEIGHT - MARGIN - 50 in
  let size := 24 in
  kerning_loop font_path size kern_pairs y.

(** Grid settings of [glyph_set_page].  [cell_size] is
    [(612 - 72) / 12 = 45.0]: the grid cursor only ever holds
    integers, which floating point represents exactly, so [x] and [y]
    are integers here. *)
Definition cols : Z := 12.
Definition cell_size : Z := (PAGE_WIDTH - 2 * MARGIN) / cols.
Definition glyph_size : Q := (cell_size * 0.6)%Q.
Definition x_start : Z := MARGIN.
Definition y_start : Z := PAGE_HEIGHT - MARGIN - 50.

(** [sorted(cmap.keys())] *)
Definition sorted_keys (cmap : gmap N pystr) : list N :=
  merge_sort N.le (map_to_list cmap).*1.

(** The title of a continuation page, [f"Character Set (page {page_num})"]. *)
Definition glyph_page_title (page_num : Z) : pystr :=
  py "Character Set (page " ++ str_of_Z page_num ++ py ")".

(** [for i, cp in enumerate(codepoints): ...]; the result is the
    [page_num] the loop leaves. *)
Fixpoint glyph_loop (font_path : pystr) (font_info : font_info)
    (codepoints : list N) (x y : Z) (page_num : Z) : Draw Z :=
  match codepoints with
  | [] => ret page_num
  | cp :: rest =>
      let char := chr cp in
      db.save ;;
      db.stroke (Some 0.85%Q) ;;
      db.strokeWidth 0.5%Q ;;
      db.fill None ;;
      db.rect x (y - cell_size)%Z cell_size cell_size ;;
      db.restore ;;
      db.save ;;
      db.font font_path glyph_size ;;
      db.fill (Some 0%Q) ;;
      char_width <- textSize char ;;
      let char_x := (x + (cell_size - char_width) / 2)%Q in
      let char_y := ((y - cell_size)%Z + cell_size * 0.25)%Q in
      db.text char char_x char_y ;;
      db.restore ;;
      db.save ;;
      db.font Helvetica 5 ;;
      db.fill (Some 0.6%Q) ;;
      let label := format_04X cp in
      db.text label (x + 2)%Z (y - cell_size + 3)%Z ;;
      db.restore ;;
      let x := x + cell_size in
      if x + cell_size >? PAGE_WIDTH - MARGIN then
        let x := x_start in
        let y := y - cell_size in
        if y - cell_size <? MARGIN then
          let page_num := page_num + 1 in
          db.newPage PAGE_WIDTH PAGE_HEIGHT ;;
          draw_header font_info (glyph_page_title page_num) ;;
          draw_footer ;;
          let x := x_start in
          let y := y_start in
          glyph_loop font_path font_info rest x y page_num
        else glyph_loop font_path font_info rest x y page_num
      else glyph_loop font_path font_info rest x y page_num
  end.

Definition glyph_set_page (font_path : pystr) (font_info : font_info)
    (cmap : gmap N pystr) (start_page : Z) : Draw Z :=
  db.newPage PAGE_WIDTH PAGE_HEIGHT ;;
  draw_header font_info (py "Character Set") ;;
  draw_footer ;;
  let x := x_start in
  let y := y_start in
  let codepoints := sorted_keys cmap in
  let page_num := start_page in
  glyph_loop font_path font_info codepoints x y page_num.

(** [range(a, b)] *)
Definition range (a b : N) : list N :=
  map (fun i => (a + N.of_nat i)%N) (seq 0 (N.to_nat (b - a))).

(** [for sample in samples: if sample: ...] of [arabic_page]. *)
Fixpoint arabic_samples_loop (samples : list pystr) (size : Z) (y : Q) : Draw Q :=
  match samples with
  | [] => ret y
  | sample :: rest =>
      match sample with
      | [] => arabic_samples_loop rest size y
      | _ :: _ =>
          db.text sample MARGIN y ;;
          arabic_samples_loop rest size (y - size * 1.5)%Q
      end
  end.

Fixpoint arabic_loop (font_path : pystr) (samples : list pystr)
    (sizes : list Z) (y : Q) : Draw unit :=
  match sizes with
  | [] => ret tt
  | size :: rest =>
      db.font font_path size ;;
      db.fill (Some 0%Q) ;;
      y <- arabic_samples_loop samples size y ;;
      let y := (y - 20)%Q in
      if Qltb y (MARGIN + 50)%Z then ret tt
      else arabic_loop font_path samples rest y
  end.

(** [[chr(cp) for cp in range(0x0600, 0x06FF) if cp in cmap]] *)
Definition arabic_chars (cmap : gmap N pystr) : list pystr :=
  let arabic_range := range 0x0600 0x06FF in
  map chr (filter (fun cp => is_Some (cmap !! cp)) arabic_range).

(** The two sample strings of [arabic_page]. *)
Definition arabic_samples (arabic_chars : list pystr) : list pystr := [
  join [] (take 28 arabic_chars);
  if (28 <? length arabic_chars)%nat
  then join [] (drop 28 (take 56 arabic_chars)) else [] ].

Definition arabic_page (font_path : pystr) (font_info : font_info)
    (cmap : gmap N pystr) : Draw unit :=
  let arabic_chars := arabic_chars cmap in
  match arabic_chars with
  | [] => ret tt
  | _ :: _ =>
      db.newPage PAGE_WIDTH PAGE_HEIGHT ;;
      draw_header font_info (py "Arabic") ;;
      draw_footer ;;
      let y := PAGE_HEIGHT - MARGIN - 50 in
      let samples := arabic_samples arabic_chars in
      let sizes := [48; 36; 24; 18] in
      arabic_loop font_path samples sizes y
  end.


(** ** The document driver *)

(** The file system, fontTools and the PDF writer, as far as the script
    uses them: [resolve] is [Path.resolve], [path_exists] is
    [Path.exists], [open_font path] is [TTFont(path)], [None] when it
    raises, and [can_save path] tells whether [db.saveImage(path)]
    writes the file and returns, rather than raising. *)
Variable resolve : pystr -> pystr.
Variable path_exists : pystr -> bool.
Variable open_font : pystr -> option ttfont.
Variable can_save : pystr -> bool.

(** [Path.name]: the last component of a resolved path. *)
Fixpoint path_name_aux (p acc : pystr) : pystr :=
  match p with
  | [] => acc
  | ch :: rest =>
      if (ch =? 47)%N then path_name_aux rest [] else path_name_aux rest (acc ++ [ch])
  end.
Definition path_name (p : pystr) : pystr := path_name_aux p [].

(** The nine templates on a fresh drawing, and [db.pageCount()], for a
    font whose character map is a dictionary. *)
Definition proof_pages (font_path : pystr) (font_info : font_info)
    (cmap : gmap N pystr) : Draw nat :=
  db.newDrawing ;;
  title_page font_path font_info ;;
  alphabet_page font_path font_info ;;
  numerals_page font_path font_info ;;
  waterfall_page font_path font_info ;;
  spacing_page font_path font_info ;;
  paragraph_page font_path font_info ;;
  kerning_page font_path font_info ;;
  glyph_set_page font_path font_info cmap 1 ;;
  arabic_page font_path font_info cmap ;;
  db.pageCount.

Definition generate_proof (font_path output_path : pystr)
    : outcome bool * list event :=
  let font_path := resolve font_path in
  let output_path := resolve output_path in
  if negb (path_exists font_path) then
    (Returned false, [EvPrint (py "Error: Font not found at " ++ font_path)])
  else
    let log := [EvPrint (py "Generating proof for: " ++ path_name font_path)] in
    (* get_font_info opens the font, get_cmap opens it again *)
    let log := log ++ [EvOpenFont font_path] in
    match open_font font_path with
    | None => (Raised, log)
    | Some ttf =>
        let font_info := get_font_info ttf in
        let log := log ++ [EvOpenFont font_path] in
        let cmap := get_cmap ttf in
        let log := log ++ [
          EvPrint (py "  Family: " ++ family font_info);
          EvPrint (py "  Style: " ++ style font_info);
          EvPrint (py "  Glyphs: " ++ str_of_N (glyph_count font_info));
          EvPrint (py "  Creating pages...") ] in
        match cmap with
        | None =>
            (* the first seven templates draw; glyph_set_page opens its
               page and raises at cmap.keys(); nothing is saved *)
            (Raised, log)
        | Some cmap =>
            let '(total_pages, c) :=
              proof_pages font_path font_info cmap (Canvas [] default_gstate []) in
            if can_save output_path then
              let log := log ++ [
                EvSaveImage output_path (document c);
                EvPrint (py "  Saved: " ++ output_path);
                EvPrint (py "  Pages: " ++ str_of_N (N.of_nat total_pages)) ] in
              (Returned true, log)
            else
              (* db.saveImage raises: no file, no further line *)
              (Raised, log)
        end
    end.

(** [__main__]: the exit status and what the run did.  An exception
    that escapes ends the interpreter with status 1. *)
Variable script_dir : pystr.

Definition main (argv : list pystr) : Z * list event :=
  let default_font := script_dir ++ py "/fonts/VirtuaGrotesk-Regular.ttf" in
  let default_output := script_dir ++ py "/proof.pdf" in
  let font_path := if (1 <? length argv)%nat then nth 1 argv [] else default_font in
  let output_path := if (2 <? length argv)%nat then nth 2 argv [] else default_output in
  match generate_proof font_path output_path with
  | (Returned success, log) => (if success then 0 else 1, log)
  | (Raised, log) => (1, log)
  end.

End Templates.

(** ** Vocabulary of the properties *)

(** Everything drawn so far, most recent first. *)
Definition all_prims (c : canvas) : list prim :=
  concat (map pg_prims (pages c)).

(** Everything drawn so far, in drawing order. *)
Definition drawn (c : canvas) : list prim := concat (document c).

(** The graphics state of header and footer text: both are set right
    after [newPage], between [save] and [restore]. *)
Definition header_gs : gstate := GState Helvetica 9 (Some 0.4%Q) None 1.
Definition footer_gs : gstate := GState Helvetica 8 (Some 0.5%Q) None 1.

Section Vocabulary.

Variable measure : pystr -> Q -> pystr -> Q.
Variable date_str : pystr.

(** Left of the header: family and style. *)
Definition header_name_prim (font_info : font_info) : prim :=
  PText header_gs (family font_info ++ py " " ++ style font_info)
        MARGIN (PAGE_HEIGHT - MARGIN + 10)%Z.

(** Right of the header: the page title, flush with the right margin. *)
Definition header_title_prim (page_title : pystr) : prim :=
  PText header_gs page_title
        ((PAGE_WIDTH - MARGIN)%Z - measure Helvetica 9 page_title)%Q
        (PAGE_HEIGHT - MARGIN + 10)%Z.

(** The footer: the date. *)
Definition footer_prim : prim :=
  PText footer_gs date_str MARGIN (MARGIN - 20)%Z.

(** What [draw_header] and [draw_footer] leave on a fresh page, most
    recent first. *)
Definition chrome_prims (font_info : font_info) (page_title : pystr) : list prim :=
  [footer_prim; header_title_prim page_title; header_name_prim font_info].

Definition has_header_name (font_info : font_info) (prims : list prim) : bool :=
  bool_decide (header_name_prim font_info ∈ prims).

Definition has_header_title (prims : list prim) : bool :=
  existsb (fun p => match p with
                    | PText _ t _ _ => bool_decide (p = header_title_prim t)
                    | _ => false
                    end) prims.

Definition has_footer (prims : list prim) : bool :=
  bool_decide (footer_prim ∈ prims).

(** A page carries header and footer. *)
Definition carries_chrome (font_info : font_info) (prims : list prim) : bool :=
  has_header_name font_info prims && has_header_title prims && has_footer prims.

(** A page carries none of the three. *)
Definition carries_no_chrome (font_info : font_info) (prims : list prim) : bool :=
  negb (has_header_name font_info prims) && negb (has_header_title prims)
  && negb (has_footer prims).

End Vocabulary.

(** *** Grid cells *)

(** The glyph of a grid cell: text set in the font under test at
    [glyph_size]. *)
Definition glyph_of (font_path : pystr) (p : prim) : option pystr :=
  match p with
  | PText g txt _ _ =>
      if decide (gs_font g = font_path ∧ gs_fontSize g = glyph_size)
      then Some txt else None
  | _ => None
  end.

(** The label of a grid cell: text set in Helvetica at 5 points. *)
Definition label_of (p : prim) : option pystr :=
  match p with
  | PText g txt _ _ =>
      if decide (gs_font g = Helvetica ∧ gs_fontSize g = 5%Q)
      then Some txt else None
  | _ => None
  end.

(** The border of a grid cell: the only rectangles the script draws. *)
Definition cell_of (p : prim) : option (Q * Q) :=
  match p with
  | PRect _ x y _ _ => Some (x, y)
  | _ => None
  end.

Definition glyphs (font_path : pystr) (prims : list prim) : list pystr :=
  omap (glyph_of font_path) prims.
Definition labels (prims : list prim) : list pystr := omap label_of prims.
Definition cells (prims : list prim) : list (Q * Q) := omap cell_of prims.

(** *** Specimen lines *)

(** The specimen lines of a page: text drawn in black, with its font and
    size.  Headers, footers and section labels are grey. *)
Definition run_of (p : prim) : option (pystr * Q * pystr) :=
  match p with
  | PText g txt _ _ =>
      if decide (gs_fill g = Some 0%Q)
      then Some (gs_font g, gs_fontSize g, txt) else None
  | _ => None
  end.

Definition specimen_runs (prims : list prim) : list (pystr * Q * pystr) :=
  omap run_of prims.

(** *** Effects on the list of pages *)

(** [c'] has the pages of [c], with more drawn on the current one. *)
Definition Ext (c c' : canvas) : Prop :=
  exists p ps new,
    pages c = p :: ps /\
    pages c' = Page (pg_size p) (new ++ pg_prims p) :: ps.

(** Drawing code that opens no page. *)
Definition Quiet {A} (m : Draw A) : Prop :=
  forall c, pages c <> [] -> Ext c (exec m c).

(** Drawing code that leaves the pages it finds as they are and puts
    [n] pages in front of them, each with the header and footer that
    [chromed] recognises. *)
Definition Adds {A} (chromed : list prim -> bool) (n : nat) (m : Draw A) : Prop :=
  forall c, exists added,
    pages (exec m c) = added ++ pages c /\
    length added = n /\
    Forall (fun p => chromed (pg_prims p) = true) added.

(** *** The grid *)

Definition rows : Z := 14.
Definition per_page : Z := cols * rows.

(** Where the cell of index [j] on its page is drawn. *)
Definition grid_x (j : Z) : Z := x_start + cell_size * (j mod cols).
Definition grid_y (j : Z) : Z := y_start - cell_size * (j / cols).

(** What one round of the grid loop draws, most recent first: the
    label, the glyph and the border of the cell. *)
Definition cell_prims (measure : pystr -> Q -> pystr -> Q)
    (font_path : pystr) (g : gstate) (cp : N) (x y : Z) : list prim :=
  [ PText (GState Helvetica 5 (Some 0.6%Q) (gs_stroke g) (gs_strokeWidth g))
          (format_04X cp) (x + 2)%Z (y - cell_size + 3)%Z;
    PText (GState font_path glyph_size (Some 0%Q) (gs_stroke g) (gs_strokeWidth g))
          (chr cp)
          (x + (cell_size - measure font_path glyph_size (chr cp)) / 2)%Q
          ((y - cell_size)%Z + cell_size * 0.25)%Q;
    PRect (GState (gs_font g) (gs_fontSize g) None (Some 0.85%Q) 0.5%Q)
          x (y - cell_size)%Z cell_size cell_size ].

(** *** Page counts *)

(** The pages of the Character Set template: one, and one more each
    time a page of the grid is full. *)
Definition grid_page_count (cmap : gmap N pystr) : nat :=
  S (size cmap / Z.to_nat per_page).

(** The pages of the script sample: none without a character of the
    range, otherwise one. *)
Definition arabic_page_count (cmap : gmap N pystr) : nat :=
  match arabic_chars cmap with
  | [] => 0
  | _ :: _ => 1
  end.

(** *** Runs of the driver *)

Definition is_open_font (e : event) : bool :=
  match e with EvOpenFont _ => true | _ => false end.

Definition is_save_image (e : event) : bool :=
  match e with EvSaveImage _ _ => true | _ => false end.

(** The documents a run wrote, with the paths they went to. *)
Definition saved (log : list event) : list (pystr * list (list prim)) :=
  omap (fun e => match e with
                 | EvSaveImage path doc => Some (path, doc)
                 | _ => None
                 end) log.

(** The page counts a run reported. *)
Definition reported_pages (n : nat) : event :=
  EvPrint (py "  Pages: " ++ str_of_N (N.of_nat n)).

(** *** The Numerals & Punctuation template *)

(** The specimen lines one round of the punctuation loop sets at
    [size]: the two halves when the string measures too wide, the
    string otherwise. *)
Definition punctuation_runs (measure : pystr -> Q -> pystr -> Q)
    (font_path : pystr) (size : Z) : list (pystr * Q * pystr) :=
  if Qgtb (measure font_path size punctuation) (PAGE_WIDTH - 2 * MARGIN)%Z
  then [ (font_path, inject_Z size, slice_to (length punctuation / 2) punctuation);
         (font_path, inject_Z size, slice_from (length punctuation / 2) punctuation) ]
  else [ (font_path, inject_Z size, punctuation) ].

(** The digit line at [size], always whole. *)
Definition numeral_run (font_path : pystr) (size : Z) : pystr * Q * pystr :=
  (font_path, inject_Z size, numerals).

(** Every specimen line that is a whole digit or punctuation string
    fits the usable width. *)
Definition whole_lines_fit (measure : pystr -> Q -> pystr -> Q)
    (runs : list (pystr * Q * pystr)) : Prop :=
  forall f sz txt,
    (f, sz, txt) ∈ runs -> txt = numerals \/ txt = punctuation ->
    (measure f sz txt <= (PAGE_WIDTH - 2 * MARGIN)%Z)%Q.

(** *** Sample inputs *)

(** A character map with the given code points. *)
Definition cmap_of_keys (keys : list N) : gmap N pystr :=
  list_to_map ((fun cp => (cp, py "glyph")) <$> keys).

(** A font with the given code points. *)
Definition font_of_keys (keys : list N) : ttfont :=
  TTFont [ (1%N, py "Virtua Grotesk"); (2%N, py "Regular");
           (5%N, py "Version 1.000") ]
         (py ".notdef" :: map (fun _ => py "glyph") keys) 1000
         (Some (cmap_of_keys keys)).

(** A font that opens but has no Unicode character map. *)
Definition font_without_cmap : ttfont :=
  TTFont [ (1%N, py "Symbols"); (2%N, py "Regular") ] [py ".notdef"] 1000 None.

(** A measurer under which every string has the same width. *)
Definition measure_const (w : Q) : pystr -> Q -> pystr -> Q := fun _ _ _ => w.

Definition sample_date : pystr := py "2026-01-01".
Definition sample_stamp : pystr := py "2026-01-01 12:00".
Definition sample_info : font_info :=
  FontInfo (py "Virtua Grotesk") (py "Regular") (py "Version 1.000") [] 27 1000.

(** A fresh drawing. *)
Definition blank : canvas := Canvas [] default_gstate [].

(** The capital letters, and a map with nothing else. *)
Definition keys_AZ : list N := range 0x41 0x5B.

(** The last thirty code points of the Arabic block, U+06E2 to U+06FF. *)
Definition keys_arabic_tail : list N := range 0x06E2 0x0700.

(** 168 code points: a full page of the grid. *)
Definition keys_full_page : list N := range 0x4E00 0x4EA8.

(** A file system where every path is its own resolution and exists or
    not, every font opens as [ttf] and every document can be written. *)
Definition sample_run (present : bool) (ttf : ttfont) (argv : list pystr)
    : Z * list event :=
  main (measure_const 0) sample_date sample_stamp (fun p => p) (fun _ => present)
       (fun _ => Some ttf) (fun _ => true) (py "/repo") argv.

(** *** Naming records *)

(** The string of the last record of a naming table with the given
    nameID, the empty string when there is none. *)
Definition name_record (nameID : N) (names : list (N * pystr)) : pystr :=
  default [] (last (omap (fun r : N * pystr =>
                            if (r.1 =? nameID)%N then Some r.2 else None) names)).

(** *** Reading numerals back *)

(** The value of a digit character, [0-9A-F]. *)
Definition undigit (ch : N) : N :=
  if (ch <? 58)%N then (ch - 48)%N else (ch - 55)%N.

(** The number a string of digits denotes in [base]. *)
Definition numeral_value (base : N) (s : pystr) : N :=
  foldl (fun v ch => (base * v + undigit ch)%N) 0%N s.

(** *** Text by colour, and text boxes *)

(** The texts drawn with the grey level [v], in the order of the list. *)
Definition texts_filled (v : Q) (prims : list prim) : list pystr :=
  omap (fun p => match p with
                 | PText g txt _ _ =>
                     if decide (gs_fill g = Some v) then Some txt else None
                 | _ => None
                 end) prims.

(** The text boxes: font size, then the box as given to [textBox]. *)
Definition boxes (prims : list prim) : list (Q * (Q * Q * Q * Q)) :=
  omap (fun p => match p with
                 | PTextBox g _ x y w h => Some (gs_fontSize g, (x, y, w, h))
                 | _ => None
                 end) prims.

(** *** Samples of the script page *)

Definition nonempty (s : pystr) : bool :=
  match s with [] => false | _ :: _ => true end.

(** The code points of the character map that the script page looks
    for, in the order of [range(0x0600, 0x06FF)]. *)
Definition arabic_codepoints (cmap : gmap N pystr) : list N :=
  filter (fun cp => is_Some (cmap !! cp)) (range 0x0600 0x06FF).

(** *** The grid, page by page *)

(** The cells of a run of code points that starts at cell [j] of a
    page, most recent first. *)
Fixpoint cells_from (measure : pystr -> Q -> pystr -> Q) (font_path : pystr)
    (g : gstate) (j : Z) (cps : list N) : list prim :=
  match cps with
  | [] => []
  | cp :: rest =>
      cells_from measure font_path g (j + 1) rest
      ++ cell_prims measure font_path g cp (grid_x j) (grid_y j)
  end.

(** A list cut into pages of 168: every chunk but the last is full, and
    the last one is empty when the list fills its pages exactly.  The
    fuel bounds the number of full chunks. *)
Fixpoint grid_chunks_aux (fuel : nat) (l : list N) : list (list N) :=
  match fuel with
  | O => [l]
  | S fuel' =>
      if (length l <? 168)%nat then [l]
      else take 168 l :: grid_chunks_aux fuel' (drop 168 l)
  end.

Definition grid_chunks (l : list N) : list (list N) :=
  grid_chunks_aux (length l) l.

(** Where the border of cell [j] of a page is drawn: its lower left
    corner. *)
Definition cell_corner (j : Z) : Q * Q :=
  (inject_Z (grid_x j), inject_Z (grid_y j - cell_size)).

(** A cell with this lower left corner lies between the margins and
    below the header. *)
Definition inside_margins (corner : Q * Q) : Prop :=
  (MARGIN <= corner.1)%Q /\ (corner.1 + cell_size <= (PAGE_WIDTH - MARGIN)%Z)%Q /\
  (MARGIN <= corner.2)%Q /\ (corner.2 + cell_size <= y_start)%Q.

(** The pages of the grid after the first, in the order of the
    document: a page per chunk, numbered from [page_num + 1], each with
    header and footer and then its cells from cell 0. *)
Fixpoint later_pages (measure : pystr -> Q -> pystr -> Q) (date_str font_path : pystr)
    (font_info : font_info) (page_num : Z) (chunks : list (list N)) : list page :=
  match chunks with
  | [] => []
  | ch :: rest =>
      Page (PAGE_WIDTH, PAGE_HEIGHT)
           (cells_from measure font_path default_gstate 0 ch
            ++ chrome_prims measure date_str font_info (glyph_page_title (page_num + 1)))
      :: later_pages measure date_str font_path font_info (page_num + 1) rest
  end.

(** The title of the [k]-th page of the grid, counted from 0. *)
Definition grid_title (start_page : Z) (k : nat) : pystr :=
  match k with
  | O => py "Character Set"
  | S _ => glyph_page_title (start_page + Z.of_nat k)
  end.

(** The pages of the grid in the order of the document, a page per
    chunk. *)
Definition grid_pages (measure : pystr -> Q -> pystr -> Q) (date_str font_path : pystr)
    (font_info : font_info) (start_page : Z) (chunks : list (list N)) : list page :=
  match chunks with
  | [] => []
  | c0 :: cs =>
      Page (PAGE_WIDTH, PAGE_HEIGHT)
           (cells_from measure font_path default_gstate 0 c0
            ++ chrome_prims measure date_str font_info (py "Character Set"))
      :: later_pages measure date_str font_path font_info start_page cs
  end.

(** A page of the grid that shows the code points [ch] under the title
    [t]: header and footer first, then the cells from cell 0. *)
Definition grid_page (measure : pystr -> Q -> pystr -> Q) (date_str font_path : pystr)
    (font_info : font_info) (t : pystr) (ch : list N) : page :=
  Page (PAGE_WIDTH, PAGE_HEIGHT)
       (cells_from measure font_path default_gstate 0 ch
        ++ chrome_prims measure date_str font_info t).

(** *** The outline of the document *)

(** A page, in the order drawn, that opens with header and footer under
    the title [t]. *)
Definition headed (measure : pystr -> Q -> pystr -> Q) (date_str : pystr)
    (font_info : font_info) (t : pystr) (prims : list prim) : Prop :=
  take 3 prims = rev (chrome_prims measure date_str font_info t).

(** The titles of [n] pages of the grid. *)
Definition grid_titles (start_page : Z) (n : nat) : list pystr :=
  map (grid_title start_page) (seq 0 n).

(** The title of the [n]-th page of the Character Set in the document,
    for [n] from 2 on. *)
Definition continuation_title (n : nat) : pystr :=
  py "Character Set (page " ++ str_of_N (N.of_nat n) ++ py ")".

(** The titles of the pages that follow the title page: the six fixed
    templates, the Character Set with a continuation page for every 168
    code points, and the script sample when the map has a character of
    its range. *)
Definition outline (cmap : gmap N pystr) : list pystr :=
  [ py "Alphabet"; py "Numerals & Punctuation"; py "Size Waterfall";
    py "Spacing Proof"; py "Paragraph Setting"; py "Kerning Pairs" ]
  ++ (py "Character Set" :: map continuation_title (seq 2 (size cmap / 168)))
  ++ match arabic_chars cmap with
     | [] => []
     | _ :: _ => [py "Arabic"]
     end.

(** Drawing code that leaves the pages it finds as they are and adds
    pages under the titles [ts], in this order. *)
Definition Titles {A} (measure : pystr -> Q -> pystr -> Q) (date_str : pystr)
    (font_info : font_info) (ts : list pystr) (m : Draw A) : Prop :=
  forall c, exists added,
    pages (exec m c) = rev added ++ pages c /\
    Forall2 (fun pg t => headed measure date_str font_info t (rev (pg_prims pg)))
            added ts.

(** *** The Alphabet template *)

(** The specimen lines [fit_or_split] sets for [txt] at [size]: the two
    halves when the string measures too wide, the string otherwise. *)
Definition split_runs (measure : pystr -> Q -> pystr -> Q)
    (font_path txt : pystr) (size : Z) : list (pystr * Q * pystr) :=
  if Qgtb (measure font_path size txt) (PAGE_WIDTH - 2 * MARGIN)%Z
  then [ (font_path, inject_Z size, slice_to (length txt / 2) txt);
         (font_path, inject_Z size, slice_from (length txt / 2) txt) ]
  else [ (font_path, inject_Z size, txt) ].

(** The specimen lines of one round of the alphabet loop. *)
Definition alphabet_runs (measure : pystr -> Q -> pystr -> Q)
    (font_path : pystr) (size : Z) : list (pystr * Q * pystr) :=
  split_runs measure font_path uppercase size
  ++ split_runs measure font_path lowercase size.

Definition alphabet_sizes : list Z := [48; 36; 24; 18; 14; 11; 9].

(** * Properties *)

(** ** The embedding on small inputs *)

Example format_04X_capital_A : format_04X 0x41 = py "0041".
Proof. reflexivity. Qed.

Example format_04X_beyond_the_BMP : format_04X 0x1F600 = py "1F600".
Proof. reflexivity. Qed.

Example str_of_Z_page_number : str_of_Z 12 = py "12".
Proof. reflexivity. Qed.

Example punctuation_has_30_characters : length punctuation = 30%nat.
Proof. reflexivity. Qed.

Example probe_line_has_53_characters : length (probe_line (py "a")) = 53%nat.
Proof. reflexivity. Qed.

Example probe_line_starts : take 7 (probe_line (py "n")) = py "nanbncn".
Proof. reflexivity. Qed.

Example drop_last2_short : drop_last2 (py "a") = [].
Proof. reflexivity. Qed.

Example grid_holds_168_cells : per_page = 168 /\ cell_size = 45 /\ (glyph_size == 27)%Q.
Proof. repeat split. Qed.

Example grid_last_cell_of_a_page : grid_x 167 = 531 /\ grid_y 167 = 121.
Proof. split; reflexivity. Qed.

Example leading_labels :
  map (fun size : Z => int_of_Q (size * 1.4)%Q) [14; 12; 10; 9; 8] = [19; 16; 14; 12; 11].
Proof. reflexivity. Qed.

Example path_name_of_font :
  path_name (py "/repo/fonts/VirtuaGrotesk-Regular.ttf") = py "VirtuaGrotesk-Regular.ttf".
Proof. reflexivity. Qed.

Example get_font_info_of_sample :
  get_font_info (font_of_keys keys_AZ) = sample_info.
Proof. reflexivity. Qed.

(** ** Rationals *)

Lemma Qltb_false (a b : Q) : (b <= a)%Q -> Qltb a b = false.
Proof. intros H. unfold Qltb. apply Qle_bool_iff in H. by rewrite H. Qed.

Lemma Qltb_true (a b : Q) : (a < b)%Q -> Qltb a b = true.
Proof.
  intros H. unfold Qltb. destruct (Qle_bool b a) eqn:E; [|done].
  apply Qle_bool_iff in E. lra.
Qed.

Lemma Qltb_spec (a b : Q) : Qltb a b = true <-> (a < b)%Q.
Proof.
  split; [|apply Qltb_true].
  unfold Qltb. intros H. apply Qnot_le_lt. intros Hle.
  apply Qle_bool_iff in Hle. by rewrite Hle in H.
Qed.

(** ** The drawing monad *)

Lemma exec_bind {A B} (m : Draw A) (k : A -> Draw B) c :
  exec (bind m k) c = exec (k (eval m c)) (exec m c).
Proof. reflexivity. Qed.

Lemma eval_bind {A B} (m : Draw A) (k : A -> Draw B) c :
  eval (bind m k) c = eval (k (eval m c)) (exec m c).
Proof. reflexivity. Qed.

Lemma drawn_all_prims c : drawn c = rev (all_prims c).
Proof.
  unfold drawn, document, all_prims.
  induction (pages c) as [|p ps IH]; [done|].
  cbn [map rev concat]. rewrite concat_app, rev_app_distr, IH.
  cbn. by rewrite app_nil_r.
Qed.

Lemma all_prims_add_prim mk c :
  all_prims (exec (add_prim mk) c) = mk (gs c) :: all_prims c.
Proof. unfold all_prims, exec, add_prim, modify. by destruct (pages c). Qed.

Lemma gs_add_prim mk c : gs (exec (add_prim mk) c) = gs c.
Proof. unfold exec, add_prim, modify. by destruct (pages c). Qed.

(** ** The truncation loop *)

Lemma truncate_loop_step (width : pystr -> Q) (line : pystr) :
  truncate_loop width line =
  if Qgtb (width line) (PAGE_WIDTH - 2 * MARGIN)%Z && (10 <? length line)%nat
  then truncate_loop width (drop_last2 line) else line.
Proof.
  destruct (Qgtb _ _ && _) eqn:E; rewrite truncate_loop_equation_1;
    generalize (Logic.inspect (Qgtb (width line) (PAGE_WIDTH - 2 * MARGIN)%Z
                               && (10 <? length line)%nat));
    intros [[] e]; first [reflexivity | congruence].
Qed.

(** The loop returns the prefix left after [k] rounds of two characters,
    every earlier round having been too wide and longer than ten. *)
Lemma truncate_loop_rounds (width : pystr -> Q) (line : pystr) :
  exists k : nat,
    truncate_loop width line = take (length line - 2 * k) line /\
    (forall i : nat, (i < k)%nat ->
       Qgtb (width (take (length line - 2 * i) line)) (PAGE_WIDTH - 2 * MARGIN)%Z = true
       /\ (10 < length line - 2 * i)%nat) /\
    Qgtb (width (truncate_loop width line)) (PAGE_WIDTH - 2 * MARGIN)%Z
      && (10 <? length (truncate_loop width line))%nat = false.
Proof.
  remember (length line) as n eqn:Hn.
  revert line Hn. induction (lt_wf n) as [n _ IH]. intros line Hn.
  rewrite truncate_loop_step.
  destruct (Qgtb _ _ && _) eqn:E.
  - apply andb_prop in E as [Hw Hlen]. apply Nat.ltb_lt in Hlen.
    assert (Hd : length (drop_last2 line) = (n - 2)%nat)
      by (unfold drop_last2; rewrite length_take; lia).
    destruct (IH (n - 2)%nat ltac:(lia) (drop_last2 line) (eq_sym Hd))
      as (k & Hr & Hearlier & Hstop).
    exists (S k). split; [|split].
    + rewrite Hr. unfold drop_last2. rewrite take_take. f_equal. lia.
    + intros [|i] Hi.
      * rewrite Nat.sub_0_r, Hn, firstn_all. split; [done | lia].
      * destruct (Hearlier i ltac:(lia)) as [Hwi Hli].
        unfold drop_last2 in Hwi. rewrite take_take in Hwi.
        replace ((n - 2 - 2 * i) `min` (length line - 2))%nat
          with (n - 2 * S i)%nat in Hwi by lia.
        split; [done | lia].
    + done.
  - exists 0%nat. rewrite Nat.sub_0_r, Hn, firstn_all.
    split; [done|]. split; [lia | done].
Qed.

Section Properties.

Variable measure : pystr -> Q -> pystr -> Q.
Variable date_str : pystr.

(** C3 (as the code has it).  The truncation block of the Spacing Proof
    template leaves the surface alone and returns the first of the
    prefixes of length N, N-2, N-4, ... that fits the width or is no
    longer than 10 characters: two trailing characters go per round, a
    round runs only while the line is too wide and longer than 10.  A
    line of at most 10 characters comes back unchanged; a longer one
    keeps at least 9 characters, and at least 10 when N is even. *)
Theorem fit_or_truncate_floor (line : pystr) (c : canvas) :
  let width := measure (gs_font (gs c)) (gs_fontSize (gs c)) in
  let n := length line in
  let r := eval (fit_or_truncate measure line) c in
  exec (fit_or_truncate measure line) c = c /\
  (exists k : nat,
     r = take (n - 2 * k) line /\
     (forall i : nat, (i < k)%nat ->
        ((PAGE_WIDTH - 2 * MARGIN)%Z < width (take (n - 2 * i) line))%Q
        /\ (10 < n - 2 * i)%nat) /\
     ((width r <= (PAGE_WIDTH - 2 * MARGIN)%Z)%Q \/ (length r <= 10)%nat)) /\
  ((n <= 10)%nat -> r = line) /\
  ((10 < n)%nat -> (9 <= length r)%nat) /\
  ((10 <= n)%nat -> Nat.Even n -> (10 <= length r)%nat).
Proof.
  intros width n r. split; [done|].
  assert (Hr : r = truncated width line) by done.
  destruct (truncate_loop_rounds width line) as (k & Hk & Hearlier & Hstop).
  assert (Hex : exists k : nat,
     r = take (n - 2 * k) line /\
     (forall i : nat, (i < k)%nat ->
        ((PAGE_WIDTH - 2 * MARGIN)%Z < width (take (n - 2 * i) line))%Q
        /\ (10 < n - 2 * i)%nat) /\
     ((width r <= (PAGE_WIDTH - 2 * MARGIN)%Z)%Q \/ (length r <= 10)%nat)).
  { rewrite Hr. unfold truncated.
    destruct (Qgtb (width line) _) eqn:Hw.
    - exists k. split; [done|]. split.
      + intros i Hi. destruct (Hearlier i Hi) as [Hwi Hli].
        split; [by apply Qltb_spec in Hwi | done].
      + apply andb_false_iff in Hstop as [Hs|Hs].
        * left. apply Qnot_lt_le. intros Hlt. apply Qltb_true in Hlt.
          unfold Qgtb in Hs. congruence.
        * right. apply Nat.ltb_ge in Hs. done.
    - exists 0%nat. subst n. rewrite Nat.sub_0_r, firstn_all.
      split; [done|]. split; [lia|].
      left. apply Qnot_lt_le. intros Hlt. apply Qltb_true in Hlt.
      unfold Qgtb in Hw. congruence. }
  split; [exact Hex|].
  destruct Hex as (k' & Hrk & Hearly & _).
  assert (Hlen : length r = (n - 2 * k')%nat)
    by (rewrite Hrk, length_take; subst n; lia).
  split; [|split].
  - intros Hn. destruct k' as [|k'].
    + rewrite Hrk. subst n. by rewrite Nat.sub_0_r, firstn_all.
    + destruct (Hearly 0%nat ltac:(lia)) as [_ ?]. lia.
  - intros Hn. destruct k' as [|k'].
    + lia.
    + destruct (Hearly k' ltac:(lia)) as [_ ?]. lia.
  - intros Hn [h Hh]. destruct k' as [|k'].
    + lia.
    + destruct (Hearly k' ltac:(lia)) as [_ ?]. lia.
Qed.

(** C5.  A line whose measured width is at most the usable width, the
    width itself included, is drawn once, whole and unchanged, at the
    cursor; the cursor is returned as it was. *)
Theorem fit_or_split_fits (txt : pystr) (size : Z) (y : Q) (c : canvas) :
  (measure (gs_font (gs c)) (gs_fontSize (gs c)) txt <= (PAGE_WIDTH - 2 * MARGIN)%Z)%Q ->
  fit_or_split measure txt size y c = (y, exec (db.text txt MARGIN y) c) /\
  all_prims (exec (fit_or_split measure txt size y) c)
  = PText (gs c) txt MARGIN y :: all_prims c.
Proof.
  intros Hfit.
  assert (E : fit_or_split measure txt size y c = (y, exec (db.text txt MARGIN y) c)).
  { unfold fit_or_split, bind, textSize. cbn [fst snd].
    unfold Qgtb. by rewrite (Qltb_false _ _ Hfit). }
  split; [exact E|].
  unfold exec at 1. rewrite E. cbn [snd]. apply all_prims_add_prim.
Qed.

(** C4.  A line of N characters whose measured width exceeds the usable
    width is drawn as two lines: its first [N // 2] characters at the
    cursor and the remaining suffix one line lower.  Nothing else is
    drawn, whatever the halves measure. *)
Theorem fit_or_split_splits (txt : pystr) (size : Z) (y : Q) (c : canvas) :
  ((PAGE_WIDTH - 2 * MARGIN)%Z < measure (gs_font (gs c)) (gs_fontSize (gs c)) txt)%Q ->
  let mid := (length txt / 2)%nat in
  let first := slice_to mid txt in
  let second := slice_from mid txt in
  length first = mid /\
  first ++ second = txt /\
  eval (fit_or_split measure txt size y) c = (y - size * 1.3)%Q /\
  all_prims (exec (fit_or_split measure txt size y) c)
  = PText (gs c) second MARGIN (y - size * 1.3)%Q
      :: PText (gs c) first MARGIN y :: all_prims c.
Proof.
  intros Hwide mid first second.
  assert (Hmid : (mid <= length txt)%nat).
  { subst mid. apply Nat.Div0.div_le_upper_bound. lia. }
  split; [|split; [|split]].
  - subst first. unfold slice_to. rewrite length_take. lia.
  - apply take_drop.
  - unfold eval, fit_or_split, bind, textSize. cbn [fst snd].
    unfold Qgtb. by rewrite (Qltb_true _ _ Hwide).
  - unfold exec, fit_or_split, bind, textSize. cbn [fst snd].
    unfold Qgtb. rewrite (Qltb_true _ _ Hwide). cbn [fst snd].
    transitivity (all_prims (exec (db.text second MARGIN (y - size * 1.3)%Q)
                               (exec (db.text first MARGIN y) c))); [done|].
    unfold db.text. by rewrite all_prims_add_prim, gs_add_prim, all_prims_add_prim.
Qed.


(** ** Code that opens no page *)

Lemma Ext_refl c : pages c <> [] -> Ext c c.
Proof.
  destruct (pages c) as [|[sz prims] ps] eqn:E; [done|]. intros _.
  exists (Page sz prims), ps, []. by rewrite E.
Qed.

Lemma Ext_trans c1 c2 c3 : Ext c1 c2 -> Ext c2 c3 -> Ext c1 c3.
Proof.
  intros (p & ps & new & E1 & E2) (p' & ps' & new' & E2' & E3).
  rewrite E2 in E2'. injection E2' as <- <-.
  exists p, ps, (new' ++ new). split; [done|].
  rewrite E3. cbn. by rewrite app_assoc.
Qed.

Lemma Ext_nonempty c c' : Ext c c' -> pages c' <> [].
Proof. intros (p & ps & new & _ & E). by rewrite E. Qed.

Lemma Quiet_ret {A} (a : A) : Quiet (ret a).
Proof. intros c Hc. by apply Ext_refl. Qed.

Lemma Quiet_bind {A B} (m : Draw A) (k : A -> Draw B) :
  Quiet m -> (forall a, Quiet (k a)) -> Quiet (bind m k).
Proof.
  intros Hm Hk c Hc. rewrite exec_bind.
  eapply Ext_trans; [by apply Hm|].
  apply Hk. eapply Ext_nonempty. by apply Hm.
Qed.

Lemma Quiet_set_gs f : Quiet (set_gs f).
Proof. intros c Hc. by apply (Ext_refl (exec (set_gs f) c)). Qed.

Lemma Quiet_save : Quiet db.save.
Proof. intros c Hc. by apply (Ext_refl (exec db.save c)). Qed.

Lemma Quiet_restore : Quiet db.restore.
Proof.
  intros c Hc. unfold exec, db.restore, modify. cbn.
  destruct (stack c) as [|g st]; [by apply Ext_refl|].
  by apply (Ext_refl (Canvas (pages c) g st)).
Qed.

Lemma Quiet_add_prim mk : Quiet (add_prim mk).
Proof.
  intros c Hc. unfold exec, add_prim, modify. cbn.
  destruct (pages c) as [|p ps] eqn:E; [done|].
  exists p, ps, [mk (gs c)]. by rewrite E.
Qed.

Lemma Quiet_textSize txt : Quiet (textSize measure txt).
Proof. intros c Hc. by apply Ext_refl. Qed.

Lemma Quiet_fit_or_truncate line : Quiet (fit_or_truncate measure line).
Proof. intros c Hc. by apply Ext_refl. Qed.

Create HintDb quiet.
#[local] Hint Resolve Quiet_ret Quiet_set_gs Quiet_save Quiet_restore
  Quiet_add_prim Quiet_textSize Quiet_fit_or_truncate : quiet.
#[local] Hint Unfold db.font db.fill db.stroke db.strokeWidth db.text
  db.textBox db.rect : quiet.

(** Peels the binds and branches of a straight-line body. *)
Ltac quiet :=
  repeat first
    [ progress cbv zeta
    | solve [autounfold with quiet; auto with quiet]
    | match goal with
      | |- Quiet (if ?b then _ else _) => destruct b
      | |- Quiet (match ?l with [] => _ | _ :: _ => _ end) => destruct l
      end
    | apply Quiet_bind; [|intros ?] ].

Lemma Quiet_draw_header info t : Quiet (draw_header measure info t).
Proof. unfold draw_header. quiet. Qed.

Lemma Quiet_draw_footer : Quiet (draw_footer date_str).
Proof. unfold draw_footer. quiet. Qed.

Lemma Quiet_fit_or_split txt size y : Quiet (fit_or_split measure txt size y).
Proof. unfold fit_or_split. quiet. Qed.

#[local] Hint Resolve Quiet_draw_header Quiet_draw_footer Quiet_fit_or_split : quiet.

Lemma Quiet_title_meta_loop lines y : Quiet (title_meta_loop lines y).
Proof. revert y. induction lines; intros y; cbn [title_meta_loop]; quiet. Qed.

Lemma Quiet_alphabet_loop fp sizes y : Quiet (alphabet_loop measure fp sizes y).
Proof. revert y. induction sizes; intros y; cbn [alphabet_loop]; quiet. Qed.

Lemma Quiet_numerals_loop fp sizes y : Quiet (numerals_loop fp sizes y).
Proof. revert y. induction sizes; intros y; cbn [numerals_loop]; quiet. Qed.

Lemma Quiet_punctuation_loop fp sizes y :
  Quiet (punctuation_loop measure fp sizes y).
Proof. revert y. induction sizes; intros y; cbn [punctuation_loop]; quiet. Qed.

Lemma Quiet_waterfall_loop fp sizes y : Quiet (waterfall_loop fp sizes y).
Proof. revert y. induction sizes; intros y; cbn [waterfall_loop]; quiet. Qed.

Lemma Quiet_paragraph_loop fp sizes y : Quiet (paragraph_loop fp sizes y).
Proof. revert y. induction sizes; intros y; cbn [paragraph_loop]; quiet. Qed.

Lemma Quiet_kerning_loop fp size lines y : Quiet (kerning_loop fp size lines y).
Proof. revert y. induction lines; intros y; cbn [kerning_loop]; quiet. Qed.

Lemma Quiet_arabic_samples_loop samples size y :
  Quiet (arabic_samples_loop samples size y).
Proof.
  revert y. induction samples as [|s samples IH]; intros y;
    cbn [arabic_samples_loop]; [quiet|].
  destruct s; [apply IH|]. quiet.
Qed.

#[local] Hint Resolve Quiet_title_meta_loop Quiet_alphabet_loop Quiet_numerals_loop
  Quiet_punctuation_loop Quiet_waterfall_loop Quiet_paragraph_loop
  Quiet_kerning_loop Quiet_arabic_samples_loop : quiet.

Lemma Quiet_arabic_loop fp samples sizes y : Quiet (arabic_loop fp samples sizes y).
Proof. revert y. induction sizes; intros y; cbn [arabic_loop]; quiet. Qed.

#[local] Hint Resolve Quiet_arabic_loop : quiet.

(** ** Header and footer *)

Lemma carries_chrome_chrome info t :
  carries_chrome measure date_str info (chrome_prims measure date_str info t) = true.
Proof.
  unfold carries_chrome, has_header_name, has_header_title, has_footer, chrome_prims.
  rewrite !andb_true_iff. split; [split|].
  - apply bool_decide_eq_true. set_solver.
  - apply existsb_exists. exists (header_title_prim measure t). split.
    + cbn. auto.
    + cbn. by apply bool_decide_eq_true.
  - apply bool_decide_eq_true. set_solver.
Qed.

Lemma carries_chrome_app info new old :
  carries_chrome measure date_str info old = true ->
  carries_chrome measure date_str info (new ++ old) = true.
Proof.
  unfold carries_chrome, has_header_name, has_header_title, has_footer.
  rewrite !andb_true_iff, !bool_decide_eq_true, !existsb_exists.
  intros [[Hn (p & Hp & Ht)] Hf]. split; [split|].
  - set_solver.
  - exists p. split; [|done]. apply in_or_app. by right.
  - set_solver.
Qed.

(** A template that opens a page, draws header and footer and then only
    draws: one more page, with header and footer. *)
Lemma template_page {A} info t (body : Draw A) c :
  Quiet body ->
  exists new,
    pages (exec (db.newPage PAGE_WIDTH PAGE_HEIGHT ;;
                 draw_header measure info t ;;
                 draw_footer date_str ;;
                 body) c)
    = Page (PAGE_WIDTH, PAGE_HEIGHT) (new ++ chrome_prims measure date_str info t)
        :: pages c.
Proof.
  intros Hq. rewrite !exec_bind.
  set (c3 := exec (draw_footer date_str) _).
  assert (E3 : pages c3
               = Page (PAGE_WIDTH, PAGE_HEIGHT) (chrome_prims measure date_str info t)
                   :: pages c) by done.
  destruct (Hq c3) as (p & ps & new & Ep & Ec); [by rewrite E3|].
  rewrite E3 in Ep. injection Ep as <- <-.
  exists new. by rewrite Ec.
Qed.

Lemma template_Adds {A} info t (body : Draw A) :
  Quiet body ->
  Adds (carries_chrome measure date_str info) 1
    (db.newPage PAGE_WIDTH PAGE_HEIGHT ;;
     draw_header measure info t ;;
     draw_footer date_str ;;
     body).
Proof.
  intros Hq c. destruct (template_page info t body c Hq) as [new E].
  eexists [_]. split; [exact E|]. split; [done|].
  apply Forall_singleton. cbn. apply carries_chrome_app, carries_chrome_chrome.
Qed.

Lemma Adds_bind {A B} chr_ok n1 n2 (m : Draw A) (k : A -> Draw B) :
  Adds chr_ok n1 m -> (forall a, Adds chr_ok n2 (k a)) ->
  Adds chr_ok (n2 + n1) (bind m k).
Proof.
  intros Hm Hk c. rewrite exec_bind.
  destruct (Hm c) as (a1 & E1 & L1 & F1).
  destruct (Hk (eval m c) (exec m c)) as (a2 & E2 & L2 & F2).
  exists (a2 ++ a1). split; [|split].
  - by rewrite E2, E1, app_assoc.
  - rewrite length_app. lia.
  - by apply Forall_app.
Qed.

Lemma Adds_alphabet_page fp info :
  Adds (carries_chrome measure date_str info) 1 (alphabet_page measure date_str fp info).
Proof. apply template_Adds. quiet. Qed.

Lemma Adds_numerals_page fp info :
  Adds (carries_chrome measure date_str info) 1 (numerals_page measure date_str fp info).
Proof. apply template_Adds. quiet. Qed.

Lemma Adds_waterfall_page fp info :
  Adds (carries_chrome measure date_str info) 1 (waterfall_page measure date_str fp info).
Proof. apply template_Adds. quiet. Qed.

Lemma Adds_paragraph_page fp info :
  Adds (carries_chrome measure date_str info) 1 (paragraph_page measure date_str fp info).
Proof. apply template_Adds. quiet. Qed.

Lemma Adds_kerning_page fp info :
  Adds (carries_chrome measure date_str info) 1 (kerning_page measure date_str fp info).
Proof. apply template_Adds. quiet. Qed.


(** ** The Spacing Proof template never needs its continuation page *)

Lemma Quiet_spacing_loop info letters y :
  (66 + inject_Z (Z.of_nat (length letters)) * (14%Z * 1.4) <= y)%Q ->
  Quiet (spacing_loop measure date_str info letters (14%Z * 1.4)%Q y).
Proof.
  revert y. induction letters as [|c letters IH]; intros y Hy;
    cbn [spacing_loop]; [quiet|].
  cbn [length] in Hy. rewrite Nat2Z.inj_succ, <- Z.add_1_r, inject_Z_plus in Hy.
  assert (0 <= inject_Z (Z.of_nat (length letters)))%Q.
  { change 0%Q with (inject_Z 0). rewrite <- Zle_Qle. lia. }
  cbv zeta. apply Quiet_bind; [quiet|]. intros line.
  apply Quiet_bind; [quiet|]. intros _.
  rewrite Qltb_false.
  - apply IH. change (inject_Z 1) with 1%Q in Hy.
    change (inject_Z 14) with 14%Q in *. lra.
  - change (inject_Z (MARGIN + 30)) with 66%Q.
    change (inject_Z 1) with 1%Q in Hy.
    change (inject_Z 14) with 14%Q in *. lra.
Qed.

Lemma Adds_spacing_page fp info :
  Adds (carries_chrome measure date_str info) 1 (spacing_page measure date_str fp info).
Proof.
  apply template_Adds. cbv zeta.
  apply Quiet_bind; [quiet|]. intros _.
  apply Quiet_bind; [quiet|]. intros _.
  apply Quiet_spacing_loop.
  change (length (chars lowercase)) with 26%nat.
  change (inject_Z (Z.of_nat 26)) with 26%Q.
  change (inject_Z (PAGE_HEIGHT - MARGIN - 40)) with 716%Q.
  change (inject_Z 14) with 14%Q. lra.
Qed.



(** ** The grid loop *)

(** One round of the grid loop on a surface with a page open. *)
Lemma glyph_loop_cons fp info cp rest x y pn p ps g st :
  glyph_loop measure date_str fp info (cp :: rest) x y pn (Canvas (p :: ps) g st) =
  let here := Page (pg_size p) (cell_prims measure fp g cp x y ++ pg_prims p) in
  if x + cell_size + cell_size >? PAGE_WIDTH - MARGIN then
    if y - cell_size - cell_size <? MARGIN then
      glyph_loop measure date_str fp info rest x_start y_start (pn + 1)
        (Canvas (Page (PAGE_WIDTH, PAGE_HEIGHT)
                      (chrome_prims measure date_str info (glyph_page_title (pn + 1)))
                   :: here :: ps) default_gstate [])
    else
      glyph_loop measure date_str fp info rest x_start (y - cell_size) pn
        (Canvas (here :: ps) g st)
  else
    glyph_loop measure date_str fp info rest (x + cell_size) y pn
      (Canvas (here :: ps) g st).
Proof.
  cbv zeta. cbn [glyph_loop]. unfold bind. cbn [fst snd].
  destruct (x + cell_size + cell_size >? PAGE_WIDTH - MARGIN);
    [destruct (y - cell_size - cell_size <? MARGIN)|]; reflexivity.
Qed.

Lemma grid_next_column j :
  0 <= j < per_page ->
  (grid_x j + cell_size + cell_size >? PAGE_WIDTH - MARGIN) = false ->
  grid_x (j + 1) = grid_x j + cell_size /\ grid_y (j + 1) = grid_y j
  /\ 0 <= j + 1 < per_page.
Proof.
  change cell_size with 45.
  unfold grid_x, grid_y, per_page, rows, cols, x_start, y_start,
    PAGE_WIDTH, PAGE_HEIGHT, MARGIN. change cell_size with 45.
  intros Hj Hc. rewrite Z.gtb_ltb in Hc. apply Z.ltb_ge in Hc.
  Z.div_mod_to_equations. lia.
Qed.

Lemma grid_next_row j :
  0 <= j < per_page ->
  (grid_x j + cell_size + cell_size >? PAGE_WIDTH - MARGIN) = true ->
  (grid_y j - cell_size - cell_size <? MARGIN) = false ->
  grid_x (j + 1) = x_start /\ grid_y (j + 1) = grid_y j - cell_size
  /\ 0 <= j + 1 < per_page.
Proof.
  change cell_size with 45.
  unfold grid_x, grid_y, per_page, rows, cols, x_start, y_start,
    PAGE_WIDTH, PAGE_HEIGHT, MARGIN. change cell_size with 45.
  intros Hj Hc Hr. rewrite Z.gtb_ltb in Hc. apply Z.ltb_lt in Hc.
  apply Z.ltb_ge in Hr.
  Z.div_mod_to_equations. lia.
Qed.

Lemma grid_next_page j :
  0 <= j < per_page ->
  (grid_x j + cell_size + cell_size >? PAGE_WIDTH - MARGIN) = true ->
  (grid_y j - cell_size - cell_size <? MARGIN) = true ->
  j + 1 = per_page.
Proof.
  change cell_size with 45.
  unfold grid_x, grid_y, per_page, rows, cols, x_start, y_start,
    PAGE_WIDTH, PAGE_HEIGHT, MARGIN. change cell_size with 45.
  intros Hj Hc Hr. rewrite Z.gtb_ltb in Hc. apply Z.ltb_lt in Hc.
  apply Z.ltb_lt in Hr.
  Z.div_mod_to_equations. lia.
Qed.



(** The pages the grid loop leaves, started at cell [j] of the current
    page: a new page is opened each time a page is full, the count of
    new pages is added to [page_num], and when the last cell fills a
    page the page in front is a fresh one with header and footer only. *)
Lemma glyph_loop_pages fp info l :
  forall j pn p ps g st,
  0 <= j < per_page ->
  let n := j + Z.of_nat (length l) in
  let r := glyph_loop measure date_str fp info l (grid_x j) (grid_y j) pn
             (Canvas (p :: ps) g st) in
  r.1 = pn + n / per_page /\
  exists added new,
    pages r.2 = added ++ Page (pg_size p) (new ++ pg_prims p) :: ps /\
    Z.of_nat (length added) = n / per_page /\
    Forall (fun q => carries_chrome measure date_str info (pg_prims q) = true) added /\
    (l = [] -> new = []) /\
    (n mod per_page = 0 -> forall q qs, added = q :: qs ->
       q = Page (PAGE_WIDTH, PAGE_HEIGHT)
             (chrome_prims measure date_str info
                (glyph_page_title (pn + n / per_page)))).
Proof.
  induction l as [|cp rest IH]; intros j pn p ps g st Hj n r.
  - subst n r. cbn [length glyph_loop Z.of_nat]. rewrite Z.add_0_r.
    rewrite (Z.div_small j per_page) by done.
    split; [cbn; lia|]. exists [], []. destruct p as [sz prims].
    repeat split; done.
  - subst r. rewrite glyph_loop_cons. cbv zeta.
    assert (Hn : n = (j + 1) + Z.of_nat (length rest))
      by (subst n; cbn [length]; lia).
    destruct (grid_x j + cell_size + cell_size >? PAGE_WIDTH - MARGIN) eqn:Hc;
      [destruct (grid_y j - cell_size - cell_size <? MARGIN) eqn:Hr|].
    + pose proof (grid_next_page j Hj Hc Hr) as Hfull.
      set (here := Page (pg_size p) (cell_prims measure fp g cp (grid_x j) (grid_y j)
                                       ++ pg_prims p)).
      set (fresh := Page (PAGE_WIDTH, PAGE_HEIGHT)
                      (chrome_prims measure date_str info (glyph_page_title (pn + 1)))).
      destruct (IH 0 (pn + 1) fresh (here :: ps) default_gstate [])
        as (Hret & added & new & Hpages & Hlen & Hall & Hnil & Hlast);
        [done|].
      change (grid_x 0) with x_start in Hret, Hpages.
      change (grid_y 0) with y_start in Hret, Hpages.
      rewrite Z.add_0_l in Hret, Hlen, Hlast.
      assert (Hdiv : n / per_page = 1 + Z.of_nat (length rest) / per_page).
      { rewrite Hn, Hfull. change per_page with 168.
        Z.div_mod_to_equations. lia. }
      assert (Hmod : n mod per_page = Z.of_nat (length rest) mod per_page).
      { rewrite Hn, Hfull. change per_page with 168.
        Z.div_mod_to_equations. lia. }
      split; [rewrite Hret, Hdiv; lia|].
      exists (added ++ [Page (pg_size fresh) (new ++ pg_prims fresh)]),
        (cell_prims measure fp g cp (grid_x j) (grid_y j)).
      split; [|split; [|split; [|split]]].
      * rewrite Hpages. by rewrite <- app_assoc.
      * rewrite length_app. cbn [length]. lia.
      * apply Forall_app. split; [done|]. apply Forall_singleton. cbn [pg_prims].
        apply carries_chrome_app, carries_chrome_chrome.
      * done.
      * intros Hz q qs Hq. rewrite Hmod in Hz.
        destruct added as [|q' qs'].
        -- cbn in Hq. injection Hq as <- <-.
           cbn [length Z.of_nat] in Hlen.
           assert (Hrest : rest = []).
           { destruct rest; [done|]. exfalso. cbn [length] in *.
             change per_page with 168 in *. Z.div_mod_to_equations. lia. }
           rewrite (Hnil Hrest). subst rest. cbn [length Z.of_nat] in Hdiv.
           rewrite Hdiv. by rewrite Z.div_0_l, Z.add_0_r.
        -- cbn in Hq. injection Hq as <- <-.
           rewrite (Hlast Hz q' qs' eq_refl), Hdiv. do 3 f_equal. lia.
    + destruct (grid_next_row j Hj Hc Hr) as (Hx & Hy & Hj').
      set (here := Page (pg_size p) (cell_prims measure fp g cp (grid_x j) (grid_y j)
                                       ++ pg_prims p)).
      destruct (IH (j + 1) pn here ps g st Hj')
        as (Hret & added & new & Hpages & Hlen & Hall & Hnil & Hlast).
      rewrite Hx, Hy in Hret, Hpages. rewrite <- Hn in Hret, Hlen, Hlast.
      split; [done|].
      exists added, (new ++ cell_prims measure fp g cp (grid_x j) (grid_y j)).
      split; [|split; [|split; [|split]]]; try done.
      rewrite Hpages. cbn [pg_size pg_prims here]. by rewrite <- app_assoc.
    + destruct (grid_next_column j Hj Hc) as (Hx & Hy & Hj').
      set (here := Page (pg_size p) (cell_prims measure fp g cp (grid_x j) (grid_y j)
                                       ++ pg_prims p)).
      destruct (IH (j + 1) pn here ps g st Hj')
        as (Hret & added & new & Hpages & Hlen & Hall & Hnil & Hlast).
      rewrite Hx, Hy in Hret, Hpages. rewrite <- Hn in Hret, Hlen, Hlast.
      split; [done|].
      exists added, (new ++ cell_prims measure fp g cp (grid_x j) (grid_y j)).
      split; [|split; [|split; [|split]]]; try done.
      rewrite Hpages. cbn [pg_size pg_prims here]. by rewrite <- app_assoc.
Qed.



(** ** What the grid loop draws *)

Ltac extract :=
  cbn [omap list_omap glyph_of label_of cell_of gs_font gs_fontSize];
  repeat case_decide;
  repeat match goal with
         | H : _ /\ _ |- _ => destruct H
         | H : ~ (_ /\ _) |- _ => exfalso; apply H; split; reflexivity
         | H : _ = glyph_size |- _ => vm_compute in H; discriminate H
         | H : _ = _ |- _ => discriminate H
         end;
  try reflexivity.

Lemma glyphs_cell fp g cp x y :
  glyphs fp (cell_prims measure fp g cp x y) = [chr cp].
Proof. unfold glyphs, cell_prims. extract. Qed.

Lemma labels_cell fp g cp x y :
  labels (cell_prims measure fp g cp x y) = [format_04X cp].
Proof. unfold labels, cell_prims. extract. Qed.

Lemma glyphs_chrome fp info t :
  glyphs fp (chrome_prims measure date_str info t) = [].
Proof.
  unfold glyphs, chrome_prims, footer_prim, header_title_prim, header_name_prim.
  extract.
Qed.

Lemma labels_chrome info t :
  labels (chrome_prims measure date_str info t) = [].
Proof.
  unfold labels, chrome_prims, footer_prim, header_title_prim, header_name_prim.
  extract.
Qed.

(** The grid loop draws one cell per code point, in the order of the
    list, and nothing else that looks like a cell. *)
Lemma glyph_loop_drawn fp info l :
  forall x y pn p ps g st,
  let c := Canvas (p :: ps) g st in
  let c' := (glyph_loop measure date_str fp info l x y pn c).2 in
  glyphs fp (all_prims c') = rev (map chr l) ++ glyphs fp (all_prims c) /\
  labels (all_prims c') = rev (map format_04X l) ++ labels (all_prims c) /\
  length (cells (all_prims c')) = (length l + length (cells (all_prims c)))%nat.
Proof.
  induction l as [|cp rest IH]; intros x y pn p ps g st c c'; [done|].
  subst c'. unfold c. rewrite glyph_loop_cons. cbv zeta.
  set (here := Page (pg_size p) (cell_prims measure fp g cp x y ++ pg_prims p)).
  assert (Hcell :
    forall c1 pre,
      all_prims c1 = pre ++ cell_prims measure fp g cp x y ++ all_prims c ->
      glyphs fp pre = [] -> labels pre = [] -> cells pre = [] ->
      glyphs fp (all_prims c1) = [chr cp] ++ glyphs fp (all_prims c) /\
      labels (all_prims c1) = [format_04X cp] ++ labels (all_prims c) /\
      length (cells (all_prims c1)) = S (length (cells (all_prims c)))).
  { intros c1 pre -> Hg Hl Hc. unfold glyphs, labels, cells in *.
    rewrite !omap_app, Hg, Hl, Hc.
    fold (glyphs fp (cell_prims measure fp g cp x y)).
    fold (labels (cell_prims measure fp g cp x y)).
    by rewrite glyphs_cell, labels_cell. }
  assert (Hhere : forall g' st',
            all_prims (Canvas (here :: ps) g' st')
            = [] ++ cell_prims measure fp g cp x y ++ all_prims c).
  { intros. unfold all_prims, c, here. cbn [pages map concat pg_prims app].
    by rewrite <- app_assoc. }
  cbn [map rev length]. rewrite <- !app_assoc.
  destruct (x + cell_size + cell_size >? PAGE_WIDTH - MARGIN);
    [destruct (y - cell_size - cell_size <? MARGIN)|].
  - set (fresh := Page (PAGE_WIDTH, PAGE_HEIGHT)
                    (chrome_prims measure date_str info (glyph_page_title (pn + 1)))).
    destruct (IH x_start y_start (pn + 1) fresh (here :: ps) default_gstate [])
      as (Hg & Hl & Hc).
    destruct (Hcell (Canvas (fresh :: here :: ps) default_gstate [])
                (chrome_prims measure date_str info (glyph_page_title (pn + 1))))
      as (Hg' & Hl' & Hc').
    { unfold all_prims, c, fresh, here. cbn [pages map concat pg_prims].
      by rewrite <- app_assoc. }
    { apply glyphs_chrome. } { apply labels_chrome. } { done. }
    rewrite Hg, Hl, Hc, Hg', Hl', Hc'. unfold c. repeat split; lia || done.
  - destruct (IH x_start (y - cell_size) pn here ps g st) as (Hg & Hl & Hc).
    destruct (Hcell (Canvas (here :: ps) g st) [] (Hhere g st)) as (Hg' & Hl' & Hc');
      [done..|].
    rewrite Hg, Hl, Hc, Hg', Hl', Hc'. unfold c. repeat split; lia || done.
  - destruct (IH (x + cell_size) y pn here ps g st) as (Hg & Hl & Hc).
    destruct (Hcell (Canvas (here :: ps) g st) [] (Hhere g st)) as (Hg' & Hl' & Hc');
      [done..|].
    rewrite Hg, Hl, Hc, Hg', Hl', Hc'. unfold c. repeat split; lia || done.
Qed.


(** ** The sorted code points *)

Lemma sorted_keys_Permutation (cmap : gmap N pystr) :
  sorted_keys cmap ≡ₚ (map_to_list cmap).*1.
Proof. apply merge_sort_Permutation. Qed.

Lemma sorted_keys_length (cmap : gmap N pystr) :
  length (sorted_keys cmap) = size cmap.
Proof.
  rewrite (Permutation_length (sorted_keys_Permutation cmap)).
  by rewrite length_fmap, length_map_to_list.
Qed.

Lemma sorted_keys_NoDup (cmap : gmap N pystr) : NoDup (sorted_keys cmap).
Proof.
  rewrite (sorted_keys_Permutation cmap). apply NoDup_fst_map_to_list.
Qed.

Lemma sorted_keys_elem (cmap : gmap N pystr) (cp : N) :
  cp ∈ sorted_keys cmap <-> is_Some (cmap !! cp).
Proof.
  rewrite (sorted_keys_Permutation cmap), list_elem_of_fmap. split.
  - intros ([k v] & -> & Hin). apply elem_of_map_to_list in Hin. by exists v.
  - intros [v Hv]. exists (cp, v). split; [done|]. by apply elem_of_map_to_list.
Qed.

Lemma StronglySorted_le_lt (l : list N) :
  StronglySorted N.le l -> NoDup l -> StronglySorted N.lt l.
Proof.
  induction 1 as [|x l Hs IH Hall]; intros Hnd; [constructor|].
  apply NoDup_cons in Hnd as [Hx Hnd].
  constructor; [by apply IH|].
  rewrite Forall_forall in Hall |- *. intros y Hy.
  destruct (N.le_lteq x y) as [Hle _].
  destruct (Hle (Hall y Hy)) as [Hlt | ->]; [done|]. by destruct Hx.
Qed.

Lemma sorted_keys_increasing (cmap : gmap N pystr) :
  StronglySorted N.lt (sorted_keys cmap).
Proof.
  apply StronglySorted_le_lt; [|apply sorted_keys_NoDup].
  apply StronglySorted_merge_sort; apply _.
Qed.


(** ** The Character Set template *)

Lemma glyph_set_page_unfold fp info cmap start c :
  glyph_set_page measure date_str fp info cmap start c
  = glyph_loop measure date_str fp info (sorted_keys cmap) (grid_x 0) (grid_y 0) start
      (Canvas (Page (PAGE_WIDTH, PAGE_HEIGHT)
                 (chrome_prims measure date_str info (py "Character Set"))
               :: pages c) default_gstate []).
Proof. reflexivity. Qed.

Lemma grid_page_count_Z (cmap : gmap N pystr) :
  Z.of_nat (grid_page_count cmap) = 1 + Z.of_nat (size cmap) / per_page.
Proof.
  unfold grid_page_count. rewrite Nat2Z.inj_succ, Nat2Z.inj_div. 
  change (Z.of_nat (Z.to_nat per_page)) with per_page. lia.
Qed.

(** The template puts [grid_page_count] pages in front, all with header
    and footer, and returns the number of the last one; when the code
    points fill their pages exactly, the last page holds header and
    footer and nothing else. *)
Lemma glyph_set_page_pages fp info cmap start c :
  let n := Z.of_nat (size cmap) in
  let r := glyph_set_page measure date_str fp info cmap start c in
  r.1 = start + n / per_page /\
  exists added,
    pages r.2 = added ++ pages c /\
    length added = grid_page_count cmap /\
    Forall (fun q => carries_chrome measure date_str info (pg_prims q) = true) added /\
    (0 < n -> n mod per_page = 0 ->
     exists qs,
       added = Page (PAGE_WIDTH, PAGE_HEIGHT)
                 (chrome_prims measure date_str info
                    (glyph_page_title (start + n / per_page))) :: qs).
Proof.
  intros n r. subst r. rewrite glyph_set_page_unfold.
  set (first := Page (PAGE_WIDTH, PAGE_HEIGHT)
                  (chrome_prims measure date_str info (py "Character Set"))).
  destruct (glyph_loop_pages fp info (sorted_keys cmap) 0 start first (pages c)
              default_gstate [])
    as (Hret & added & new & Hpages & Hlen & Hall & _ & Hlast); [done|].
  rewrite Z.add_0_l, sorted_keys_length in Hret, Hlen, Hlast.
  split; [exact Hret|].
  exists (added ++ [Page (pg_size first) (new ++ pg_prims first)]).
  split; [|split; [|split]].
  - rewrite Hpages. by rewrite <- app_assoc.
  - apply Nat2Z.inj. rewrite grid_page_count_Z, length_app. cbn [length].
    rewrite <- Hlen. lia.
  - apply Forall_app. split; [done|]. apply Forall_singleton.
    apply carries_chrome_app, carries_chrome_chrome.
  - intros Hpos Hz. fold n in Hlen, Hlast.
    destruct added as [|q qs].
    + exfalso. cbn [length Z.of_nat] in Hlen. revert Hlen Hz.
      change per_page with 168. intros. Z.div_mod_to_equations. lia.
    + exists (qs ++ [Page (pg_size first) (new ++ pg_prims first)]).
      by rewrite (Hlast Hz q qs eq_refl).
Qed.

Lemma Adds_glyph_set_page fp info cmap start :
  Adds (carries_chrome measure date_str info) (grid_page_count cmap)
    (glyph_set_page measure date_str fp info cmap start).
Proof.
  intros c.
  destruct (glyph_set_page_pages fp info cmap start c) as (_ & added & E & L & F & _).
  by exists added.
Qed.

(** ** The script sample *)

Lemma Adds_arabic_page fp info cmap :
  Adds (carries_chrome measure date_str info) (arabic_page_count cmap)
    (arabic_page measure date_str fp info cmap).
Proof.
  unfold arabic_page, arabic_page_count. cbv zeta.
  destruct (arabic_chars cmap) as [|a l].
  - intros c. by exists [].
  - apply template_Adds. quiet.
Qed.

(** C10.  When the character map holds a positive multiple of 168 code
    points, 168 k of them, the Character Set template adds k + 1 pages:
    the one in front carries header and footer and not a single cell,
    glyph or label, and the page number returned counts it. *)
Theorem glyph_set_page_trailing_empty_page
    (font_path : pystr) (font_info : font_info) (cmap : gmap N pystr)
    (start_page : Z) (c : canvas) (k : nat) :
  (0 < k)%nat -> size cmap = (168 * k)%nat ->
  let r := glyph_set_page measure date_str font_path font_info cmap start_page c in
  r.1 = start_page + Z.of_nat k /\
  exists last full,
    pages r.2 = Page (PAGE_WIDTH, PAGE_HEIGHT) last :: full ++ pages c /\
    length full = k /\
    carries_chrome measure date_str font_info last = true /\
    last = chrome_prims measure date_str font_info
             (glyph_page_title (start_page + Z.of_nat k)) /\
    cells last = [] /\ glyphs font_path last = [] /\ labels last = [].
Proof.
  intros Hk Hsize r.
  destruct (glyph_set_page_pages font_path font_info cmap start_page c)
    as (Hret & added & E & L & F & Hlast).
  fold r in Hret, E.
  assert (Hdiv : Z.of_nat (size cmap) / per_page = Z.of_nat k).
  { rewrite Hsize. change per_page with 168. Z.div_mod_to_equations. lia. }
  assert (Hmod : Z.of_nat (size cmap) mod per_page = 0).
  { rewrite Hsize. change per_page with 168. Z.div_mod_to_equations. lia. }
  rewrite Hdiv in Hret, Hlast.
  split; [exact Hret|].
  destruct Hlast as [qs ->]; [lia|done|].
  exists (chrome_prims measure date_str font_info
            (glyph_page_title (start_page + Z.of_nat k))), qs.
  split; [exact E|]. split; [|split; [|split; [|split; [|split]]]].
  - cbn [length] in L. apply Nat2Z.inj.
    assert (HZ := grid_page_count_Z cmap). rewrite <- L, Hdiv in HZ. lia.
  - apply carries_chrome_chrome.
  - done.
  - done.
  - apply glyphs_chrome.
  - apply labels_chrome.
Qed.


(** ** The order of the grid *)

Lemma omap_rev {A B} (f : A -> option B) (l : list A) :
  omap f (rev l) = rev (omap f l).
Proof.
  induction l as [|a l IH]; [done|].
  cbn [rev]. rewrite omap_app, IH. cbn. destruct (f a); cbn; by rewrite ?app_nil_r.
Qed.

Lemma elem_of_range (a b x : N) : x ∈ range a b <-> (a <= x < b)%N.
Proof.
  unfold range. rewrite list_elem_of_fmap. split.
  - intros (i & -> & Hi). apply elem_of_seq in Hi. lia.
  - intros Hx. exists (N.to_nat (x - a)). split; [lia|].
    apply elem_of_seq. lia.
Qed.

(** A map whose code points are those of [range a b] is enumerated as
    [range a b]. *)
Lemma sorted_keys_range (cmap : gmap N pystr) (a b : N) :
  (forall cp, is_Some (cmap !! cp) <-> (a <= cp < b)%N) ->
  sorted_keys cmap = range a b.
Proof.
  intros Hdom.
  assert (Hsorted : forall n, StronglySorted N.le (map (fun i => (a + N.of_nat i)%N) (seq 0 n))).
  { intros n. generalize 0%nat. induction n as [|n IH]; intros s; cbn; constructor.
    - apply IH.
    - apply Forall_forall. intros x Hx.
      apply list_elem_of_fmap in Hx as (i & -> & Hi). apply elem_of_seq in Hi. lia. }
  assert (Hnodup : forall n, NoDup (map (fun i => (a + N.of_nat i)%N) (seq 0 n))).
  { intros n.
    assert (Hinj : Inj eq eq (fun i : nat => (a + N.of_nat i)%N))
      by (intros i j Hij; lia).
    apply (NoDup_fmap_2 _), NoDup_seq. }
  apply (StronglySorted_unique N.le).
  - apply StronglySorted_merge_sort; apply _.
  - apply Hsorted.
  - apply NoDup_Permutation.
    + apply sorted_keys_NoDup.
    + apply Hnodup.
    + intros x. by rewrite sorted_keys_elem, elem_of_range.
Qed.

Lemma glyph_set_page_drawn fp info cmap start c :
  let c' := exec (glyph_set_page measure date_str fp info cmap start) c in
  glyphs fp (drawn c') = glyphs fp (drawn c) ++ map chr (sorted_keys cmap) /\
  labels (drawn c') = labels (drawn c) ++ map format_04X (sorted_keys cmap) /\
  length (cells (drawn c')) = (length (cells (drawn c)) + size cmap)%nat.
Proof.
  intros c'. subst c'. unfold exec. rewrite glyph_set_page_unfold.
  set (first := Page (PAGE_WIDTH, PAGE_HEIGHT)
                  (chrome_prims measure date_str info (py "Character Set"))).
  destruct (glyph_loop_drawn fp info (sorted_keys cmap) (grid_x 0) (grid_y 0) start
              first (pages c) default_gstate []) as (Hg & Hl & Hc).
  assert (Hfirst : all_prims (Canvas (first :: pages c) default_gstate [])
                   = chrome_prims measure date_str info (py "Character Set")
                     ++ all_prims c) by done.
  rewrite Hfirst in Hg, Hl, Hc.
  assert (Hg0 : glyphs fp (chrome_prims measure date_str info (py "Character Set")
                           ++ all_prims c) = glyphs fp (all_prims c)).
  { unfold glyphs. rewrite omap_app.
    fold (glyphs fp (chrome_prims measure date_str info (py "Character Set"))).
    by rewrite glyphs_chrome. }
  assert (Hl0 : labels (chrome_prims measure date_str info (py "Character Set")
                        ++ all_prims c) = labels (all_prims c)).
  { unfold labels. rewrite omap_app.
    fold (labels (chrome_prims measure date_str info (py "Character Set"))).
    by rewrite labels_chrome. }
  assert (Hc0 : cells (chrome_prims measure date_str info (py "Character Set")
                       ++ all_prims c) = cells (all_prims c)) by done.
  rewrite Hg0 in Hg. rewrite Hl0 in Hl. rewrite Hc0 in Hc.
  rewrite !drawn_all_prims. unfold glyphs, labels, cells in *.
  rewrite !omap_rev, Hg, Hl, !length_rev, Hc.
  rewrite !rev_app_distr, !rev_involutive, sorted_keys_length.
  repeat split; lia || done.
Qed.

(** C6.  The Character Set template draws one cell per code point of
    the character map, in strictly increasing order of code point,
    none twice and none left out; each cell has its glyph and its
    label.  For the map whose code points are 0x41 to 0x5A it adds
    exactly one page, with 26 cells labelled 0041 to 005A in order. *)
Theorem glyph_set_page_enumerates_sorted
    (font_path : pystr) (font_info : font_info) (cmap : gmap N pystr)
    (start_page : Z) (c : canvas) :
  let c' := exec (glyph_set_page measure date_str font_path font_info cmap start_page) c in
  (glyphs font_path (drawn c')
     = glyphs font_path (drawn c) ++ map chr (sorted_keys cmap) /\
   labels (drawn c') = labels (drawn c) ++ map format_04X (sorted_keys cmap) /\
   length (cells (drawn c')) = (length (cells (drawn c)) + size cmap)%nat) /\
  (StronglySorted N.lt (sorted_keys cmap) /\
   NoDup (sorted_keys cmap) /\
   forall cp, cp ∈ sorted_keys cmap <-> is_Some (cmap !! cp)) /\
  ((forall cp, is_Some (cmap !! cp) <-> (0x41 <= cp < 0x5B)%N) ->
   length (pages c') = S (length (pages c)) /\
   length (cells (drawn c')) = (length (cells (drawn c)) + 26)%nat /\
   glyphs font_path (drawn c')
     = glyphs font_path (drawn c) ++ chars uppercase /\
   labels (drawn c')
     = labels (drawn c)
       ++ map py [ "0041"; "0042"; "0043"; "0044"; "0045"; "0046"; "0047";
                   "0048"; "0049"; "004A"; "004B"; "004C"; "004D"; "004E";
                   "004F"; "0050"; "0051"; "0052"; "0053"; "0054"; "0055";
                   "0056"; "0057"; "0058"; "0059"; "005A" ]%string).
Proof.
  intros c'.
  pose proof (glyph_set_page_drawn font_path font_info cmap start_page c)
    as (Hg & Hl & Hc).
  fold c' in Hg, Hl, Hc.
  split; [done|]. split.
  { split; [apply sorted_keys_increasing|].
    split; [apply sorted_keys_NoDup|]. apply sorted_keys_elem. }
  intros Hdom.
  pose proof (sorted_keys_range cmap 0x41 0x5B Hdom) as Hkeys.
  assert (Hsize : size cmap = 26%nat)
    by (rewrite <- sorted_keys_length, Hkeys; reflexivity).
  rewrite Hkeys in Hg, Hl. rewrite Hsize in Hc.
  split; [|done].
  destruct (glyph_set_page_pages font_path font_info cmap start_page c)
    as (_ & added & E & L & _).
  fold (exec (glyph_set_page measure date_str font_path font_info cmap start_page) c) in E.
  fold c' in E. rewrite E, length_app, L.
  unfold grid_page_count. by rewrite Hsize.
Qed.


(** ** The Numerals & Punctuation template *)

(** One round of the punctuation loop on a surface with a page open. *)
Lemma punctuation_loop_cons fp size rest y p ps g st :
  punctuation_loop measure fp (size :: rest) y (Canvas (p :: ps) g st) =
  let g1 := GState fp size (Some 0%Q) (gs_stroke g) (gs_strokeWidth g) in
  let mid := (length punctuation / 2)%nat in
  if Qgtb (measure fp size punctuation) (PAGE_WIDTH - 2 * MARGIN)%Z then
    let c1 := Canvas (Page (pg_size p)
                        (PText g1 (slice_from mid punctuation) MARGIN (y - size * 1.3)%Q
                         :: PText g1 (slice_to mid punctuation) MARGIN y
                         :: pg_prims p) :: ps) g1 st in
    let y1 := (y - size * 1.3 - size * 1.5)%Q in
    if Qltb y1 (MARGIN + 30)%Z then (tt, c1)
    else punctuation_loop measure fp rest y1 c1
  else
    let c1 := Canvas (Page (pg_size p) (PText g1 punctuation MARGIN y :: pg_prims p)
                      :: ps) g1 st in
    let y1 := (y - size * 1.5)%Q in
    if Qltb y1 (MARGIN + 30)%Z then (tt, c1)
    else punctuation_loop measure fp rest y1 c1.
Proof.
  cbv zeta. cbn [punctuation_loop].
  lazy beta iota zeta delta
    [bind fit_or_split textSize db.font db.fill db.text set_gs modify add_prim
     ret fst snd gs pages stack gs_font gs_fontSize gs_stroke gs_strokeWidth
     gs_fill pg_size pg_prims].
  destruct (Qgtb (measure fp size punctuation) (PAGE_WIDTH - 2 * MARGIN)%Z);
    lazy beta iota;
    match goal with |- context [Qltb ?a ?b] => destruct (Qltb a b) end;
    reflexivity.
Qed.

Lemma specimen_runs_black g txt x y :
  gs_fill g = Some 0%Q ->
  run_of (PText g txt x y) = Some (gs_font g, gs_fontSize g, txt).
Proof. intros H. unfold run_of. by rewrite decide_True. Qed.

(** With room for every size, split or not, the punctuation loop sets
    each size in turn and never stops early. *)
Lemma punctuation_loop_runs fp sizes :
  forall y p ps g st,
  Forall (fun size => 0 <= size) sizes ->
  (66 + 2.8 * inject_Z (foldr Z.add 0%Z sizes) <= y)%Q ->
  exists new,
    pages (punctuation_loop measure fp sizes y (Canvas (p :: ps) g st)).2
    = Page (pg_size p) (new ++ pg_prims p) :: ps /\
    specimen_runs (rev new) = concat (map (punctuation_runs measure fp) sizes).
Proof.
  induction sizes as [|size rest IH]; intros y p ps g st Hpos Hy.
  - exists []. destruct p. done.
  - apply Forall_cons in Hpos as [Hsize Hpos].
    cbn [foldr] in Hy. rewrite inject_Z_plus in Hy.
    assert (0 <= inject_Z size)%Q
      by (change 0%Q with (inject_Z 0); by rewrite <- Zle_Qle).
    assert (0 <= inject_Z (foldr Z.add 0%Z rest))%Q.
    { change 0%Q with (inject_Z 0). rewrite <- Zle_Qle.
      clear -Hpos. induction Hpos; cbn; lia. }
    rewrite punctuation_loop_cons. cbv zeta.
    cbn [map concat]. unfold punctuation_runs at 1.
    change (inject_Z (MARGIN + 30)) with 66%Q.
    destruct (Qgtb (measure fp size punctuation) (PAGE_WIDTH - 2 * MARGIN)%Z).
    + rewrite Qltb_false by lra.
      set (p1 := Page _ _).
      destruct (IH (y - size * 1.3 - size * 1.5)%Q p1 ps
                  (GState fp size (Some 0%Q) (gs_stroke g) (gs_strokeWidth g)) st Hpos)
        as (new & E & Hruns); [lra|].
      eexists (new ++ [_; _]). split.
      * rewrite E. subst p1. cbn [pg_size pg_prims]. by rewrite <- app_assoc.
      * rewrite rev_app_distr. unfold specimen_runs in *. rewrite omap_app, Hruns.
        cbn [rev app omap list_omap]. by rewrite !specimen_runs_black.
    + rewrite Qltb_false by lra.
      set (p1 := Page _ _).
      destruct (IH (y - size * 1.5)%Q p1 ps
                  (GState fp size (Some 0%Q) (gs_stroke g) (gs_strokeWidth g)) st Hpos)
        as (new & E & Hruns); [lra|].
      eexists (new ++ [_]). split.
      * rewrite E. subst p1. cbn [pg_size pg_prims]. by rewrite <- app_assoc.
      * rewrite rev_app_distr. unfold specimen_runs in *. rewrite omap_app, Hruns.
        cbn [rev app omap list_omap]. by rewrite !specimen_runs_black.
Qed.


(** C8 (as the code has it).  The Numerals & Punctuation template makes
    one page.  Its specimen lines are the digit string at 72, 48, 36 and
    24 points, each drawn whole whatever it measures, and then the
    punctuation string at 36, 24, 18 and 14 points, each either whole
    (when it fits the usable width) or as its two halves. *)
Theorem numerals_page_sizes (font_path : pystr) (font_info : font_info) (c : canvas) :
  exists prims,
    pages (exec (numerals_page measure date_str font_path font_info) c)
    = Page (PAGE_WIDTH, PAGE_HEIGHT) prims :: pages c /\
    specimen_runs (rev prims)
    = map (numeral_run font_path) [72; 48; 36; 24]
      ++ concat (map (punctuation_runs measure font_path) [36; 24; 18; 14]).
Proof.
  destruct c as [pgs g0 st0]. unfold exec, numerals_page.
  lazy beta iota zeta delta
    [bind draw_header draw_footer textSize numerals_loop default_gstate
     db.newPage db.save db.restore db.font db.fill db.text set_gs modify add_prim
     ret fst snd gs pages stack gs_font gs_fontSize gs_stroke gs_strokeWidth
     gs_fill pg_size pg_prims firstn skipn].
  match goal with
  | |- context [punctuation_loop measure font_path ?sizes ?y
                  (Canvas (?p :: ?ps) ?g ?st)] =>
      destruct (punctuation_loop_runs font_path sizes y p ps g st)
        as (new & E & Hruns)
  end.
  { repeat constructor; lia. }
  { apply Qle_bool_iff. by vm_compute. }
  eexists. split; [exact E|].
  cbn [pg_prims]. rewrite rev_app_distr. unfold specimen_runs in *.
  rewrite omap_app, Hruns. f_equal.
Qed.

(** ** The document and the driver *)

Section Document.

Variable stamp_str : pystr.

(** *** The title page *)

Ltac no_chrome :=
  unfold carries_no_chrome, has_header_name, has_header_title, has_footer;
  cbn [existsb];
  rewrite !(bool_decide_eq_false_2 (_ ∈ _))
    by (rewrite !elem_of_cons, elem_of_nil; unfold header_name_prim, footer_prim;
        intuition discriminate);
  rewrite !(bool_decide_eq_false_2 (_ = _))
    by (unfold header_title_prim; discriminate);
  reflexivity.

Lemma title_page_no_chrome fp info c :
  exists prims,
    pages (exec (title_page stamp_str fp info) c)
    = Page (PAGE_WIDTH, PAGE_HEIGHT) prims :: pages c /\
    carries_no_chrome measure date_str info prims = true.
Proof.
  unfold title_page.
  destruct (designer info) as [|d ds]; eexists;
    (split;
     [ cbv [exec bind db.newPage db.font db.fill db.text add_prim set_gs modify
            title_meta_loop firstn skipn app fst snd pages gs stack ret
            pg_size pg_prims gs_fill gs_stroke gs_strokeWidth gs_font gs_fontSize];
       reflexivity
     | no_chrome ]).
Qed.


(** *** The whole document *)

Lemma Adds_eq {A} chr_ok n n' (m : Draw A) : n = n' -> Adds chr_ok n m -> Adds chr_ok n' m.
Proof. by intros ->. Qed.

Lemma Adds_pageCount chr_ok : Adds chr_ok 0 db.pageCount.
Proof. intros c. by exists []. Qed.

(** The document: the title page, without header and footer, then the
    pages of the other templates, each with both. *)
Lemma proof_pages_layout fp info cmap c0 :
  let r := proof_pages measure date_str stamp_str fp info cmap c0 in
  exists title added,
    pages r.2 = added ++ [Page (PAGE_WIDTH, PAGE_HEIGHT) title] /\
    carries_no_chrome measure date_str info title = true /\
    Forall (fun q => carries_chrome measure date_str info (pg_prims q) = true) added /\
    length added = (6 + grid_page_count cmap + arabic_page_count cmap)%nat /\
    r.1 = length (pages r.2).
Proof.
  intros r. subst r. unfold proof_pages.
  set (rest := (alphabet_page measure date_str fp info ;; _)).
  change ((db.newDrawing ;; title_page stamp_str fp info ;; rest) c0)
    with (rest (exec (title_page stamp_str fp info) (Canvas [] default_gstate []))).
  destruct (title_page_no_chrome fp info (Canvas [] default_gstate []))
    as (title & Et & Hno).
  assert (Hrest : Adds (carries_chrome measure date_str info)
                    (6 + grid_page_count cmap + arabic_page_count cmap) rest).
  { subst rest.
    eapply Adds_eq; [|
      apply Adds_bind; [apply Adds_alphabet_page|intros _];
      apply Adds_bind; [apply Adds_numerals_page|intros _];
      apply Adds_bind; [apply Adds_waterfall_page|intros _];
      apply Adds_bind; [apply Adds_spacing_page|intros _];
      apply Adds_bind; [apply Adds_paragraph_page|intros _];
      apply Adds_bind; [apply Adds_kerning_page|intros _];
      apply Adds_bind; [apply Adds_glyph_set_page|intros _];
      apply Adds_bind; [apply Adds_arabic_page|intros _];
      apply Adds_pageCount ].
    lia. }
  destruct (Hrest (exec (title_page stamp_str fp info) (Canvas [] default_gstate [])))
    as (added & E & L & F).
  exists title, added. rewrite Et in E. unfold exec in E.
  repeat split; try done.
Qed.


Lemma document_length c : length (document c) = length (pages c).
Proof. unfold document. by rewrite length_rev, length_map. Qed.

Lemma carries_chrome_rev info prims :
  carries_chrome measure date_str info (rev prims)
  = carries_chrome measure date_str info prims.
Proof.
  unfold carries_chrome, has_header_name, has_header_title, has_footer.
  f_equal; [f_equal|].
  - apply bool_decide_ext. by rewrite !list_elem_of_In, <- in_rev.
  - apply eq_true_iff_eq. rewrite !existsb_exists.
    split; intros (p & Hp & Ht); exists p; (split; [|done]); by apply in_rev in Hp.
  - apply bool_decide_ext. by rewrite !list_elem_of_In, <- in_rev.
Qed.

Lemma carries_no_chrome_rev info prims :
  carries_no_chrome measure date_str info (rev prims)
  = carries_no_chrome measure date_str info prims.
Proof.
  unfold carries_no_chrome, has_header_name, has_header_title, has_footer.
  f_equal; [f_equal|]; f_equal.
  - apply bool_decide_ext. by rewrite !list_elem_of_In, <- in_rev.
  - apply eq_true_iff_eq. rewrite !existsb_exists.
    split; intros (p & Hp & Ht); exists p; (split; [|done]); by apply in_rev in Hp.
  - apply bool_decide_ext. by rewrite !list_elem_of_In, <- in_rev.
Qed.

(** *** The driver *)

Variable resolve : pystr -> pystr.
Variable path_exists : pystr -> bool.
Variable open_font : pystr -> option ttfont.
Variable can_save : pystr -> bool.
Variable script_dir : pystr.

(** C1 (as the code has it).  For a font that exists, opens and has a
    Unicode character map, and an output path that can be written, the
    run returns [True] and writes one document of
    7 + (1 + codepoints // 168) + (0 or 1) pages: one page for each of
    the first seven templates, the pages of the Character Set grid, and
    the script sample when the map has a character of its range.  That
    is at least 8 pages, and the count is the one reported. *)
Theorem generate_proof_page_count
    (font_path output_path : pystr) (ttf : ttfont) (cmap : gmap N pystr) :
  path_exists (resolve font_path) = true ->
  open_font (resolve font_path) = Some ttf ->
  get_cmap ttf = Some cmap ->
  can_save (resolve output_path) = true ->
  let run := generate_proof measure date_str stamp_str resolve path_exists open_font
               can_save font_path output_path in
  exists doc,
    run.1 = Returned true /\
    saved run.2 = [(resolve output_path, doc)] /\
    reported_pages (length doc) ∈ run.2 /\
    length doc = (7 + grid_page_count cmap + arabic_page_count cmap)%nat /\
    (8 <= length doc)%nat.
Proof.
  intros Hexists Hopen Hcmap Hsave run. subst run. unfold generate_proof.
  rewrite Hexists, Hopen, Hcmap, Hsave. cbn [negb].
  pose proof (proof_pages_layout (resolve font_path) (get_font_info ttf) cmap
                (Canvas [] default_gstate []))
    as (title & added & E & _ & _ & L & Hcount).
  destruct (proof_pages measure date_str stamp_str (resolve font_path)
              (get_font_info ttf) cmap (Canvas [] default_gstate []))
    as [total c] eqn:Er.
  cbn [fst snd] in E, Hcount.
  assert (Hlen : length (document c)
                 = (7 + grid_page_count cmap + arabic_page_count cmap)%nat).
  { rewrite document_length, E, length_app, L. cbn [length]. lia. }
  exists (document c). cbn [fst snd].
  split; [done|]. split; [done|]. split; [|split; [done|]].
  - rewrite Hcount, <- document_length. unfold reported_pages.
    rewrite !elem_of_app, !elem_of_cons. right. right. right. by left.
  - rewrite Hlen. unfold grid_page_count. lia.
Qed.

(** C2.  When the resolved font path does not exist, [generate_proof]
    prints the "Font not found" line and returns [False] having opened
    no font and written no file, and the process ends with status 1;
    the status is 0 exactly when [generate_proof] returns [True]. *)
Theorem missing_font_fails_before_parsing (argv : list pystr) :
  (forall font_path output_path,
     path_exists (resolve font_path) = false ->
     let run := generate_proof measure date_str stamp_str resolve path_exists
                  open_font can_save font_path output_path in
     run = (Returned false,
            [EvPrint (py "Error: Font not found at " ++ resolve font_path)]) /\
     existsb is_open_font run.2 = false /\
     existsb is_save_image run.2 = false /\
     saved run.2 = []) /\
  let font_path :=
    if (1 <? length argv)%nat then nth 1 argv []
    else script_dir ++ py "/fonts/VirtuaGrotesk-Regular.ttf" in
  let output_path :=
    if (2 <? length argv)%nat then nth 2 argv []
    else script_dir ++ py "/proof.pdf" in
  let run := generate_proof measure date_str stamp_str resolve path_exists
               open_font can_save font_path output_path in
  let exit := main measure date_str stamp_str resolve path_exists open_font
                can_save script_dir argv in
  exit.2 = run.2 /\
  (path_exists (resolve font_path) = false -> exit.1 = 1) /\
  (exit.1 = 0 <-> run.1 = Returned true).
Proof.
  split.
  - intros font_path output_path Hmissing run. subst run.
    unfold generate_proof. rewrite Hmissing. by cbn.
  - intros font_path output_path run exit.
    assert (Hmain : exit = match run with
                           | (Returned success, log) => (if success then 0 else 1, log)
                           | (Raised, log) => (1, log)
                           end) by done.
    split; [|split].
    + rewrite Hmain. by destruct run as [[[]|] log].
    + intros Hmissing. rewrite Hmain. subst run. unfold generate_proof.
      by rewrite Hmissing.
    + rewrite Hmain. destruct run as [[[]|] log]; cbn; split; done.
Qed.



End Document.

End Properties.

(** * The properties on sample inputs *)

(** C1, as stated, fails: a font with the 26 capital letters and nothing
    else loads, the run succeeds, and the document has 8 pages, not 9. *)
Lemma valid_font_with_eight_pages :
  let run := generate_proof (measure_const 0) sample_date sample_stamp
               (fun p => p) (fun _ => true) (fun _ => Some (font_of_keys keys_AZ))
               (fun _ => true) (py "/repo/font.ttf") (py "/repo/proof.pdf") in
  run.1 = Returned true /\
  map (fun s => length s.2) (saved run.2) = [8%nat] /\
  ~ Forall (fun s => (9 <= length s.2)%nat) (saved run.2).
Proof.
  cbv zeta.
  assert (E : map (fun s : pystr * list (list prim) => length s.2)
                (saved (generate_proof (measure_const 0) sample_date sample_stamp
                          (fun p => p) (fun _ => true)
                          (fun _ => Some (font_of_keys keys_AZ)) (fun _ => true)
                          (py "/repo/font.ttf") (py "/repo/proof.pdf")).2)
              = [8%nat]) by (vm_compute; reflexivity).
  split; [vm_compute; reflexivity|]. split; [exact E|].
  intros H. rewrite Forall_forall in H.
  assert (Hin : In 8%nat [8%nat]) by (left; reflexivity).
  rewrite <- E in Hin. apply in_map_iff in Hin as (s & Hs & Hin).
  apply list_elem_of_In, H in Hin. lia.
Qed.

Lemma generate_proof_page_count_sample :
  (fun _ : pystr => true) (py "/repo/font.ttf") = true /\
  (fun _ : pystr => Some (font_of_keys keys_AZ)) (py "/repo/font.ttf")
  = Some (font_of_keys keys_AZ) /\
  get_cmap (font_of_keys keys_AZ) = Some (cmap_of_keys keys_AZ) /\
  (fun _ : pystr => true) (py "/repo/proof.pdf") = true /\
  exists doc,
    saved (generate_proof (measure_const 0) sample_date sample_stamp
             (fun p => p) (fun _ => true) (fun _ => Some (font_of_keys keys_AZ))
             (fun _ => true) (py "/repo/font.ttf") (py "/repo/proof.pdf")).2
    = [(py "/repo/proof.pdf", doc)] /\ (8 <= length doc)%nat.
Proof.
  split; [reflexivity|]. split; [reflexivity|].
  split; [reflexivity|]. split; [reflexivity|].
  destruct (generate_proof_page_count (measure_const 0) sample_date sample_stamp
              (fun p => p) (fun _ => true) (fun _ => Some (font_of_keys keys_AZ))
              (fun _ => true) (py "/repo/font.ttf") (py "/repo/proof.pdf")
              (font_of_keys keys_AZ) (cmap_of_keys keys_AZ)
              eq_refl eq_refl eq_refl eq_refl) as (doc & _ & Hsaved & _ & _ & Hlen).
  exists doc. split; [exact Hsaved | exact Hlen].
Defined.

Lemma missing_font_sample :
  (fun _ : pystr => false) (py "missing.ttf") = false /\
  (sample_run false (font_of_keys keys_AZ) [py "proof.py"; py "missing.ttf"]).1 = 1 /\
  (sample_run false (font_of_keys keys_AZ) [py "proof.py"; py "missing.ttf"]).2
  = [EvPrint (py "Error: Font not found at missing.ttf")] /\
  (sample_run true (font_of_keys keys_AZ) [py "proof.py"; py "font.ttf"]).1 = 0.
Proof.
  split; [reflexivity|].
  pose proof (missing_font_fails_before_parsing (measure_const 0) sample_date
                sample_stamp (fun p => p) (fun _ => false)
                (fun _ => Some (font_of_keys keys_AZ)) (fun _ => true) (py "/repo")
                [py "proof.py"; py "missing.ttf"]) as (_ & _ & Hexit & _).
  split; [exact (Hexit eq_refl)|].
  split; vm_compute; reflexivity.
Defined.

(** C3, as stated, fails: a probe line has 53 characters, and under a
    font in which nothing fits the width the loop goes from 11
    characters to 9, below the floor of 10. *)
Lemma truncation_below_ten :
  (10 <= length (probe_line (py "a")))%nat /\
  length (eval (fit_or_truncate (measure_const 1000) (probe_line (py "a"))) blank)
  = 9%nat /\
  ~ (10 <= length (eval (fit_or_truncate (measure_const 1000)
                           (probe_line (py "a"))) blank))%nat.
Proof.
  assert (E : length (eval (fit_or_truncate (measure_const 1000)
                              (probe_line (py "a"))) blank) = 9%nat)
    by (vm_compute; reflexivity).
  split; [vm_compute; lia|]. split; [exact E|]. rewrite E. lia.
Qed.

Lemma fit_or_truncate_floor_sample :
  (10 < length (probe_line (py "a")))%nat /\
  (9 <= length (eval (fit_or_truncate (measure_const 1000)
                        (probe_line (py "a"))) blank))%nat.
Proof.
  split; [vm_compute; lia|].
  apply (fit_or_truncate_floor (measure_const 1000) (probe_line (py "a")) blank).
  vm_compute; lia.
Defined.

Lemma fit_or_split_splits_sample :
  ((PAGE_WIDTH - 2 * MARGIN)%Z
   < measure_const 541 (gs_font (gs blank)) (gs_fontSize (gs blank)) uppercase)%Q /\
  length (slice_to (length uppercase / 2) uppercase) = 13%nat /\
  all_prims (exec (fit_or_split (measure_const 541) uppercase 48 716) blank)
  = [ PText default_gstate (py "NOPQRSTUVWXYZ") MARGIN (716 - 48%Z * 1.3)%Q;
      PText default_gstate (py "ABCDEFGHIJKLM") MARGIN 716 ].
Proof.
  assert (H : ((PAGE_WIDTH - 2 * MARGIN)%Z
               < measure_const 541 (gs_font (gs blank)) (gs_fontSize (gs blank))
                   uppercase)%Q) by reflexivity.
  split; [exact H|].
  destruct (fit_or_split_splits (measure_const 541) uppercase 48 716 blank H)
    as (Hlen & _ & _ & Hdrawn).
  split; [exact Hlen | exact Hdrawn].
Defined.

Lemma fit_or_split_fits_sample :
  (measure_const 540 (gs_font (gs blank)) (gs_fontSize (gs blank)) uppercase
   <= (PAGE_WIDTH - 2 * MARGIN)%Z)%Q /\
  all_prims (exec (fit_or_split (measure_const 540) uppercase 48 716) blank)
  = [ PText default_gstate uppercase MARGIN 716 ].
Proof.
  assert (H : (measure_const 540 (gs_font (gs blank)) (gs_fontSize (gs blank)) uppercase
               <= (PAGE_WIDTH - 2 * MARGIN)%Z)%Q) by (vm_compute; discriminate).
  split; [exact H|].
  exact (proj2 (fit_or_split_fits (measure_const 540) uppercase 48 716 blank H)).
Defined.

Lemma cmap_of_keys_lookup (keys : list N) (cp : N) :
  is_Some (cmap_of_keys keys !! cp) <-> cp ∈ keys.
Proof.
  unfold cmap_of_keys.
  rewrite <- not_eq_None_Some, <- not_elem_of_list_to_map.
  rewrite <- list_fmap_compose.
  replace (fst ∘ (fun cp0 : N => (cp0, py "glyph")) <$> keys) with keys
    by (induction keys as [|k keys IH]; [done | cbn; f_equal; exact IH]).
  split; [|tauto].
  intros H. by destruct (decide (cp ∈ keys)).
Qed.

Lemma capital_letters_sample :
  (forall cp, is_Some (cmap_of_keys keys_AZ !! cp) <-> (0x41 <= cp < 0x5B)%N) /\
  length (pages (exec (glyph_set_page (measure_const 0) sample_date
                         (py "/repo/font.ttf") sample_info
                         (cmap_of_keys keys_AZ) 1) blank)) = 1%nat /\
  length (cells (drawn (exec (glyph_set_page (measure_const 0) sample_date
                                (py "/repo/font.ttf") sample_info
                                (cmap_of_keys keys_AZ) 1) blank))) = 26%nat.
Proof.
  assert (H : forall cp,
             is_Some (cmap_of_keys keys_AZ !! cp) <-> (0x41 <= cp < 0x5B)%N).
  { intros cp. rewrite cmap_of_keys_lookup. apply elem_of_range. }
  split; [exact H|].
  destruct (glyph_set_page_enumerates_sorted (measure_const 0) sample_date
              (py "/repo/font.ttf") sample_info (cmap_of_keys keys_AZ) 1 blank)
    as (_ & _ & Hcap).
  destruct (Hcap H) as (Hpages & Hcells & _).
  split; [exact Hpages | exact Hcells].
Defined.

(** C7 on a font with the last thirty code points of the Arabic block,
    U+06E2 to U+06FF: the range of the script stops before U+06FF, so
    the second sample holds one character, not two, and U+06FF is not
    drawn; a font whose only Arabic character is U+06FF gets no page. *)
Lemma arabic_page_stops_before_U06FF :
  let cmap := cmap_of_keys keys_arabic_tail in
  size cmap = 30%nat /\
  Forall (fun cp => (0x0600 <= cp <= 0x06FF)%N) (sorted_keys cmap) /\
  map length (arabic_samples (arabic_chars cmap)) = [28%nat; 1%nat] /\
  arabic_samples (arabic_chars cmap)
  = [ range 0x06E2 0x06FE; [0x06FE%N] ] /\
  is_Some (cmap !! 0x06FF%N) /\
  arabic_page_count (cmap_of_keys [0x06FF%N]) = 0%nat.
Proof.
  cbv zeta. split; [by vm_compute|]. split.
  { apply Forall_forall. intros cp Hcp.
    apply sorted_keys_elem, cmap_of_keys_lookup, elem_of_range in Hcp. lia. }
  split; [by vm_compute|]. split; [by vm_compute|].
  split; [|by vm_compute].
  apply cmap_of_keys_lookup, elem_of_range. lia.
Qed.

(** C8, as stated, fails: under a font in which every string measures
    1000 points the digit string is still drawn whole at 72 points. *)
Lemma wide_digits_are_not_split :
  (py "/repo/font.ttf", 72%Q, numerals)
    ∈ specimen_runs (drawn (exec (numerals_page (measure_const 1000) sample_date
                                    (py "/repo/font.ttf") sample_info) blank)) /\
  ~ whole_lines_fit (measure_const 1000)
      (specimen_runs (drawn (exec (numerals_page (measure_const 1000) sample_date
                                     (py "/repo/font.ttf") sample_info) blank))).
Proof.
  assert (Hin : (py "/repo/font.ttf", 72%Q, numerals)
    ∈ specimen_runs (drawn (exec (numerals_page (measure_const 1000) sample_date
                                    (py "/repo/font.ttf") sample_info) blank))).
  { apply list_elem_of_In. vm_compute. left. reflexivity. }
  split; [exact Hin|].
  intros H. specialize (H _ _ _ Hin (or_introl eq_refl)).
  vm_compute in H. by apply H.
Qed.

Lemma full_page_sample :
  (0 < 1)%nat /\
  size (cmap_of_keys keys_full_page) = (168 * 1)%nat /\
  (glyph_set_page (measure_const 0) sample_date (py "/repo/font.ttf") sample_info
     (cmap_of_keys keys_full_page) 1 blank).1 = 2 /\
  length (pages (glyph_set_page (measure_const 0) sample_date (py "/repo/font.ttf")
                   sample_info (cmap_of_keys keys_full_page) 1 blank).2) = 2%nat.
Proof.
  assert (Hsize : size (cmap_of_keys keys_full_page) = (168 * 1)%nat)
    by (vm_compute; reflexivity).
  split; [lia|]. split; [exact Hsize|].
  destruct (glyph_set_page_trailing_empty_page (measure_const 0) sample_date
              (py "/repo/font.ttf") sample_info (cmap_of_keys keys_full_page) 1
              blank 1 (Nat.lt_0_1) Hsize)
    as (Hret & last & full & Hpages & Hfull & _).
  split; [exact Hret|].
  rewrite Hpages. cbn [length]. rewrite length_app, Hfull. reflexivity.
Defined.

(** * Further properties of the script *)

Section Further.

Variable measure : pystr -> Q -> pystr -> Q.
Variable date_str : pystr.

(** ** Font metadata *)

Lemma name_record_snoc nameID names r :
  name_record nameID (names ++ [r])
  = if (r.1 =? nameID)%N then r.2 else name_record nameID names.
Proof.
  unfold name_record. rewrite omap_app. cbn.
  destruct (r.1 =? nameID)%N; [by rewrite last_snoc | by rewrite app_nil_r].
Qed.

Lemma name_fold_fields names :
  let info := foldl name_step (FontInfo [] [] [] [] 0 0) names in
  family info = name_record 1 names /\
  style info = name_record 2 names /\
  version info = name_record 5 names /\
  designer info = name_record 9 names.
Proof.
  induction names as [|r names IH] using rev_ind; [done|].
  cbv zeta in *. rewrite foldl_app. cbn [foldl].
  rewrite !name_record_snoc. destruct IH as (Hf & Hs & Hv & Hd).
  destruct r as [nameID s]. unfold name_step. cbn [fst snd].
  destruct (N.eqb_spec nameID 1) as [->|]; [cbn; auto|].
  destruct (N.eqb_spec nameID 2) as [->|]; [cbn; auto|].
  destruct (N.eqb_spec nameID 5) as [->|]; [cbn; auto|].
  destruct (N.eqb_spec nameID 9) as [->|]; [cbn; auto|].
  auto.
Qed.

(** X1.  [get_font_info] takes each of family, style, version and
    designer from the last naming record with nameID 1, 2, 5 and 9: a
    later record overrides an earlier one, records with other nameIDs
    are ignored, and a field without a record is the empty string.  The
    glyph count is the length of the glyph order. *)
Theorem get_font_info_last_record_wins (ttf : ttfont) :
  let info := get_font_info ttf in
  family info = name_record 1 (tt_names ttf) /\
  style info = name_record 2 (tt_names ttf) /\
  version info = name_record 5 (tt_names ttf) /\
  designer info = name_record 9 (tt_names ttf) /\
  glyph_count info = N.of_nat (length (tt_glyphOrder ttf)) /\
  upm info = tt_unitsPerEm ttf.
Proof.
  destruct (name_fold_fields (tt_names ttf)) as (Hf & Hs & Hv & Hd).
  cbv zeta. unfold get_font_info. cbn. auto 10.
Qed.


(** ** Truncation *)

Lemma truncate_loop_stops (width : pystr -> Q) (line : pystr) :
  Qgtb (width line) (PAGE_WIDTH - 2 * MARGIN)%Z && (10 <? length line)%nat = false ->
  truncated width line = line.
Proof.
  intros Hstop. unfold truncated.
  destruct (Qgtb (width line) _) eqn:Hw; [|done].
  rewrite truncate_loop_step, Hw. cbn [andb] in *. by rewrite Hstop.
Qed.

(** X2.  Truncating a probe line a second time changes nothing: the
    result of the block is a fixed point of the block.  The result is a
    prefix of the line, shorter by an even number of characters. *)
Theorem truncated_idempotent (width : pystr -> Q) (line : pystr) :
  truncated width (truncated width line) = truncated width line /\
  exists k : nat,
    (2 * k <= length line)%nat /\
    truncated width line = take (length line - 2 * k) line /\
    length (truncated width line) = (length line - 2 * k)%nat.
Proof.
  destruct (truncate_loop_rounds width line) as (k & Hk & Hearlier & Hstop).
  destruct (Qgtb (width line) (PAGE_WIDTH - 2 * MARGIN)%Z) eqn:Hw.
  - assert (E : truncated width line = truncate_loop width line)
      by (unfold truncated; by rewrite Hw).
    rewrite E. split; [by apply truncate_loop_stops|].
    assert (Hle : (2 * k <= length line)%nat).
    { destruct k as [|k]; [lia|].
      destruct (Hearlier k ltac:(lia)) as [_ ?]. lia. }
    exists k. split; [done|]. split; [done|].
    rewrite Hk, length_take. lia.
  - assert (E : truncated width line = line)
      by (unfold truncated; by rewrite Hw).
    rewrite E. split; [done|].
    exists 0%nat. rewrite Nat.sub_0_r, firstn_all. repeat split; lia || done.
Qed.

(** ** Numerals *)

Lemma undigit_digit_char (d : N) : (d < 16)%N -> undigit (digit_char d) = d.
Proof.
  intros Hd. unfold undigit, digit_char.
  destruct (N.ltb_spec d 10).
  - destruct (N.ltb_spec (48 + d) 58); lia.
  - destruct (N.ltb_spec (55 + d) 58); lia.
Qed.

Lemma numeral_value_snoc base s ch :
  numeral_value base (s ++ [ch]) = (base * numeral_value base s + undigit ch)%N.
Proof. unfold numeral_value. by rewrite foldl_app. Qed.

(** The digits a number is written with, in front of what was there,
    denote the number. *)
Lemma digits_aux_value (base : N) (fuel : nat) :
  (2 <= base <= 16)%N ->
  forall n acc, (n < 2 ^ N.of_nat fuel)%N ->
  exists ds,
    digits_aux base fuel n acc = ds ++ acc /\
    numeral_value base ds = n /\
    (length ds <= fuel)%nat /\ (0 < fuel -> 0 < length ds)%nat.
Proof.
  intros Hbase. induction fuel as [|fuel IH]; intros n acc Hn.
  - exists []. cbn in *. repeat split; lia || done.
  - cbn [digits_aux].
    assert (Hmod : (n mod base < 16)%N).
    { pose proof (N.mod_upper_bound n base). lia. }
    destruct (N.eqb_spec (n / base) 0) as [Hq|Hq].
    + exists [digit_char (n mod base)]. split; [done|].
      split; [|cbn; lia].
      unfold numeral_value. cbn. rewrite undigit_digit_char by done.
      pose proof (N.div_mod n base ltac:(lia)). lia.
    + destruct (IH (n / base)%N (digit_char (n mod base) :: acc))
        as (ds & E & Hv & Hlen & _).
      { rewrite Nat2N.inj_succ, N.pow_succ_r' in Hn.
        assert (n / base <= n / 2)%N.
        { apply N.div_le_compat_l. lia. }
        assert (n / 2 < 2 ^ N.of_nat fuel)%N.
        { apply N.Div0.div_lt_upper_bound. lia. }
        lia. }
      exists (ds ++ [digit_char (n mod base)]). split; [|split; [|split]].
      * rewrite E. by rewrite <- app_assoc.
      * rewrite numeral_value_snoc, Hv, undigit_digit_char by done.
        pose proof (N.div_mod n base ltac:(lia)). lia.
      * rewrite length_app. cbn. lia.
      * rewrite length_app. cbn. lia.
Qed.

Lemma numeral_value_zeros base k s :
  numeral_value base (replicate k 48%N ++ s) = numeral_value base s.
Proof.
  unfold numeral_value. rewrite foldl_app. f_equal.
  induction k as [|k IH]; [done|]. 
  rewrite replicate_S_end, foldl_app, IH. cbn. lia.
Qed.

Lemma digits_value (base n : N) :
  (2 <= base <= 16)%N ->
  numeral_value base (digits base n) = n /\ (0 < length (digits base n))%nat.
Proof.
  intros Hbase. unfold digits.
  destruct (digits_aux_value base (S (N.to_nat (N.log2 n))) Hbase n [])
    as (ds & E & Hv & _ & Hpos).
  - rewrite Nat2N.inj_succ, N2Nat.id.
    destruct n as [|p]; [done|]. apply N.log2_spec. lia.
  - rewrite E, app_nil_r. split; [done|]. apply Hpos. lia.
Qed.

Lemma digits_aux_length (base : N) (fuel : nat) :
  (2 <= base)%N ->
  forall n acc k, (n < base ^ N.of_nat (S k))%N ->
  (length (digits_aux base fuel n acc) <= S k + length acc)%nat.
Proof.
  intros Hbase. induction fuel as [|fuel IH]; intros n acc k Hn; [cbn; lia|].
  cbn [digits_aux].
  destruct (N.eqb_spec (n / base) 0%N) as [Hq|Hq]; [cbn; lia|].
  destruct k as [|k].
  - exfalso. apply Hq. apply N.div_small. change (N.of_nat 1) with 1%N in Hn.
    by rewrite N.pow_1_r in Hn.
  - etransitivity; [apply (IH _ _ k)|cbn; lia].
    rewrite Nat2N.inj_succ, N.pow_succ_r' in Hn.
    apply N.Div0.div_lt_upper_bound. lia.
Qed.

(** X3.  The label of a grid cell, [f"{cp:04X}"], reads back as the code
    point: two code points never share a label.  It has at least four
    characters, and exactly four up to U+FFFF. *)
Theorem format_04X_reads_back (cp : N) :
  numeral_value 16 (format_04X cp) = cp /\
  (4 <= length (format_04X cp))%nat /\
  ((cp < 0x10000)%N -> length (format_04X cp) = 4%nat).
Proof.
  destruct (digits_value 16 cp ltac:(lia)) as [Hv Hpos].
  unfold format_04X. cbv zeta.
  split; [by rewrite numeral_value_zeros|].
  rewrite length_app, length_replicate. split; [lia|].
  intros Hcp.
  assert (length (digits 16 cp) <= 4)%nat; [|lia].
  unfold digits.
  pose proof (digits_aux_length 16 (S (N.to_nat (N.log2 cp))) ltac:(lia) cp [] 3 Hcp).
  cbn [length] in *. lia.
Qed.


(** ** Header and footer leave the graphics state alone *)

(** X4.  [draw_header] and [draw_footer] change neither the graphics
    state nor the save stack of the surface they are called on, whatever
    these are, and draw exactly two texts and one text: the header in
    Helvetica 9 at grey 0.4, the footer in Helvetica 8 at grey 0.5. *)
Theorem header_and_footer_restore_the_state
    (font_info : font_info) (page_title : pystr) (c : canvas) :
  let h := exec (draw_header measure font_info page_title) c in
  let f := exec (draw_footer date_str) c in
  let in_state name size v :=
    GState name size (Some v) (gs_stroke (gs c)) (gs_strokeWidth (gs c)) in
  (gs h = gs c /\ stack h = stack c /\
   all_prims h
   = [ PText (in_state Helvetica 9 0.4%Q) page_title
             ((PAGE_WIDTH - MARGIN)%Z - measure Helvetica 9 page_title)%Q
             (PAGE_HEIGHT - MARGIN + 10)%Z;
       PText (in_state Helvetica 9 0.4%Q)
             (family font_info ++ py " " ++ style font_info)
             MARGIN (PAGE_HEIGHT - MARGIN + 10)%Z ] ++ all_prims c) /\
  (gs f = gs c /\ stack f = stack c /\
   all_prims f
   = PText (in_state Helvetica 8 0.5%Q) date_str MARGIN (MARGIN - 20)%Z
       :: all_prims c).
Proof.
  destruct c as [[|p ps] [name size fill stroke width] st]; repeat split.
Qed.


(** ** The Spacing Proof template *)

(** One round of the spacing loop on a surface with a page open. *)
Lemma spacing_loop_cons info ch rest lh y p ps g st :
  spacing_loop measure date_str info (ch :: rest) lh y (Canvas (p :: ps) g st) =
  let line := truncated (measure (gs_font g) (gs_fontSize g)) (probe_line ch) in
  let here := Page (pg_size p) (PText g line MARGIN y :: pg_prims p) in
  if Qltb (y - lh)%Q (MARGIN + 30)%Z then
    spacing_loop measure date_str info rest lh (PAGE_HEIGHT - MARGIN - 40)%Z
      (Canvas (Page (PAGE_WIDTH, PAGE_HEIGHT)
                 (chrome_prims measure date_str info (py "Spacing Proof (continued)"))
               :: here :: ps) default_gstate [])
  else
    spacing_loop measure date_str info rest lh (y - lh)%Q (Canvas (here :: ps) g st).
Proof.
  cbv zeta. cbn [spacing_loop]. unfold bind. cbn [fst snd].
  destruct (Qltb (y - lh)%Q (MARGIN + 30)%Z); reflexivity.
Qed.

(** With room for every letter the loop sets one line per letter on the
    page it is given. *)
Lemma spacing_loop_lines info letters :
  forall y p ps g st,
  gs_fill g = Some 0%Q ->
  (66 + inject_Z (Z.of_nat (length letters)) * (14%Z * 1.4) <= y)%Q ->
  exists new,
    pages (spacing_loop measure date_str info letters (14%Z * 1.4)%Q y
             (Canvas (p :: ps) g st)).2
    = Page (pg_size p) (new ++ pg_prims p) :: ps /\
    specimen_runs (rev new)
    = map (fun ch => (gs_font g, gs_fontSize g,
                      truncated (measure (gs_font g) (gs_fontSize g)) (probe_line ch)))
          letters.
Proof.
  induction letters as [|ch letters IH]; intros y p ps g st Hfill Hy.
  - exists []. by destruct p.
  - cbn [length] in Hy.
    rewrite Nat2Z.inj_succ, <- Z.add_1_r, inject_Z_plus in Hy.
    assert (0 <= inject_Z (Z.of_nat (length letters)))%Q.
    { change 0%Q with (inject_Z 0). rewrite <- Zle_Qle. lia. }
    change (inject_Z 1) with 1%Q in Hy. change (inject_Z 14) with 14%Q in *.
    rewrite spacing_loop_cons. cbv zeta.
    change (inject_Z (MARGIN + 30)) with 66%Q.
    change (inject_Z 14) with 14%Q.
    rewrite Qltb_false by lra.
    set (here := Page _ _).
    destruct (IH (y - 14 * 1.4)%Q here ps g st Hfill) as (new & E & Hruns); [lra|].
    eexists (new ++ [_]). split.
    + rewrite E. subst here. cbn [pg_size pg_prims]. by rewrite <- app_assoc.
    + rewrite rev_app_distr. unfold specimen_runs in *. rewrite omap_app, Hruns.
      cbn [rev app omap list_omap map]. by rewrite specimen_runs_black.
Qed.

Lemma spacing_page_unfold fp info c :
  spacing_page measure date_str fp info c
  = spacing_loop measure date_str info (chars lowercase) (14%Z * 1.4)%Q
      (PAGE_HEIGHT - MARGIN - 40)%Z
      (Canvas (Page (PAGE_WIDTH, PAGE_HEIGHT)
                 (chrome_prims measure date_str info (py "Spacing Proof"))
               :: pages c)
              (GState fp 14 (Some 0%Q) None 1) []).
Proof. reflexivity. Qed.

(** X5.  The Spacing Proof template always makes exactly one page: its
    26 lines of 19.6 points end far above the bottom margin, so the
    continuation page is never opened.  The page holds one line per
    lowercase letter, in alphabetical order, each the probe line of its
    letter as truncated under the font at 14 points. *)
Theorem spacing_page_is_one_page (font_path : pystr) (font_info : font_info)
    (c : canvas) :
  exists prims,
    pages (exec (spacing_page measure date_str font_path font_info) c)
    = Page (PAGE_WIDTH, PAGE_HEIGHT) prims :: pages c /\
    specimen_runs (rev prims)
    = map (fun ch => (font_path, 14%Q,
                      truncated (measure font_path 14) (probe_line ch)))
          (chars lowercase) /\
    length (specimen_runs (rev prims)) = 26%nat.
Proof.
  unfold exec. rewrite spacing_page_unfold.
  set (first := Page (PAGE_WIDTH, PAGE_HEIGHT)
                  (chrome_prims measure date_str font_info (py "Spacing Proof"))).
  destruct (spacing_loop_lines font_info (chars lowercase)
              (PAGE_HEIGHT - MARGIN - 40)%Z first (pages c)
              (GState font_path 14 (Some 0%Q) None 1) [])
    as (new & E & Hruns).
  { reflexivity. }
  { apply Qle_bool_iff. by vm_compute. }
  rewrite E. eexists. split; [reflexivity|].
  cbn [pg_prims first gs_font gs_fontSize] in *.
  rewrite rev_app_distr. unfold specimen_runs in *. rewrite omap_app, Hruns.
  assert (Hchrome : omap run_of
            (rev (chrome_prims measure date_str font_info (py "Spacing Proof"))) = [])
    by reflexivity.
  rewrite Hchrome. cbn [app].
  split; [reflexivity|]. by rewrite length_map.
Qed.

(** ** The templates with a fixed ladder never stop early *)

(** Evaluates a template whose control flow does not depend on the font. *)
Ltac run_template :=
  match goal with
  | |- exists prims, pages ?r = _ :: _ /\ _ =>
      let P := fresh "P" in
      let E := fresh "E" in
      remember (pages r) as P eqn:E; vm_compute in E; subst P;
      eexists; split; [reflexivity|]
  end.

(** X6.  The Size Waterfall template makes one page and sets the sample
    word at every one of its 17 sizes, from 72 down to 6 points, each row
    with its grey size label: the test for the bottom margin never
    stops the ladder. *)
Theorem waterfall_page_sets_every_size (font_path : pystr) (font_info : font_info)
    (c : canvas) :
  let sizes := [72; 60; 48; 36; 30; 24; 20; 18; 16; 14; 12; 11; 10; 9; 8; 7; 6] in
  exists prims,
    pages (exec (waterfall_page measure date_str font_path font_info) c)
    = Page (PAGE_WIDTH, PAGE_HEIGHT) prims :: pages c /\
    specimen_runs (rev prims)
    = map (fun size : Z => (font_path, inject_Z size, py "Hamburgefontsiv")) sizes /\
    texts_filled 0.5 (rev prims)
    = date_str :: map (fun size : Z => str_of_Z size ++ py "pt") sizes.
Proof.
  cbv zeta. destruct c as [pgs g0 st0]. run_template.
  split; vm_compute; reflexivity.
Qed.

(** X7.  The Paragraph Setting template makes one page with all five
    paragraphs, at 14, 12, 10, 9 and 8 points, each in a box as wide as
    the usable width and six times the size high, under its grey label;
    the lowest box ends at y = 208, above the bottom margin. *)
Theorem paragraph_page_sets_every_size (font_path : pystr) (font_info : font_info)
    (c : canvas) :
  exists prims,
    pages (exec (paragraph_page measure date_str font_path font_info) c)
    = Page (PAGE_WIDTH, PAGE_HEIGHT) prims :: pages c /\
    boxes (rev prims)
    = [ (14%Q, (36%Q, 618%Q, 540%Q, 84%Q)); (12%Q, (36%Q, 502%Q, 540%Q, 72%Q));
        (10%Q, (36%Q, 398%Q, 540%Q, 60%Q)); (9%Q, (36%Q, 300%Q, 540%Q, 54%Q));
        (8%Q, (36%Q, 208%Q, 540%Q, 48%Q)) ] /\
    texts_filled 0.5 (rev prims)
    = date_str :: map py [ "14pt / 19pt leading"; "12pt / 16pt leading";
                           "10pt / 14pt leading"; "9pt / 12pt leading";
                           "8pt / 11pt leading" ]%string.
Proof.
  destruct c as [pgs g0 st0]. run_template.
  split; vm_compute; reflexivity.
Qed.

(** X8.  The Kerning Pairs template makes one page and sets all eight
    lines of pairs at 24 points. *)
Theorem kerning_page_sets_every_line (font_path : pystr) (font_info : font_info)
    (c : canvas) :
  exists prims,
    pages (exec (kerning_page measure date_str font_path font_info) c)
    = Page (PAGE_WIDTH, PAGE_HEIGHT) prims :: pages c /\
    specimen_runs (rev prims)
    = map (fun pairs => (font_path, 24%Q, pairs)) kern_pairs.
Proof.
  destruct c as [pgs g0 st0]. run_template.
  vm_compute; reflexivity.
Qed.


(** ** The title page *)

(** X9.  The title page is one page with five specimen lines (family at
    48, style at 24, three pairs of letters at 72 points) and a
    metadata block in the order Family, Style, Designer, Version,
    Glyphs, Units per Em, Generated; the Designer line is there exactly
    when the font names a designer, as the third line. *)
Theorem title_page_metadata (stamp_str font_path : pystr) (font_info : font_info)
    (c : canvas) :
  exists prims,
    pages (exec (title_page stamp_str font_path font_info) c)
    = Page (PAGE_WIDTH, PAGE_HEIGHT) prims :: pages c /\
    specimen_runs (rev prims)
    = [ (font_path, 48%Q, family font_info); (font_path, 24%Q, style font_info);
        (font_path, 72%Q, py "Aa Bb Cc"); (font_path, 72%Q, py "Dd Ee Ff");
        (font_path, 72%Q, py "Gg Hh Ii") ] /\
    texts_filled 0.3 (rev prims)
    = [ py "Family: " ++ family font_info; py "Style: " ++ style font_info ]
      ++ match designer font_info with
         | [] => []
         | _ :: _ => [ py "Designer: " ++ designer font_info ]
         end
      ++ [ py "Version: " ++ version font_info;
           py "Glyphs: " ++ str_of_N (glyph_count font_info);
           py "Units per Em: " ++ str_of_N (upm font_info);
           py "Generated: " ++ stamp_str ].
Proof.
  unfold title_page.
  destruct (designer font_info) as [|d ds]; eexists;
    (split;
     [ cbv [exec bind db.newPage db.font db.fill db.text add_prim set_gs modify
            title_meta_loop firstn skipn app fst snd pages gs stack ret
            pg_size pg_prims gs_fill gs_stroke gs_strokeWidth gs_font gs_fontSize];
       reflexivity
     | split; reflexivity ]).
Qed.


(** ** A font that exists but does not open *)

(** X10.  When the font file exists but [TTFont] raises on it, nothing
    catches the exception: the run has printed its first line and tried
    the font once, it draws nothing and writes no file, and the
    process ends with status 1. *)
Theorem unreadable_font_exits_1
    (stamp_str : pystr) (resolve : pystr -> pystr) (path_exists : pystr -> bool)
    (open_font : pystr -> option ttfont) (can_save : pystr -> bool)
    (script_dir : pystr) (argv : list pystr) :
  let font_path :=
    if (1 <? length argv)%nat then nth 1 argv []
    else script_dir ++ py "/fonts/VirtuaGrotesk-Regular.ttf" in
  path_exists (resolve font_path) = true ->
  open_font (resolve font_path) = None ->
  let exit := main measure date_str stamp_str resolve path_exists open_font
                can_save script_dir argv in
  exit = (1, [ EvPrint (py "Generating proof for: " ++ path_name (resolve font_path));
               EvOpenFont (resolve font_path) ]) /\
  saved exit.2 = [].
Proof.
  intros font_path Hexists Hopen exit. subst exit. unfold main, generate_proof.
  fold font_path. rewrite Hexists, Hopen. cbn. done.
Qed.


(** ** The script sample *)

Lemma join_nil (parts : list pystr) : join [] parts = concat parts.
Proof.
  induction parts as [|p [|q parts] IH]; [done| |].
  - cbn. by rewrite app_nil_r.
  - change (join [] (p :: q :: parts)) with (p ++ [] ++ join [] (q :: parts)).
    by rewrite IH.
Qed.

Lemma concat_chr (cps : list N) : concat (map chr cps) = cps.
Proof. induction cps as [|cp cps IH]; [done|]. cbn. by rewrite IH. Qed.

(** With room for every size at two lines each, the loop of the script
    page sets every non-empty sample at every size. *)
Lemma arabic_loop_runs fp s1 s2 sizes :
  forall y p ps g st,
  Forall (fun size => 0 <= size) sizes ->
  (86 + 3 * inject_Z (foldr Z.add 0%Z sizes)
   + 20 * inject_Z (Z.of_nat (length sizes)) <= y)%Q ->
  exists new,
    pages (arabic_loop fp [s1; s2] sizes y (Canvas (p :: ps) g st)).2
    = Page (pg_size p) (new ++ pg_prims p) :: ps /\
    specimen_runs (rev new)
    = concat (map (fun size : Z =>
                     map (fun s => (fp, inject_Z size, s))
                         (List.filter nonempty [s1; s2])) sizes).
Proof.
  induction sizes as [|size rest IH]; intros y p ps g st Hpos Hy.
  - exists []. by destruct p.
  - apply Forall_cons in Hpos as [Hsize Hpos].
    cbn [foldr length] in Hy.
    rewrite inject_Z_plus, Nat2Z.inj_succ, <- Z.add_1_r, inject_Z_plus in Hy.
    change (inject_Z 1) with 1%Q in Hy.
    assert (0 <= inject_Z size)%Q
      by (change 0%Q with (inject_Z 0); by rewrite <- Zle_Qle).
    assert (0 <= inject_Z (foldr Z.add 0%Z rest))%Q.
    { change 0%Q with (inject_Z 0). rewrite <- Zle_Qle.
      clear -Hpos. induction Hpos; cbn; lia. }
    assert (0 <= inject_Z (Z.of_nat (length rest)))%Q.
    { change 0%Q with (inject_Z 0). rewrite <- Zle_Qle. lia. }
    set (g1 := GState fp size (Some 0%Q) (gs_stroke g) (gs_strokeWidth g)).
    cbn [map concat].
    destruct s1 as [|a1 s1], s2 as [|a2 s2];
      cbn [arabic_loop arabic_samples_loop]; unfold bind;
      cbn [fst snd db.font db.fill db.text set_gs modify add_prim ret pages gs stack
           gs_font gs_fontSize gs_fill gs_stroke gs_strokeWidth];
      change (inject_Z (MARGIN + 50)) with 86%Q;
      (rewrite Qltb_false by lra);
      match goal with
      | |- context [arabic_loop fp ?ss rest ?y1 (Canvas (?p1 :: ps) ?g' st)] =>
          destruct (IH y1 p1 ps g' st Hpos) as (new & E & Hruns); [lra|]
      end.
    + exists new. split; [exact E|]. by rewrite Hruns.
    + eexists (new ++ [_]). split.
      * rewrite E. cbn [pg_size pg_prims]. by rewrite <- app_assoc.
      * rewrite rev_app_distr. unfold specimen_runs in *. rewrite omap_app, Hruns.
        reflexivity.
    + eexists (new ++ [_]). split.
      * rewrite E. cbn [pg_size pg_prims]. by rewrite <- app_assoc.
      * rewrite rev_app_distr. unfold specimen_runs in *. rewrite omap_app, Hruns.
        reflexivity.
    + eexists (new ++ [_; _]). split.
      * rewrite E. cbn [pg_size pg_prims]. by rewrite <- app_assoc.
      * rewrite rev_app_distr. unfold specimen_runs in *. rewrite omap_app, Hruns.
        reflexivity.
Qed.

Lemma arabic_chars_codepoints (cmap : gmap N pystr) :
  arabic_chars cmap = map chr (arabic_codepoints cmap).
Proof. reflexivity. Qed.


Lemma arabic_page_unfold fp info cmap c :
  arabic_chars cmap <> [] ->
  arabic_page measure date_str fp info cmap c
  = arabic_loop fp (arabic_samples (arabic_chars cmap)) [48; 36; 24; 18]
      (PAGE_HEIGHT - MARGIN - 50)%Z
      (Canvas (Page (PAGE_WIDTH, PAGE_HEIGHT)
                 (chrome_prims measure date_str info (py "Arabic")) :: pages c)
              default_gstate []).
Proof.
  intros Hsome. unfold arabic_page. cbv zeta.
  destruct (arabic_chars cmap) as [|a l]; [done | reflexivity].
Qed.

(** X11.  The script page shows at most 56 characters: the first sample
    is the first 28 code points of the map in [range(0x0600, 0x06FF)],
    in increasing order, the second the next 28, and later ones are
    never drawn.  Without such a code point the template leaves the
    surface as it is; with one it makes a single page that sets every
    non-empty sample at all four sizes 48, 36, 24 and 18. *)
Theorem arabic_page_shows_the_first_56
    (font_path : pystr) (font_info : font_info) (cmap : gmap N pystr) (c : canvas) :
  let cps := arabic_codepoints cmap in
  let samples := arabic_samples (arabic_chars cmap) in
  samples = [take 28 cps; drop 28 (take 56 cps)] /\
  concat samples = take 56 cps /\
  (cps = [] -> exec (arabic_page measure date_str font_path font_info cmap) c = c) /\
  (cps <> [] ->
   exists prims,
     pages (exec (arabic_page measure date_str font_path font_info cmap) c)
     = Page (PAGE_WIDTH, PAGE_HEIGHT) prims :: pages c /\
     specimen_runs (rev prims)
     = concat (map (fun size : Z =>
                      map (fun s => (font_path, inject_Z size, s))
                          (List.filter nonempty samples))
                   [48; 36; 24; 18])).
Proof.
  intros cps samples.
  assert (Hsamples : samples = [take 28 cps; drop 28 (take 56 cps)]).
  { subst samples. unfold arabic_samples. rewrite arabic_chars_codepoints.
    fold cps. rewrite !join_nil, length_map.
    rewrite !firstn_map, !skipn_map, !concat_chr.
    destruct (Nat.ltb_spec 28 (length cps)) as [Hlt|Hge]; [done|].
    rewrite (take_ge cps 56) by lia. by rewrite drop_ge by lia. }
  split; [exact Hsamples|]. split.
  { rewrite Hsamples. cbn [concat]. rewrite app_nil_r.
    transitivity (take 28 (take 56 cps) ++ drop 28 (take 56 cps));
      [by rewrite take_take | apply take_drop]. }
  split.
  - intros Hnone. unfold arabic_page. cbv zeta.
    rewrite arabic_chars_codepoints. fold cps. by rewrite Hnone.
  - intros Hsome. unfold exec. rewrite arabic_page_unfold.
    2:{ rewrite arabic_chars_codepoints. fold cps. by destruct cps. }
    fold samples. rewrite Hsamples.
    set (first := Page (PAGE_WIDTH, PAGE_HEIGHT)
                    (chrome_prims measure date_str font_info (py "Arabic"))).
    destruct (arabic_loop_runs font_path (take 28 cps) (drop 28 (take 56 cps))
                [48; 36; 24; 18] (PAGE_HEIGHT - MARGIN - 50)%Z first (pages c)
                default_gstate [])
      as (new & E & Hruns).
    { repeat constructor; lia. }
    { apply Qle_bool_iff. by vm_compute. }
    unfold pystr in E |- *.
    eexists. split; [rewrite E; reflexivity|].
    cbn [pg_prims first].
    rewrite rev_app_distr. unfold specimen_runs in *. rewrite omap_app, Hruns.
    assert (Hchrome : omap run_of
              (rev (chrome_prims measure date_str font_info (py "Arabic"))) = [])
      by reflexivity.
    by rewrite Hchrome.
Qed.


(** ** The grid, page by page *)

Lemma grid_chunks_aux_fuel (fuel fuel' : nat) (l : list N) :
  (length l < 168 * S fuel)%nat -> (length l < 168 * S fuel')%nat ->
  grid_chunks_aux fuel l = grid_chunks_aux fuel' l.
Proof.
  revert fuel' l. induction fuel as [|fuel IH]; intros fuel' l H H'.
  - destruct fuel' as [|fuel']; cbn [grid_chunks_aux]; [done|].
    destruct (Nat.ltb_spec (length l) 168); [done | lia].
  - destruct fuel' as [|fuel']; cbn [grid_chunks_aux];
      destruct (Nat.ltb_spec (length l) 168); try done; try lia.
    f_equal. apply IH; rewrite length_drop; lia.
Qed.

Lemma grid_chunks_step (l : list N) :
  grid_chunks l
  = if (length l <? 168)%nat then [l]
    else take 168 l :: grid_chunks (drop 168 l).
Proof.
  unfold grid_chunks. destruct (length l) as [|n] eqn:Hn; [done|].
  cbn [grid_chunks_aux]. rewrite Hn.
  destruct (Nat.ltb_spec (S n) 168); [done|]. f_equal.
  apply grid_chunks_aux_fuel; rewrite length_drop; lia.
Qed.

(** The chunks are the list, cut after every 168th element. *)
Lemma grid_chunks_spec (l : list N) :
  concat (grid_chunks l) = l /\
  length (grid_chunks l) = S (length l / 168) /\
  (exists full rest, grid_chunks l = full ++ [rest] /\
     Forall (fun ch => length ch = 168%nat) full /\
     length rest = (length l mod 168)%nat).
Proof.
  remember (length l) as n eqn:Hn. revert l Hn.
  induction (lt_wf n) as [n _ IH]. intros l Hn.
  rewrite grid_chunks_step, <- Hn.
  destruct (Nat.ltb_spec n 168) as [Hlt|Hge].
  - rewrite Nat.div_small, Nat.mod_small by done.
    split; [cbn [concat]; apply app_nil_r|]. split; [done|].
    exists [], l. repeat split; done.
  - destruct (IH (n - 168)%nat ltac:(lia) (drop 168 l))
      as (Hcat & Hlen & full & rest & Hch & Hfull & Hrest).
    { rewrite length_drop. lia. }
    assert (Hdiv : (n / 168 = S ((n - 168) / 168))%nat).
    { replace n with ((n - 168) + 1 * 168)%nat at 1 by lia.
      rewrite Nat.div_add by lia. lia. }
    assert (Hmod : (n mod 168 = (n - 168) mod 168)%nat).
    { replace n with ((n - 168) + 1 * 168)%nat at 1 by lia.
      by rewrite Nat.Div0.mod_add. }
    split; [|split].
    + cbn [concat]. rewrite Hcat. apply take_drop.
    + cbn [length]. rewrite Hlen, Hdiv. done.
    + exists (take 168 l :: full), rest. split; [by rewrite Hch|].
      split; [|by rewrite Hrest, Hmod].
      constructor; [|done]. rewrite length_take. lia.
Qed.

(** A run of code points that fits the current page fills it from cell
    [j]; when it ends on the last cell, the next page is opened. *)
Lemma glyph_loop_fill fp info l1 :
  forall l2 j pn p ps g st,
  0 <= j < per_page ->
  j + Z.of_nat (length l1) <= per_page ->
  glyph_loop measure date_str fp info (l1 ++ l2) (grid_x j) (grid_y j) pn
    (Canvas (p :: ps) g st)
  = let here := Page (pg_size p) (cells_from measure fp g j l1 ++ pg_prims p) in
    if j + Z.of_nat (length l1) <? per_page then
      glyph_loop measure date_str fp info l2
        (grid_x (j + Z.of_nat (length l1))) (grid_y (j + Z.of_nat (length l1))) pn
        (Canvas (here :: ps) g st)
    else
      glyph_loop measure date_str fp info l2 (grid_x 0) (grid_y 0) (pn + 1)
        (Canvas (Page (PAGE_WIDTH, PAGE_HEIGHT)
                   (chrome_prims measure date_str info (glyph_page_title (pn + 1)))
                 :: here :: ps) default_gstate []).
Proof.
  induction l1 as [|cp t IH]; intros l2 j pn p ps g st Hj Hfit; cbv zeta.
  - cbn [length Z.of_nat app cells_from]. rewrite Z.add_0_r.
    destruct (Z.ltb_spec j per_page); [|lia]. by destruct p.
  - cbn [app]. rewrite glyph_loop_cons. cbv zeta.
    cbn [length cells_from] in *. rewrite Nat2Z.inj_succ in *.
    set (here := Page (pg_size p)
                   (cell_prims measure fp g cp (grid_x j) (grid_y j) ++ pg_prims p)).
    assert (Hpage : forall tl,
              Page (pg_size here) (tl ++ pg_prims here)
              = Page (pg_size p)
                  ((tl ++ cell_prims measure fp g cp (grid_x j) (grid_y j))
                   ++ pg_prims p)).
    { intros tl. subst here. cbn [pg_size pg_prims]. by rewrite <- app_assoc. }
    destruct (grid_x j + cell_size + cell_size >? PAGE_WIDTH - MARGIN) eqn:Hc;
      [destruct (grid_y j - cell_size - cell_size <? MARGIN) eqn:Hr|].
    + pose proof (grid_next_page measure date_str j Hj Hc Hr) as Hfull.
      assert (Ht : t = []) by (destruct t; [done | cbn [length] in Hfit; lia]).
      subst t. cbn [length Z.of_nat app cells_from] in *.
      match goal with
      | |- context [?a <? per_page] => destruct (Z.ltb_spec a per_page)
      end; [lia | reflexivity].
    + destruct (grid_next_row measure date_str j Hj Hc Hr) as (Hx & Hy & Hj').
      pose proof (IH l2 (j + 1) pn here ps g st Hj' ltac:(lia)) as IH'.
      rewrite Hx, Hy in IH'. rewrite IH'. cbv zeta.
      rewrite Hpage.
      replace (j + 1 + Z.of_nat (length t)) with (j + Z.succ (Z.of_nat (length t)))
        by lia.
      reflexivity.
    + destruct (grid_next_column measure date_str j Hj Hc) as (Hx & Hy & Hj').
      pose proof (IH l2 (j + 1) pn here ps g st Hj' ltac:(lia)) as IH'.
      rewrite Hx, Hy in IH'. rewrite IH'. cbv zeta.
      rewrite Hpage.
      replace (j + 1 + Z.of_nat (length t)) with (j + Z.succ (Z.of_nat (length t)))
        by lia.
      reflexivity.
Qed.


(** The grid loop on a fresh page: one page per chunk of 168. *)
Lemma glyph_loop_chunks fp info (l : list N) :
  forall pn p ps,
  exists c0 cs,
    grid_chunks l = c0 :: cs /\
    glyph_loop measure date_str fp info l (grid_x 0) (grid_y 0) pn
      (Canvas (p :: ps) default_gstate [])
    = (pn + Z.of_nat (length cs),
       Canvas (rev (later_pages measure date_str fp info pn cs)
               ++ Page (pg_size p)
                    (cells_from measure fp default_gstate 0 c0 ++ pg_prims p) :: ps)
              default_gstate []).
Proof.
  remember (length l) as n eqn:Hn. revert l Hn.
  induction (lt_wf n) as [n _ IH]. intros l Hn pn p ps.
  rewrite grid_chunks_step, <- Hn.
  destruct (Nat.ltb_spec n 168) as [Hlt|Hge].
  - exists l, []. split; [done|].
    rewrite <- (app_nil_r l) at 1.
    rewrite glyph_loop_fill; [|done|change per_page with 168; lia]. cbv zeta.
    destruct (Z.ltb_spec (0 + Z.of_nat (length l)) per_page) as [_|Hbad];
      [|change per_page with 168 in Hbad; lia].
    cbn [glyph_loop ret length Z.of_nat later_pages rev app]. by rewrite Z.add_0_r.
  - destruct (IH (n - 168)%nat ltac:(lia) (drop 168 l)
                ltac:(rewrite length_drop; lia) (pn + 1)
                (Page (PAGE_WIDTH, PAGE_HEIGHT)
                   (chrome_prims measure date_str info (glyph_page_title (pn + 1))))
                (Page (pg_size p)
                   (cells_from measure fp default_gstate 0 (take 168 l) ++ pg_prims p)
                 :: ps))
      as (c0 & cs & Hch & Hloop).
    exists (take 168 l), (c0 :: cs). split; [by rewrite Hch|].
    rewrite <- (take_drop 168 l) at 1.
    assert (Hlen : length (take 168 l) = 168%nat) by (rewrite length_take; lia).
    rewrite glyph_loop_fill; [|done|rewrite Hlen; change per_page with 168; lia].
    cbv zeta. rewrite Hlen.
    destruct (Z.ltb_spec (0 + Z.of_nat 168) per_page) as [Hbad|_];
      [change per_page with 168 in Hbad; lia|].
    rewrite Hloop. cbn [later_pages rev length pg_size pg_prims].
    rewrite <- app_assoc. cbn [app]. f_equal. lia.
Qed.

(** The Character Set template as a function of the chunks of the
    sorted code points. *)
Lemma glyph_set_page_layout fp info cmap start c :
  exists c0 cs,
    grid_chunks (sorted_keys cmap) = c0 :: cs /\
    glyph_set_page measure date_str fp info cmap start c
    = (start + Z.of_nat (length cs),
       Canvas (rev (later_pages measure date_str fp info start cs)
               ++ Page (PAGE_WIDTH, PAGE_HEIGHT)
                    (cells_from measure fp default_gstate 0 c0
                     ++ chrome_prims measure date_str info (py "Character Set"))
                  :: pages c)
              default_gstate []).
Proof.
  rewrite glyph_set_page_unfold.
  destruct (glyph_loop_chunks fp info (sorted_keys cmap) start
              (Page (PAGE_WIDTH, PAGE_HEIGHT)
                 (chrome_prims measure date_str info (py "Character Set")))
              (pages c)) as (c0 & cs & Hch & Hloop).
  exists c0, cs. split; [done|]. exact Hloop.
Qed.


Lemma glyph_set_page_grid_pages fp info cmap start c :
  let r := glyph_set_page measure date_str fp info cmap start c in
  let added := grid_pages measure date_str fp info start (grid_chunks (sorted_keys cmap)) in
  pages r.2 = rev added ++ pages c /\
  r.1 = start + Z.of_nat (length added) - 1.
Proof.
  cbv zeta.
  destruct (glyph_set_page_layout fp info cmap start c) as (c0 & cs & Hch & ->).
  rewrite Hch. cbn [fst snd pages grid_pages rev length].
  rewrite <- app_assoc. split; [reflexivity|].
  assert (length (later_pages measure date_str fp info start cs) = length cs) as ->.
  { clear Hch. generalize start.
    induction cs as [|ch cs IH]; intros pn; cbn [later_pages length];
      [done|by rewrite IH]. }
  lia.
Qed.

Lemma later_pages_lookup fp info cs :
  forall pn k,
  later_pages measure date_str fp info pn cs !! k
  = grid_page measure date_str fp info (glyph_page_title (pn + 1 + Z.of_nat k))
      <$> cs !! k.
Proof.
  induction cs as [|ch cs IH]; intros pn k; [by destruct k|].
  destruct k as [|k]; cbn [later_pages].
  - cbn. unfold grid_page. by rewrite Z.add_0_r.
  - change ((?a :: ?l) !! S k) with (l !! k). rewrite IH.
    by replace (pn + 1 + 1 + Z.of_nat k) with (pn + 1 + Z.of_nat (S k)) by lia.
Qed.

Lemma grid_pages_lookup fp info start chunks k :
  grid_pages measure date_str fp info start chunks !! k
  = grid_page measure date_str fp info (grid_title start k) <$> chunks !! k.
Proof.
  destruct chunks as [|c0 cs]; [by destruct k|].
  destruct k as [|k]; [reflexivity|].
  cbn [grid_pages]. change ((?a :: ?l) !! S k) with (l !! k).
  rewrite later_pages_lookup. cbn [grid_title].
  by replace (start + 1 + Z.of_nat k) with (start + Z.of_nat (S k)) by lia.
Qed.

Lemma grid_pages_Forall2 fp info start chunks :
  Forall2 (fun pg ch => exists t, pg = grid_page measure date_str fp info t ch)
    (grid_pages measure date_str fp info start chunks) chunks.
Proof.
  apply Forall2_same_length_lookup_2.
  - apply Nat.le_antisymm; apply Nat.le_ngt; intros Hlt.
    + apply lookup_lt_is_Some in Hlt as [pg Hpg].
      pose proof (grid_pages_lookup fp info start chunks (length chunks)) as E.
      rewrite Hpg, (lookup_ge_None_2 chunks) in E by lia. discriminate E.
    + apply lookup_lt_is_Some in Hlt as [ch Hch].
      pose proof (grid_pages_lookup fp info start chunks
                    (length (grid_pages measure date_str fp info start chunks))) as E.
      rewrite Hch, lookup_ge_None_2 in E by lia. discriminate E.
  - intros k pg ch Hpg Hch. rewrite grid_pages_lookup, Hch in Hpg.
    injection Hpg as <-. by eexists.
Qed.

Lemma glyphs_app fp l1 l2 : glyphs fp (l1 ++ l2) = glyphs fp l1 ++ glyphs fp l2.
Proof. apply omap_app. Qed.

Lemma labels_app l1 l2 : labels (l1 ++ l2) = labels l1 ++ labels l2.
Proof. apply omap_app. Qed.

Lemma cells_app l1 l2 : cells (l1 ++ l2) = cells l1 ++ cells l2.
Proof. apply omap_app. Qed.

Ltac sift :=
  cbn [omap list_omap glyph_of label_of cell_of gs_font gs_fontSize];
  repeat case_decide;
  repeat match goal with
         | H : _ /\ _ |- _ => destruct H
         | H : ~ (_ /\ _) |- _ => exfalso; apply H; split; reflexivity
         | H : _ = glyph_size |- _ => vm_compute in H; discriminate H
         | H : _ = _ |- _ => discriminate H
         end;
  repeat split.

(** One cell in the order drawn: the border, the glyph, the label. *)
Lemma cell_prims_drawn fp g cp x y :
  glyphs fp (rev (cell_prims measure fp g cp x y)) = [chr cp] /\
  labels (rev (cell_prims measure fp g cp x y)) = [format_04X cp] /\
  cells (rev (cell_prims measure fp g cp x y)) = [(inject_Z x, inject_Z (y - cell_size))].
Proof. unfold glyphs, labels, cells, cell_prims. cbn [rev app]. sift. Qed.

(** Header and footer hold nothing that looks like a cell. *)
Lemma chrome_prims_drawn fp info t :
  glyphs fp (rev (chrome_prims measure date_str info t)) = [] /\
  labels (rev (chrome_prims measure date_str info t)) = [] /\
  cells (rev (chrome_prims measure date_str info t)) = [].
Proof.
  unfold glyphs, labels, cells, chrome_prims, footer_prim, header_title_prim,
    header_name_prim.
  cbn [rev app]. sift.
Qed.

(** The cells of a run of the grid, in the order drawn. *)
Lemma cells_from_drawn fp g l :
  forall j,
  glyphs fp (rev (cells_from measure fp g j l)) = map chr l /\
  labels (rev (cells_from measure fp g j l)) = map format_04X l /\
  cells (rev (cells_from measure fp g j l))
  = map cell_corner (seqZ j (Z.of_nat (length l))).
Proof.
  induction l as [|cp l IH]; intros j; [done|].
  destruct (IH (j + 1)) as (Hg & Hl & Hc).
  cbn [cells_from]. rewrite rev_app_distr, glyphs_app, labels_app, cells_app, Hg, Hl, Hc.
  rewrite (seqZ_cons j) by (cbn [length]; lia).
  replace (Z.pred (Z.of_nat (length (cp :: l)))) with (Z.of_nat (length l))
    by (cbn [length]; lia).
  change (Z.succ j) with (j + 1).
  destruct (cell_prims_drawn fp g cp (grid_x j) (grid_y j)) as (-> & -> & ->).
  repeat split.
Qed.

(** What a page of the grid shows, in the order drawn. *)
Lemma grid_page_drawn fp info t ch :
  let prims := rev (pg_prims (grid_page measure date_str fp info t ch)) in
  take 3 prims = rev (chrome_prims measure date_str info t) /\
  glyphs fp prims = map chr ch /\
  labels prims = map format_04X ch /\
  cells prims = map cell_corner (seqZ 0 (Z.of_nat (length ch))).
Proof.
  cbv zeta. unfold grid_page. cbn [pg_prims]. rewrite rev_app_distr.
  destruct (cells_from_drawn fp default_gstate ch 0) as (Hg & Hl & Hc).
  split; [reflexivity|].
  destruct (chrome_prims_drawn fp info t) as (Eg & El & Ec).
  rewrite glyphs_app, labels_app, cells_app, Hg, Hl, Hc, Eg, El, Ec.
  repeat split.
Qed.


(** A cell of the grid lies inside the margins and below the header. *)
Lemma cell_corner_inside (j : Z) :
  0 <= j < per_page -> inside_margins (cell_corner j).
Proof.
  intros Hj. unfold inside_margins, cell_corner. cbn [fst snd].
  rewrite <- !inject_Z_plus, <- !Zle_Qle.
  unfold grid_x, grid_y, x_start, y_start. change cell_size with 45.
  unfold per_page, rows, cols, MARGIN, PAGE_WIDTH, PAGE_HEIGHT in *.
  repeat split; Z.div_mod_to_equations; lia.
Qed.

Lemma grid_chunks_short (l ch : list N) :
  ch ∈ grid_chunks l -> (length ch <= 168)%nat.
Proof.
  destruct (grid_chunks_spec l) as (_ & _ & full & rest & -> & Hfull & Hrest).
  intros [Hin | ->%list_elem_of_singleton]%elem_of_app.
  - rewrite Forall_forall in Hfull. by rewrite (Hfull _ Hin).
  - rewrite Hrest. pose proof (Nat.mod_upper_bound (length l) 168). lia.
Qed.

(** X12 ([glyph_set_page]): the grid is laid out page after page.  Cut
    into runs of 168, every run full but the last, which holds the
    remainder and may be empty, the sorted code points of the map go one
    run to a page: each added page shows the glyphs and the labels of
    its run, in order, and nothing else that is set like a glyph or a
    label. *)
Theorem glyph_set_page_page_by_page fp info cmap start c :
  let r := glyph_set_page measure date_str fp info cmap start c in
  exists chunks added,
    pages r.2 = rev added ++ pages c /\
    concat chunks = sorted_keys cmap /\
    (exists full rest,
       chunks = full ++ [rest] /\
       Forall (fun ch => length ch = 168%nat) full /\
       length rest = (size cmap mod 168)%nat) /\
    Forall2 (fun pg ch =>
               glyphs fp (rev (pg_prims pg)) = map chr ch /\
               labels (rev (pg_prims pg)) = map format_04X ch)
            added chunks.
Proof.
  cbv zeta.
  destruct (glyph_set_page_grid_pages fp info cmap start c) as [Hpages _].
  destruct (grid_chunks_spec (sorted_keys cmap)) as (Hcat & _ & Hshape).
  rewrite sorted_keys_length in Hshape.
  eexists _, _. split; [exact Hpages|]. split; [exact Hcat|]. split; [exact Hshape|].
  eapply Forall2_impl; [apply grid_pages_Forall2|].
  intros pg ch [t ->].
  destruct (grid_page_drawn fp info t ch) as (_ & Hg & Hl & _). by split.
Qed.

(** X13 ([glyph_set_page]): the titles of the grid and the number
    returned.  Header and footer are the first three things drawn on
    every added page; the first page is headed "Character Set" and the
    [k]-th after it "Character Set (page start_page + k)"; the function
    returns the number of its last page, the starting number plus the
    pages added less one. *)
Theorem glyph_set_page_titles_and_number fp info cmap start c :
  let r := glyph_set_page measure date_str fp info cmap start c in
  exists added,
    pages r.2 = rev added ++ pages c /\
    r.1 = start + Z.of_nat (length added) - 1 /\
    forall k pg,
      added !! k = Some pg ->
      take 3 (rev (pg_prims pg))
      = rev (chrome_prims measure date_str info (grid_title start k)).
Proof.
  cbv zeta.
  destruct (glyph_set_page_grid_pages fp info cmap start c) as [Hpages Hret].
  eexists. split; [exact Hpages|]. split; [exact Hret|].
  intros k pg Hpg. rewrite grid_pages_lookup in Hpg.
  destruct (grid_chunks (sorted_keys cmap) !! k) as [ch|]; [|discriminate Hpg].
  injection Hpg as <-.
  by destruct (grid_page_drawn fp info (grid_title start k) ch) as (Ht & _).
Qed.

(** X14 ([glyph_set_page]): where the cells go.  Every added page has at
    most 168 cell borders; they are drawn row by row from the top left,
    twelve to a row, the [j]-th at [cell_corner j]; and each lies inside
    the left, right and bottom margins and below the header band. *)
Theorem glyph_set_page_cells_inside_margins fp info cmap start c :
  let r := glyph_set_page measure date_str fp info cmap start c in
  exists added,
    pages r.2 = rev added ++ pages c /\
    Forall (fun pg =>
              exists n : nat,
                (n <= 168)%nat /\
                cells (rev (pg_prims pg)) = map cell_corner (seqZ 0 (Z.of_nat n)) /\
                Forall inside_margins (cells (rev (pg_prims pg))))
           added.
Proof.
  cbv zeta.
  destruct (glyph_set_page_grid_pages fp info cmap start c) as [Hpages _].
  eexists. split; [exact Hpages|].
  pose proof (grid_pages_Forall2 fp info start (grid_chunks (sorted_keys cmap))) as H2.
  apply Forall_forall. intros pg Hpg.
  apply list_elem_of_lookup in Hpg as [k Hk].
  destruct (Forall2_lookup_l _ _ _ _ _ H2 Hk) as (ch & Hch & t & ->).
  apply list_elem_of_lookup_2 in Hch. apply grid_chunks_short in Hch.
  destruct (grid_page_drawn fp info t ch) as (_ & _ & _ & Hc).
  exists (length ch). split; [exact Hch|]. split; [exact Hc|].
  rewrite Hc. apply Forall_forall. intros corner Hin.
  apply list_elem_of_fmap in Hin as (j & -> & Hj%elem_of_seqZ).
  apply cell_corner_inside. change per_page with 168. lia.
Qed.



(** ** The outline of the document *)

Create HintDb quiet_body.
#[local] Hint Resolve Quiet_ret Quiet_set_gs Quiet_save Quiet_restore
  Quiet_add_prim Quiet_textSize Quiet_fit_or_truncate Quiet_draw_header
  Quiet_draw_footer Quiet_fit_or_split Quiet_alphabet_loop Quiet_numerals_loop
  Quiet_punctuation_loop Quiet_waterfall_loop Quiet_paragraph_loop
  Quiet_kerning_loop Quiet_arabic_loop : quiet_body.
#[local] Hint Unfold db.font db.fill db.stroke db.strokeWidth db.text
  db.textBox db.rect : quiet_body.

Ltac quiet_body :=
  repeat first
    [ progress cbv zeta
    | solve [autounfold with quiet_body; auto with quiet_body]
    | match goal with
      | |- Quiet (if ?b then _ else _) => destruct b
      | |- Quiet (match ?l with [] => _ | _ :: _ => _ end) => destruct l
      end
    | apply Quiet_bind; [|intros ?] ].

Lemma Titles_template {A} info t (body : Draw A) :
  Quiet body ->
  Titles measure date_str info [t]
    (db.newPage PAGE_WIDTH PAGE_HEIGHT ;;
     draw_header measure info t ;;
     draw_footer date_str ;;
     body).
Proof.
  intros Hq c. destruct (template_page measure date_str info t body c Hq) as [new E].
  eexists [_]. split; [exact E|].
  constructor; [|constructor].
  unfold headed. cbn [pg_prims]. rewrite rev_app_distr. reflexivity.
Qed.

Lemma Titles_bind {A B} info ts1 ts2 (m : Draw A) (k : A -> Draw B) :
  Titles measure date_str info ts1 m ->
  (forall a, Titles measure date_str info ts2 (k a)) ->
  Titles measure date_str info (ts1 ++ ts2) (bind m k).
Proof.
  intros Hm Hk c. rewrite exec_bind.
  destruct (Hm c) as (a1 & E1 & F1).
  destruct (Hk (eval m c) (exec m c)) as (a2 & E2 & F2).
  exists (a1 ++ a2). split.
  - by rewrite E2, E1, rev_app_distr, app_assoc.
  - by apply Forall2_app.
Qed.

Lemma Titles_alphabet_page fp info :
  Titles measure date_str info [py "Alphabet"] (alphabet_page measure date_str fp info).
Proof. apply Titles_template. quiet_body. Qed.

Lemma Titles_numerals_page fp info :
  Titles measure date_str info [py "Numerals & Punctuation"]
    (numerals_page measure date_str fp info).
Proof. apply Titles_template. quiet_body. Qed.

Lemma Titles_waterfall_page fp info :
  Titles measure date_str info [py "Size Waterfall"]
    (waterfall_page measure date_str fp info).
Proof. apply Titles_template. quiet_body. Qed.

Lemma Titles_spacing_page fp info :
  Titles measure date_str info [py "Spacing Proof"]
    (spacing_page measure date_str fp info).
Proof.
  apply Titles_template. cbv zeta.
  apply Quiet_bind; [quiet_body|]. intros _.
  apply Quiet_bind; [quiet_body|]. intros _.
  apply Quiet_spacing_loop.
  change (length (chars lowercase)) with 26%nat.
  change (inject_Z (Z.of_nat 26)) with 26%Q.
  change (inject_Z (PAGE_HEIGHT - MARGIN - 40)) with 716%Q.
  change (inject_Z 14) with 14%Q. lra.
Qed.

Lemma Titles_paragraph_page fp info :
  Titles measure date_str info [py "Paragraph Setting"]
    (paragraph_page measure date_str fp info).
Proof. apply Titles_template. quiet_body. Qed.

Lemma Titles_kerning_page fp info :
  Titles measure date_str info [py "Kerning Pairs"]
    (kerning_page measure date_str fp info).
Proof. apply Titles_template. quiet_body. Qed.

Lemma Titles_glyph_set_page fp info cmap start :
  Titles measure date_str info (grid_titles start (grid_page_count cmap))
    (glyph_set_page measure date_str fp info cmap start).
Proof.
  intros c.
  destruct (glyph_set_page_grid_pages fp info cmap start c) as [Hpages _].
  eexists. split; [exact Hpages|].
  pose proof (grid_pages_Forall2 fp info start (grid_chunks (sorted_keys cmap))) as H2.
  apply Forall2_same_length_lookup_2.
  - apply Forall2_length in H2. rewrite H2. unfold grid_titles.
    rewrite length_map, length_seq.
    destruct (grid_chunks_spec (sorted_keys cmap)) as (_ & -> & _).
    by rewrite sorted_keys_length.
  - intros k pg t Hpg Ht. rewrite grid_pages_lookup in Hpg.
    destruct (grid_chunks (sorted_keys cmap) !! k) as [ch|]; [|discriminate Hpg].
    injection Hpg as <-.
    unfold grid_titles in Ht. rewrite list_lookup_fmap in Ht.
    destruct (seq 0 (grid_page_count cmap) !! k) as [k'|] eqn:Hk; [|discriminate Ht].
    apply lookup_seq in Hk as [-> _]. injection Ht as <-.
    by destruct (grid_page_drawn fp info (grid_title start (0 + k)) ch) as (Ht & _).
Qed.

Lemma Titles_arabic_page fp info cmap :
  Titles measure date_str info
    match arabic_chars cmap with [] => [] | _ :: _ => [py "Arabic"] end
    (arabic_page measure date_str fp info cmap).
Proof.
  unfold arabic_page. cbv zeta.
  destruct (arabic_chars cmap) as [|a l].
  - intros c. exists []. split; [reflexivity|constructor].
  - apply Titles_template. quiet_body.
Qed.

Lemma Titles_pageCount info : Titles measure date_str info [] db.pageCount.
Proof. intros c. exists []. split; [reflexivity|constructor]. Qed.

Lemma grid_titles_from_1 (n : nat) :
  grid_titles 1 (S n) = py "Character Set" :: map continuation_title (seq 2 n).
Proof.
  unfold grid_titles. cbn [seq map grid_title]. f_equal.
  rewrite <- (seq_shift n 1), map_map. apply map_ext_in.
  intros k Hk%in_seq. destruct k as [|k]; [lia|].
  unfold grid_title, glyph_page_title, continuation_title, str_of_Z.
  destruct (Z.ltb_spec (1 + Z.of_nat (S k)) 0) as [Hneg|_]; [lia|].
  do 3 f_equal. lia.
Qed.

(** The pages the templates add after the title page. *)
Lemma proof_pages_titles stamp_str fp info cmap c0 :
  let r := proof_pages measure date_str stamp_str fp info cmap c0 in
  exists title rest,
    document r.2 = title :: rest /\
    carries_no_chrome measure date_str info title = true /\
    Forall2 (headed measure date_str info) (outline cmap) rest.
Proof.
  intros r. subst r. unfold proof_pages.
  set (tail := (alphabet_page measure date_str fp info ;; _)).
  change ((db.newDrawing ;; title_page stamp_str fp info ;; tail) c0)
    with (tail (exec (title_page stamp_str fp info) (Canvas [] default_gstate []))).
  destruct (title_page_no_chrome measure date_str stamp_str fp info
              (Canvas [] default_gstate [])) as (title & Et & Hno).
  assert (Htail : Titles measure date_str info (outline cmap) tail).
  { subst tail. unfold outline.
    change [py "Alphabet"; py "Numerals & Punctuation"; py "Size Waterfall";
            py "Spacing Proof"; py "Paragraph Setting"; py "Kerning Pairs"]
      with ([py "Alphabet"] ++ [py "Numerals & Punctuation"] ++ [py "Size Waterfall"]
            ++ [py "Spacing Proof"] ++ [py "Paragraph Setting"] ++ [py "Kerning Pairs"]).
    rewrite <- !app_assoc.
    apply Titles_bind; [apply Titles_alphabet_page|intros _].
    apply Titles_bind; [apply Titles_numerals_page|intros _].
    apply Titles_bind; [apply Titles_waterfall_page|intros _].
    apply Titles_bind; [apply Titles_spacing_page|intros _].
    apply Titles_bind; [apply Titles_paragraph_page|intros _].
    apply Titles_bind; [apply Titles_kerning_page|intros _].
    rewrite <- (grid_titles_from_1 (size cmap / 168)).
    apply Titles_bind; [apply Titles_glyph_set_page|intros _].
    rewrite <- (app_nil_r (match arabic_chars cmap with [] => [] | _ :: _ => _ end)).
    apply Titles_bind; [apply Titles_arabic_page|intros _].
    apply Titles_pageCount. }
  destruct (Htail (exec (title_page stamp_str fp info) (Canvas [] default_gstate [])))
    as (added & E & F).
  rewrite Et in E. cbn [pages app] in E. unfold exec in E.
  exists (rev title), (map (fun p => rev (pg_prims p)) added).
  split; [|split].
  - unfold document, exec. rewrite E, map_app, rev_app_distr, map_rev, rev_involutive.
    reflexivity.
  - by rewrite carries_no_chrome_rev.
  - apply Forall2_flip, Forall2_fmap_l. exact F.
Qed.

(** C9.  In the document that the nine templates build, the first page
    (the title page) carries no header name, no header title and no
    footer.  Every other page, the continuation pages of the grid
    included, opens with the header, which shows family and style at
    the left and at the right the title of the page, and with the
    footer, which shows the date.  The titles are, in the order of the
    pages, Alphabet, Numerals & Punctuation, Size Waterfall, Spacing
    Proof, Paragraph Setting, Kerning Pairs, Character Set, then
    "Character Set (page n)" for n = 2, 3, ... on the continuation
    pages, and Arabic when that page is made. *)
Theorem header_and_footer_on_every_page_but_the_title
    (stamp_str font_path : pystr) (font_info : font_info) (cmap : gmap N pystr)
    (c0 : canvas) :
  let c := exec (proof_pages measure date_str stamp_str font_path font_info cmap) c0 in
  exists title rest,
    document c = title :: rest /\
    carries_no_chrome measure date_str font_info title = true /\
    Forall2 (headed measure date_str font_info) (outline cmap) rest.
Proof.
  intros c. subst c. unfold exec.
  exact (proof_pages_titles stamp_str font_path font_info cmap c0).
Qed.


(** ** The Alphabet template *)

(** One string through [fit_or_split], in black in the font under
    test. *)
Lemma fit_or_split_runs fp txt (size : Z) y p ps s w st :
  let g := GState fp size (Some 0%Q) s w in
  exists new y',
    fit_or_split measure txt size y (Canvas (p :: ps) g st)
    = (y', Canvas (Page (pg_size p) (new ++ pg_prims p) :: ps) g st) /\
    specimen_runs (rev new) = split_runs measure fp txt size /\
    (y' = y \/ y' = (y - size * 1.3)%Q) /\
    (Qgtb (measure fp size txt) (PAGE_WIDTH - 2 * MARGIN)%Z = false -> y' = y).
Proof.
  cbv zeta. unfold split_runs.
  lazy beta iota zeta delta
    [bind fit_or_split textSize db.text set_gs modify add_prim
     ret fst snd gs pages stack gs_font gs_fontSize gs_stroke gs_strokeWidth
     gs_fill pg_size pg_prims].
  destruct (Qgtb (measure fp size txt) (PAGE_WIDTH - 2 * MARGIN)%Z); lazy beta iota.
  - eexists [_; _], _. split; [reflexivity|]. split; [|split; [by right|done]].
    unfold specimen_runs. cbn [rev app omap list_omap].
    by rewrite !specimen_runs_black.
  - eexists [_], _. split; [reflexivity|]. split; [|split; [by left|done]].
    unfold specimen_runs. cbn [rev app omap list_omap].
    by rewrite !specimen_runs_black.
Qed.

(** One round of the alphabet loop on a surface with a page open. *)
Lemma alphabet_loop_cons fp size rest y p ps g st :
  alphabet_loop measure fp (size :: rest) y (Canvas (p :: ps) g st) =
  let g1 := GState fp size (Some 0%Q) (gs_stroke g) (gs_strokeWidth g) in
  let r1 := fit_or_split measure uppercase size y (Canvas (p :: ps) g1 st) in
  let r2 := fit_or_split measure lowercase size (r1.1 - size * 1.3)%Q r1.2 in
  let y2 := (r2.1 - size * 1.8)%Q in
  if Qltb y2 (MARGIN + 50)%Z then (tt, r2.2)
  else alphabet_loop measure fp rest y2 r2.2.
Proof.
  cbv zeta. cbn [alphabet_loop].
  unfold bind at 1 2 3 4.
  lazy beta iota zeta delta
    [db.font db.fill set_gs modify ret fst snd gs pages stack
     gs_stroke gs_strokeWidth gs_font gs_fontSize gs_fill].
  destruct (fit_or_split measure uppercase size y _) as [y1 c1]. cbn [fst snd].
  destruct (fit_or_split measure lowercase size _ c1) as [y2 c2]. cbn [fst snd].
  by destruct (Qltb _ _).
Qed.

Lemma sum_nonneg (sizes : list Z) :
  Forall (fun size => 0 <= size) sizes -> (0 <= inject_Z (foldr Z.add 0%Z sizes))%Q.
Proof.
  intros H. change 0%Q with (inject_Z 0). rewrite <- Zle_Qle.
  induction H; cbn; lia.
Qed.

(** The alphabet loop sets its sizes in turn, both alphabets at each,
    until the sizes run out or the pen drops below the bottom band. *)
Lemma alphabet_loop_runs fp sizes :
  forall y p ps g st,
  Forall (fun size => 0 <= size) sizes ->
  exists k new,
    (k <= length sizes)%nat /\
    pages (alphabet_loop measure fp sizes y (Canvas (p :: ps) g st)).2
    = Page (pg_size p) (new ++ pg_prims p) :: ps /\
    specimen_runs (rev new) = concat (map (alphabet_runs measure fp) (take k sizes)) /\
    (forall n,
       (86 + 5.7 * inject_Z (foldr Z.add 0%Z (take n sizes)) <= y)%Q ->
       (Nat.min (S n) (length sizes) <= k)%nat) /\
    (Forall (fun size : Z =>
               Qgtb (measure fp size uppercase) (PAGE_WIDTH - 2 * MARGIN)%Z = false /\
               Qgtb (measure fp size lowercase) (PAGE_WIDTH - 2 * MARGIN)%Z = false)
            sizes ->
     (86 + 3.1 * inject_Z (foldr Z.add 0%Z sizes) <= y)%Q ->
     k = length sizes).
Proof.
  induction sizes as [|size rest IH]; intros y p ps g st Hpos.
  - exists 0%nat, []. destruct p. repeat split; try done; intros n _; cbn; lia.
  - apply Forall_cons in Hpos as [Hsize Hpos].
    assert (Hs : (0 <= inject_Z size)%Q)
      by (change 0%Q with (inject_Z 0); by rewrite <- Zle_Qle).
    pose proof (sum_nonneg rest Hpos) as Hsum.
    rewrite alphabet_loop_cons. cbv zeta.
    destruct (fit_or_split_runs fp uppercase size y p ps (gs_stroke g)
                (gs_strokeWidth g) st) as (new1 & y1 & E1 & R1 & B1 & F1).
    rewrite E1. cbn [fst snd].
    set (g1 := GState fp size (Some 0%Q) (gs_stroke g) (gs_strokeWidth g)) in *.
    destruct (fit_or_split_runs fp lowercase size (y1 - size * 1.3)%Q
                (Page (pg_size p) (new1 ++ pg_prims p)) ps (gs_stroke g)
                (gs_strokeWidth g) st) as (new2 & y2 & E2 & R2 & B2 & F2).
    fold g1 in E2. rewrite E2. cbn [fst snd pg_size pg_prims].
    change (inject_Z (MARGIN + 50)) with 86%Q.
    assert (Hlow : (y - size * 5.7 <= y2 - size * 1.8)%Q).
    { destruct B1 as [-> | ->], B2 as [-> | ->]; lra. }
    destruct (Qltb (y2 - size * 1.8) 86) eqn:Hbreak.
    + apply Qltb_spec in Hbreak.
      exists 1%nat, (new2 ++ new1). split; [cbn; lia|]. split; [|split; [|split]].
      * cbn [snd pages]. by rewrite <- app_assoc.
      * rewrite rev_app_distr. unfold specimen_runs in *. rewrite omap_app, R1, R2.
        cbn [take map concat]. rewrite take_0. cbn [map concat]. by rewrite app_nil_r.
      * intros [|n] Hy; [cbn; lia|]. exfalso.
        cbn [take foldr] in Hy. rewrite inject_Z_plus in Hy.
        assert (0 <= inject_Z (foldr Z.add 0%Z (take n rest)))%Q
          by (by apply sum_nonneg, Forall_take).
        lra.
      * intros [[Hu Hl] _]%Forall_cons Hy. exfalso.
        cbn [foldr] in Hy. rewrite inject_Z_plus in Hy.
        rewrite (F1 Hu) in B2, F2. rewrite (F2 Hl) in Hbreak. lra.
    + destruct (IH (y2 - size * 1.8)%Q
                  (Page (pg_size p) (new2 ++ new1 ++ pg_prims p)) ps g1 st Hpos)
        as (k & new & Hk & E & R & Hmin & Hall).
      exists (S k), (new ++ new2 ++ new1). split; [cbn; lia|]. split; [|split; [|split]].
      * rewrite E. cbn [pg_size pg_prims]. by rewrite <- !app_assoc.
      * rewrite !rev_app_distr. unfold specimen_runs in *.
        rewrite !omap_app, R1, R2, R. cbn [take map concat].
        unfold alphabet_runs at 2. by rewrite <- !app_assoc.
      * intros [|n] Hy; [cbn; lia|].
        cbn [take foldr] in Hy. rewrite inject_Z_plus in Hy.
        assert (Hn : (Nat.min (S n) (length rest) <= k)%nat) by (apply Hmin; lra).
        cbn [length]. lia.
      * intros [[Hu Hl] Hrest]%Forall_cons Hy.
        cbn [foldr] in Hy. rewrite inject_Z_plus in Hy.
        cbn [length]. f_equal. apply Hall; [exact Hrest|].
        rewrite (F1 Hu) in F2. rewrite (F2 Hl). lra.
Qed.

(** The Alphabet template: one page, its specimen lines those of the
    first [k] sizes. *)
Lemma alphabet_page_runs fp info c :
  exists k prims,
    pages (exec (alphabet_page measure date_str fp info) c)
    = Page (PAGE_WIDTH, PAGE_HEIGHT) prims :: pages c /\
    specimen_runs (rev prims)
    = concat (map (alphabet_runs measure fp) (take k alphabet_sizes)) /\
    (4 <= k <= 7)%nat /\
    (Forall (fun size : Z =>
               Qgtb (measure fp size uppercase) (PAGE_WIDTH - 2 * MARGIN)%Z = false /\
               Qgtb (measure fp size lowercase) (PAGE_WIDTH - 2 * MARGIN)%Z = false)
            alphabet_sizes ->
     k = 7%nat).
Proof.
  destruct c as [pgs g0 st0]. unfold exec, alphabet_page.
  lazy beta iota zeta delta
    [bind draw_header draw_footer textSize default_gstate
     db.newPage db.save db.restore db.font db.fill db.text set_gs modify add_prim
     ret fst snd gs pages stack gs_font gs_fontSize gs_stroke gs_strokeWidth
     gs_fill pg_size pg_prims firstn skipn].
  match goal with
  | |- context [alphabet_loop measure fp ?sizes ?y (Canvas (?p :: ?ps) ?g ?st)] =>
      destruct (alphabet_loop_runs fp sizes y p ps g st)
        as (k & new & Hk & E & Hruns & Hmin & Hall)
  end.
  { repeat constructor; lia. }
  exists k. eexists. split; [exact E|].
  cbn [pg_prims]. split; [|split; [split|]].
  - rewrite rev_app_distr. unfold specimen_runs in *. rewrite omap_app, Hruns.
    reflexivity.
  - apply (Hmin 3%nat). apply Qle_bool_iff. by vm_compute.
  - exact Hk.
  - intros Hfit. apply Hall; [exact Hfit|]. apply Qle_bool_iff. by vm_compute.
Qed.

(** X15 ([alphabet_page]): the Alphabet template makes one page and sets
    its sizes in the order 48, 36, 24, 18, 14, 11, 9, the capitals and
    then the small letters at each, every string whole or as its two
    halves.  The loop may stop early for want of room, but whatever the
    strings measure it gets through the first four sizes. *)
Theorem alphabet_page_sets_at_least_four_sizes fp info c :
  exists k prims,
    (4 <= k <= 7)%nat /\
    pages (exec (alphabet_page measure date_str fp info) c)
    = Page (PAGE_WIDTH, PAGE_HEIGHT) prims :: pages c /\
    specimen_runs (rev prims)
    = concat (map (alphabet_runs measure fp) (take k alphabet_sizes)).
Proof.
  destruct (alphabet_page_runs fp info c) as (k & prims & E & R & Hk & _).
  by exists k, prims.
Qed.

(** X16 ([alphabet_page]): when neither alphabet measures wider than
    the usable width at any of the seven sizes, the page shows all
    seven, each as one line of capitals and one of small letters; the
    early exit of the loop is not taken. *)
Theorem alphabet_page_sets_every_size fp info c :
  Forall (fun size : Z =>
            (measure fp size uppercase <= (PAGE_WIDTH - 2 * MARGIN)%Z)%Q /\
            (measure fp size lowercase <= (PAGE_WIDTH - 2 * MARGIN)%Z)%Q)
         alphabet_sizes ->
  exists prims,
    pages (exec (alphabet_page measure date_str fp info) c)
    = Page (PAGE_WIDTH, PAGE_HEIGHT) prims :: pages c /\
    specimen_runs (rev prims)
    = concat (map (fun size : Z => [ (fp, inject_Z size, uppercase);
                                     (fp, inject_Z size, lowercase) ])
                  alphabet_sizes).
Proof.
  intros Hfit.
  assert (Hfit' : Forall (fun size : Z =>
            Qgtb (measure fp size uppercase) (PAGE_WIDTH - 2 * MARGIN)%Z = false /\
            Qgtb (measure fp size lowercase) (PAGE_WIDTH - 2 * MARGIN)%Z = false)
          alphabet_sizes).
  { eapply Forall_impl; [exact Hfit|]. intros size [Hu Hl].
    split; by apply Qltb_false. }
  destruct (alphabet_page_runs fp info c) as (k & prims & E & R & _ & Hall).
  rewrite (Hall Hfit') in R. exists prims. split; [exact E|].
  rewrite R. change (take 7 alphabet_sizes) with alphabet_sizes.
  f_equal. apply Forall_fmap_ext_1.
  eapply Forall_impl; [exact Hfit'|]. intros size [Hu Hl].
  unfold alphabet_runs, split_runs. by rewrite Hu, Hl.
Qed.


(** ** The document, page by page *)

(** X17 ([generate_proof]): the outline of the document.  For a font
    that exists, opens and has a Unicode character map, and an output
    path that can be written, the one file written starts with the
    title page, which has no header or footer, and goes on with pages
    headed, in this order, Alphabet, Numerals & Punctuation, Size
    Waterfall, Spacing Proof, Paragraph Setting and Kerning Pairs, then
    the pages of the Character Set grid, numbered from 1 (the first
    unnumbered, the next "page 2"), and last the Arabic page when the
    map has a character of that range.  No "Spacing Proof (continued)"
    page is among them. *)
Theorem generate_proof_outline
    (stamp_str : pystr) (resolve : pystr -> pystr) (path_exists : pystr -> bool)
    (open_font : pystr -> option ttfont) (can_save : pystr -> bool)
    (font_path output_path : pystr) (ttf : ttfont) (cmap : gmap N pystr) :
  path_exists (resolve font_path) = true ->
  open_font (resolve font_path) = Some ttf ->
  get_cmap ttf = Some cmap ->
  can_save (resolve output_path) = true ->
  let info := get_font_info ttf in
  let run := generate_proof measure date_str stamp_str resolve path_exists open_font
               can_save font_path output_path in
  exists title rest,
    saved run.2 = [(resolve output_path, title :: rest)] /\
    carries_no_chrome measure date_str info title = true /\
    Forall2 (headed measure date_str info) (outline cmap) rest.
Proof.
  intros Hexists Hopen Hcmap Hsave info run. subst run. unfold generate_proof.
  rewrite Hexists, Hopen, Hcmap, Hsave. cbn [negb]. fold info.
  pose proof (proof_pages_titles stamp_str (resolve font_path) info cmap
                (Canvas [] default_gstate [])) as (title & rest & Hdoc & Hno & Hrest).
  destruct (proof_pages measure date_str stamp_str (resolve font_path) info
              cmap (Canvas [] default_gstate [])) as [total c].
  cbn [fst snd] in Hdoc |- *.
  exists title, rest. rewrite <- Hdoc. done.
Qed.


(** ** Runs that end in an exception *)

(** X18 ([generate_proof], [get_cmap]): a font without a Unicode
    character map.  When the font opens but [getBestCmap()] is [None],
    the run prints the name of the font and its family, style and glyph
    count, announces the pages, and then fails in the Character Set
    template, where the keys of the map are asked for: no file is
    written, and the process ends with status 1. *)
Theorem font_without_unicode_cmap_exits_1
    (stamp_str : pystr) (resolve : pystr -> pystr) (path_exists : pystr -> bool)
    (open_font : pystr -> option ttfont) (can_save : pystr -> bool)
    (script_dir : pystr) (argv : list pystr) (ttf : ttfont) :
  let font_path :=
    if (1 <? length argv)%nat then nth 1 argv []
    else script_dir ++ py "/fonts/VirtuaGrotesk-Regular.ttf" in
  path_exists (resolve font_path) = true ->
  open_font (resolve font_path) = Some ttf ->
  get_cmap ttf = None ->
  let info := get_font_info ttf in
  let exit := main measure date_str stamp_str resolve path_exists open_font
                can_save script_dir argv in
  exit = (1, [ EvPrint (py "Generating proof for: " ++ path_name (resolve font_path));
               EvOpenFont (resolve font_path);
               EvOpenFont (resolve font_path);
               EvPrint (py "  Family: " ++ family info);
               EvPrint (py "  Style: " ++ style info);
               EvPrint (py "  Glyphs: " ++ str_of_N (glyph_count info));
               EvPrint (py "  Creating pages...") ]) /\
  saved exit.2 = [].
Proof.
  intros font_path Hexists Hopen Hcmap info exit. subst exit.
  unfold main, generate_proof. fold font_path.
  rewrite Hexists, Hopen, Hcmap. cbn. done.
Qed.

(** X19 ([generate_proof]): a document that cannot be written.  When
    the font is in order but [db.saveImage] raises, the run has printed
    everything up to "Creating pages..." and neither the "Saved" nor
    the "Pages" line; no file is recorded as written, and the process
    ends with status 1. *)
Theorem failed_save_exits_1
    (stamp_str : pystr) (resolve : pystr -> pystr) (path_exists : pystr -> bool)
    (open_font : pystr -> option ttfont) (can_save : pystr -> bool)
    (script_dir : pystr) (argv : list pystr) (ttf : ttfont) (cmap : gmap N pystr) :
  let font_path :=
    if (1 <? length argv)%nat then nth 1 argv []
    else script_dir ++ py "/fonts/VirtuaGrotesk-Regular.ttf" in
  let output_path :=
    if (2 <? length argv)%nat then nth 2 argv []
    else script_dir ++ py "/proof.pdf" in
  path_exists (resolve font_path) = true ->
  open_font (resolve font_path) = Some ttf ->
  get_cmap ttf = Some cmap ->
  can_save (resolve output_path) = false ->
  let info := get_font_info ttf in
  let exit := main measure date_str stamp_str resolve path_exists open_font
                can_save script_dir argv in
  exit = (1, [ EvPrint (py "Generating proof for: " ++ path_name (resolve font_path));
               EvOpenFont (resolve font_path);
               EvOpenFont (resolve font_path);
               EvPrint (py "  Family: " ++ family info);
               EvPrint (py "  Style: " ++ style info);
               EvPrint (py "  Glyphs: " ++ str_of_N (glyph_count info));
               EvPrint (py "  Creating pages...") ]) /\
  saved exit.2 = [].
Proof.
  intros font_path output_path Hexists Hopen Hcmap Hsave info exit. subst exit.
  unfold main, generate_proof. fold font_path output_path.
  rewrite Hexists, Hopen, Hcmap. cbn [negb].
  destruct (proof_pages measure date_str stamp_str (resolve font_path)
              (get_font_info ttf) cmap (Canvas [] default_gstate [])) as [total c].
  rewrite Hsave. cbn. done.
Qed.

End Further.

(** ** Sample runs of the further properties *)

Lemma unreadable_font_sample :
  (fun _ : pystr => true) (py "/repo/broken.ttf") = true /\
  (fun _ : pystr => @None ttfont) (py "/repo/broken.ttf") = None /\
  main (measure_const 0) sample_date sample_stamp (fun p => p) (fun _ => true)
       (fun _ => None) (fun _ => true) (py "/repo")
       [py "proof.py"; py "/repo/broken.ttf"]
  = (1, [ EvPrint (py "Generating proof for: broken.ttf");
          EvOpenFont (py "/repo/broken.ttf") ]).
Proof.
  split; [reflexivity|]. split; [reflexivity|].
  exact (proj1 (unreadable_font_exits_1 (measure_const 0) sample_date sample_stamp
                  (fun p => p) (fun _ => true) (fun _ => None) (fun _ => true)
                  (py "/repo") [py "proof.py"; py "/repo/broken.ttf"]
                  eq_refl eq_refl)).
Defined.

Lemma generate_proof_outline_sample :
  (fun _ : pystr => true) (py "/repo/font.ttf") = true /\
  (fun _ : pystr => Some (font_of_keys keys_AZ)) (py "/repo/font.ttf")
  = Some (font_of_keys keys_AZ) /\
  get_cmap (font_of_keys keys_AZ) = Some (cmap_of_keys keys_AZ) /\
  (fun _ : pystr => true) (py "/repo/proof.pdf") = true /\
  exists title rest,
    saved (generate_proof (measure_const 0) sample_date sample_stamp
             (fun p => p) (fun _ => true) (fun _ => Some (font_of_keys keys_AZ))
             (fun _ => true) (py "/repo/font.ttf") (py "/repo/proof.pdf")).2
    = [(py "/repo/proof.pdf", title :: rest)] /\
    Forall2 (headed (measure_const 0) sample_date
               (get_font_info (font_of_keys keys_AZ)))
      [ py "Alphabet"; py "Numerals & Punctuation"; py "Size Waterfall";
        py "Spacing Proof"; py "Paragraph Setting"; py "Kerning Pairs";
        py "Character Set" ]
      rest.
Proof.
  split; [reflexivity|]. split; [reflexivity|].
  split; [reflexivity|]. split; [reflexivity|].
  destruct (generate_proof_outline (measure_const 0) sample_date sample_stamp
              (fun p => p) (fun _ => true) (fun _ => Some (font_of_keys keys_AZ))
              (fun _ => true) (py "/repo/font.ttf") (py "/repo/proof.pdf")
              (font_of_keys keys_AZ) (cmap_of_keys keys_AZ)
              eq_refl eq_refl eq_refl eq_refl) as (title & rest & Hsaved & _ & Hrest).
  exists title, rest. split; [exact Hsaved | exact Hrest].
Defined.

Lemma alphabet_page_every_size_sample :
  Forall (fun size : Z =>
            (measure_const 0 (py "font.ttf") size uppercase
             <= (PAGE_WIDTH - 2 * MARGIN)%Z)%Q /\
            (measure_const 0 (py "font.ttf") size lowercase
             <= (PAGE_WIDTH - 2 * MARGIN)%Z)%Q)
         alphabet_sizes /\
  exists prims,
    pages (exec (alphabet_page (measure_const 0) sample_date (py "font.ttf") sample_info)
             blank)
    = [Page (PAGE_WIDTH, PAGE_HEIGHT) prims] /\
    length (specimen_runs (rev prims)) = 14%nat.
Proof.
  assert (Hfit : Forall (fun size : Z =>
            (measure_const 0 (py "font.ttf") size uppercase
             <= (PAGE_WIDTH - 2 * MARGIN)%Z)%Q /\
            (measure_const 0 (py "font.ttf") size lowercase
             <= (PAGE_WIDTH - 2 * MARGIN)%Z)%Q)
         alphabet_sizes).
  { repeat constructor; by vm_compute. }
  split; [exact Hfit|].
  destruct (alphabet_page_sets_every_size (measure_const 0) sample_date
              (py "font.ttf") sample_info blank Hfit) as (prims & E & R).
  exists prims. split; [exact E|]. rewrite R. reflexivity.
Defined.

Lemma font_without_unicode_cmap_sample :
  (fun _ : pystr => true) (py "/repo/symbols.ttf") = true /\
  (fun _ : pystr => Some font_without_cmap) (py "/repo/symbols.ttf")
  = Some font_without_cmap /\
  get_cmap font_without_cmap = None /\
  main (measure_const 0) sample_date sample_stamp (fun p => p) (fun _ => true)
       (fun _ => Some font_without_cmap) (fun _ => true) (py "/repo")
       [py "proof.py"; py "/repo/symbols.ttf"]
  = (1, [ EvPrint (py "Generating proof for: symbols.ttf");
          EvOpenFont (py "/repo/symbols.ttf");
          EvOpenFont (py "/repo/symbols.ttf");
          EvPrint (py "  Family: Symbols");
          EvPrint (py "  Style: Regular");
          EvPrint (py "  Glyphs: 1");
          EvPrint (py "  Creating pages...") ]).
Proof.
  split; [reflexivity|]. split; [reflexivity|]. split; [reflexivity|].
  exact (proj1 (font_without_unicode_cmap_exits_1 (measure_const 0) sample_date
                  sample_stamp (fun p => p) (fun _ => true)
                  (fun _ => Some font_without_cmap) (fun _ => true) (py "/repo")
                  [py "proof.py"; py "/repo/symbols.ttf"] font_without_cmap
                  eq_refl eq_refl eq_refl)).
Defined.

Lemma failed_save_sample :
  (fun _ : pystr => true) (py "/repo/font.ttf") = true /\
  (fun _ : pystr => Some (font_of_keys keys_AZ)) (py "/repo/font.ttf")
  = Some (font_of_keys keys_AZ) /\
  get_cmap (font_of_keys keys_AZ) = Some (cmap_of_keys keys_AZ) /\
  (fun _ : pystr => false) (py "/readonly/proof.pdf") = false /\
  (main (measure_const 0) sample_date sample_stamp (fun p => p) (fun _ => true)
        (fun _ => Some (font_of_keys keys_AZ)) (fun _ => false) (py "/repo")
        [py "proof.py"; py "/repo/font.ttf"; py "/readonly/proof.pdf"]).1 = 1 /\
  saved (main (measure_const 0) sample_date sample_stamp (fun p => p) (fun _ => true)
           (fun _ => Some (font_of_keys keys_AZ)) (fun _ => false) (py "/repo")
           [py "proof.py"; py "/repo/font.ttf"; py "/readonly/proof.pdf"]).2 = [].
Proof.
  split; [reflexivity|]. split; [reflexivity|]. split; [reflexivity|].
  split; [reflexivity|].
  destruct (failed_save_exits_1 (measure_const 0) sample_date sample_stamp
              (fun p => p) (fun _ => true) (fun _ => Some (font_of_keys keys_AZ))
              (fun _ => false) (py "/repo")
              [py "proof.py"; py "/repo/font.ttf"; py "/readonly/proof.pdf"]
              (font_of_keys keys_AZ) (cmap_of_keys keys_AZ)
              eq_refl eq_refl eq_refl eq_refl) as [Hexit Hsaved].
  split; [|exact Hsaved]. rewrite Hexit. reflexivity.
Defined.
